(** * CodeChecker: plist report parsing, filtering, suppression and rendering

    A shallow embedding of [libcodechecker/analyze/plist_parser.py] and of
    [libcodechecker/generic_package_suppress_handler.py].

    Python values read from a plist are kept as a tree ([pyval]); Python
    exceptions are an explicit error type ([exn], [result]); code that
    assigns to locals, mutates the parsed document, logs or touches the file
    system runs in a state-and-error monad whose state survives a raised
    exception, as Python locals do. *)

From Stdlib Require Import ZArith String Ascii List Bool Lia DecimalString.
From stdpp Require Import base option list strings gmap.

Set Warnings "-register-all".
Set Default Proof Using "Type".

(** ** Python values *)

(** What [plistlib] hands back: dictionaries with string keys, arrays,
    strings, integers and booleans.  Reals, dates and data blobs are never
    inspected by the code below and are left out. *)
Inductive pyval : Type :=
| PBool (b : bool)
| PInt (z : Z)
| PStr (s : string)
| PList (l : list pyval)
| PDict (d : gmap string pyval).

(** The exception classes the two modules can meet.  [KeyboardInterrupt]
    stands for the classes that do not derive from [Exception]. *)
Inductive exn : Type :=
| ExpatError | TypeError | AttributeError | IndexError | KeyError
| IOError | ValueError | KeyboardInterrupt.

Inductive result (A : Type) : Type :=
| Ok (a : A)
| Raise (e : exn).
Arguments Ok {A} a.
Arguments Raise {A} e.

Definition is_raise {A} (r : result A) : bool :=
  match r with Ok _ => false | Raise _ => true end.

(** [isinstance(e, Exception)] *)
Definition is_Exception (e : exn) : bool :=
  match e with KeyboardInterrupt => false | _ => true end.

(** Python truthiness ([not v] is its negation). *)
Definition truthy (v : pyval) : bool :=
  match v with
  | PBool b => b
  | PInt z => negb (z =? 0)%Z
  | PStr s => match s with EmptyString => false | _ => true end
  | PList l => match l with [] => false | _ => true end
  | PDict d => negb (Nat.eqb (size d) 0)
  end.

(** Truthiness of the result of [dict.get], where [None] is the missing key. *)
Definition truthy_opt (o : option pyval) : bool :=
  match o with Some v => truthy v | None => false end.

(** An integer usable as a sequence index ([bool] is a subclass of [int]). *)
Definition py_as_index (k : pyval) : option Z :=
  match k with
  | PInt z => Some z
  | PBool b => Some (Z.b2z b)
  | _ => None
  end.

(** [l[i]] on a sequence: negative indices count from the end. *)
Definition py_index {A} (l : list A) (i : Z) : result A :=
  let j := if (i <? 0)%Z then (i + Z.of_nat (length l))%Z else i in
  if (j <? 0)%Z then Raise IndexError
  else match l !! Z.to_nat j with
       | Some x => Ok x
       | None => Raise IndexError
       end.

Definition chars (s : string) : list pyval :=
  (fun c => PStr (String c EmptyString)) <$> list_ascii_of_string s.

(** [v[k]] *)
Definition py_getitem (v k : pyval) : result pyval :=
  match v with
  | PDict d =>
      match k with
      | PStr s => match d !! s with Some x => Ok x | None => Raise KeyError end
      | PInt _ | PBool _ => Raise KeyError
      | PList _ | PDict _ => Raise TypeError
      end
  | PList l =>
      match py_as_index k with
      | Some i => py_index l i
      | None => Raise TypeError
      end
  | PStr s =>
      match py_as_index k with
      | Some i => py_index (chars s) i
      | None => Raise TypeError
      end
  | PBool _ | PInt _ => Raise TypeError
  end.

(** [v.get(k)]: only dictionaries have the method. *)
Definition py_get (v : pyval) (k : string) : result (option pyval) :=
  match v with
  | PDict d => Ok (d !! k)
  | _ => Raise AttributeError
  end.

(** [v.keys()] *)
Definition py_keys (v : pyval) : result (list string) :=
  match v with
  | PDict d => Ok ((map_to_list d).*1)
  | _ => Raise AttributeError
  end.

(** The items a [for] loop (or a comprehension) draws from [v]. *)
Definition py_iter (v : pyval) : result (list pyval) :=
  match v with
  | PList l => Ok l
  | PDict d => Ok (PStr <$> (map_to_list d).*1)
  | PStr s => Ok (chars s)
  | PBool _ | PInt _ => Raise TypeError
  end.

(** [v == s] for a string literal [s] *)
Definition py_eq_str (v : pyval) (s : string) : bool :=
  match v with PStr t => bool_decide (t = s) | _ => false end.

(** [v == i] for an integer [i] *)
Definition py_eq_int (v : pyval) (i : Z) : bool :=
  match py_as_index v with Some z => (z =? i)%Z | None => false end.

Definition is_substring (s t : string) : bool :=
  match String.index 0 s t with Some _ => true | None => false end.

(** [k in v] for a string literal [k] *)
Definition py_contains (k : string) (v : pyval) : result bool :=
  match v with
  | PDict d => Ok (bool_decide (is_Some (d !! k)))
  | PList l => Ok (existsb (fun x => py_eq_str x k) l)
  | PStr s => Ok (is_substring k s)
  | PBool _ | PInt _ => Raise TypeError
  end.

(** ** Strings and paths *)

(** [s.lstrip('/')] *)
Fixpoint lstrip_slash (s : string) : string :=
  match s with
  | String c r => if Ascii.eqb c "/" then lstrip_slash r else s
  | EmptyString => s
  end.

Fixpoint has_slash (s : string) : bool :=
  match s with
  | String c r => Ascii.eqb c "/" || has_slash r
  | EmptyString => false
  end.

Fixpoint ends_with_slash (s : string) : bool :=
  match s with
  | String c EmptyString => Ascii.eqb c "/"
  | String _ r => ends_with_slash r
  | EmptyString => false
  end.

(** [os.path.basename(p)]: what follows the last slash. *)
Fixpoint basename (p : string) : string :=
  match p with
  | EmptyString => EmptyString
  | String c r =>
      if has_slash r then basename r
      else if Ascii.eqb c "/" then r else p
  end.

(** The newline character, as a string. *)
Definition nl : string := String (ascii_of_nat 10) EmptyString.

(** [os.path.join(a, b)] of [posixpath], two arguments. *)
Definition path_join (a b : string) : string :=
  match b with
  | String "/" _ => b
  | _ => match a with
         | EmptyString => b
         | _ => if ends_with_slash a then a ++ b else a ++ "/" ++ b
         end
  end.

(** ** State and errors *)

(** A computation over state [S] that returns or raises; the state reached
    when the exception was raised is kept. *)
Definition M (S A : Type) : Type := S -> result A * S.

Definition ret {S A} (a : A) : M S A := fun s => (Ok a, s).

Definition bind {S A B} (m : M S A) (k : A -> M S B) : M S B :=
  fun s => match m s with
           | (Ok a, s') => k a s'
           | (Raise e, s') => (Raise e, s')
           end.

Definition raise {S A} (e : exn) : M S A := fun s => (Raise e, s).

Definition lift {S A} (r : result A) : M S A := fun s => (r, s).

Definition gets {S A} (f : S -> A) : M S A := fun s => (Ok (f s), s).

Definition modify {S} (f : S -> S) : M S unit := fun s => (Ok tt, f s).

(** The postcondition [Q] holds if [m] returns from state [s], [E] if it
    raises. *)
Definition wp {S A} (m : M S A) (Q : A -> S -> Prop) (E : exn -> S -> Prop)
    (s : S) : Prop :=
  match m s with
  | (Ok a, s') => Q a s'
  | (Raise e, s') => E e s'
  end.

Declare Scope py_scope.
Delimit Scope py_scope with py.
Notation "'let*' x ':=' m 'in' k" := (bind m (fun x => k))
  (at level 10, x pattern, m at level 100, k at level 200) : py_scope.
Notation "m '>>' k" := (bind m (fun _ => k))
  (at level 90, right associativity) : py_scope.
Open Scope py_scope.

(** [for x in l: body x] *)
Fixpoint for_each {S A} (l : list A) (body : A -> M S unit) : M S unit :=
  match l with
  | [] => ret tt
  | x :: l' => body x >> for_each l' body
  end.

(** [for i, x in enumerate(l, start): body i x] *)
Fixpoint for_each_from {St A} (start : nat) (l : list A)
    (body : nat -> A -> M St unit) : M St unit :=
  match l with
  | [] => ret tt
  | x :: l' => body start x >> for_each_from (S start) l' body
  end.

(** [try: body except ...: handler], a handler being chosen by the
    exception's class; [None] lets the exception through. *)
Definition try_except {S A} (body : M S A) (handler : exn -> option (M S A))
  : M S A :=
  fun s => match body s with
           | (Ok a, s') => (Ok a, s')
           | (Raise e, s') =>
               match handler e with
               | Some h => h s'
               | None => (Raise e, s')
               end
           end.

(** [try: body finally: return v]: the [return] in the [finally] clause
    replaces whatever the body did, a pending exception included. *)
Definition finally_return {S A B} (body : M S A) (v : S -> B) : M S B :=
  fun s => let '(_, s') := body s in (Ok (v s'), s').

(** ** The world outside: stored documents and the log *)

(** What a path (or a string handed to the filter) holds: a document, kept
    as its logical value since the byte format is [plistlib]'s business, or
    bytes on which the reader raises [e]. *)
Inductive stored : Type :=
| Unreadable (e : exn)
| Plist (v : pyval).

Inductive log_entry : Type :=
| LogDebug (msg : string)
| LogWarning (msg : string)
| LogError (msg : string)
| LogErrorExn (e : exn).

(** The plist documents by path, the paths that may not be written, and
    the log.  The suppress files are not kept here: a handler carries the
    files it reads and writes in its own state (see
    [GenericSuppressHandler]), so what a pass does to them shows in the
    handler, not in [contents]. *)
Record world : Type := mkWorld {
  contents : gmap string stored;
  readonly : gset string;
  log : list log_entry }.

Class Logger (S : Type) := log_to : log_entry -> S -> S.

#[global] Instance world_logger : Logger world :=
  fun e w => mkWorld (contents w) (readonly w) (log w ++ [e]).

Definition LOG {S} `{Logger S} (e : log_entry) : M S unit := modify (log_to e).

(** [plistlib.readPlist(path)] *)
Definition readPlist (path : string) (w : world) : result pyval :=
  match contents w !! path with
  | None => Raise IOError
  | Some (Unreadable e) => Raise e
  | Some (Plist v) => Ok v
  end.

(** [plistlib.writePlist(plist, path)] *)
Definition writePlist (plist : pyval) (path : string) (w : world)
  : result unit * world :=
  if bool_decide (path ∈ readonly w) then (Raise IOError, w)
  else (Ok tt, mkWorld (<[path := Plist plist]> (contents w)) (readonly w)
                       (log w)).

(** [plistlib.readPlistFromString(content)] *)
Definition readPlistFromString (content : stored) : result pyval :=
  match content with
  | Unreadable e => Raise e
  | Plist v => Ok v
  end.

(** [plistlib.writePlistToString(data)] *)
Definition writePlistToString (data : pyval) : stored := Plist data.

(** ** Reports *)

(** Modelled from the spec: the class [Report] of [libcodechecker.report],
    whose source is not part of this module; a diagnostic record holding the
    main section, the path steps and the file table it was built with. *)
Record Report : Type := mkReport {
  main : pyval;
  bug_path : list pyval;
  files : pyval }.

Definition hash_key : string := "issue_hash_content_of_line_in_context".

(** ** The plist parser *)

(** The locals of [parse_plist], with the world and the parsed document
    (which the loop mutates in place). *)
Record locals : Type := mkLocals {
  l_world : world;
  l_plist : pyval;
  l_files : pyval;
  l_reports : list Report;
  l_diag_changed : bool }.

#[global] Instance locals_logger : Logger locals :=
  fun e s => mkLocals (log_to e (l_world s)) (l_plist s) (l_files s)
                      (l_reports s) (l_diag_changed s).

Definition set_plist (v : pyval) : M locals unit :=
  modify (fun s => mkLocals (l_world s) v (l_files s) (l_reports s)
                            (l_diag_changed s)).

Definition set_files (v : pyval) : M locals unit :=
  modify (fun s => mkLocals (l_world s) (l_plist s) v (l_reports s)
                            (l_diag_changed s)).

Definition append_report (r : Report) : M locals unit :=
  modify (fun s => mkLocals (l_world s) (l_plist s) (l_files s)
                            (l_reports s ++ [r]) (l_diag_changed s)).

Definition set_diag_changed (b : bool) : M locals unit :=
  modify (fun s => mkLocals (l_world s) (l_plist s) (l_files s)
                            (l_reports s) b).

(** [d[k] = v] on the dictionary object [d] *)
Definition dict_setitem (k : string) (v : pyval) (d : pyval) : pyval :=
  match d with
  | PDict m => PDict (<[k := v]> m)
  | _ => d
  end.

(** The document after [diag[k] = v], [diag] being the [i]-th item of
    [plist['diagnostics']]: the loop variable aliases that item. *)
Definition setitem_in_diag (i : nat) (k : string) (v : pyval) (plist : pyval)
  : pyval :=
  match plist with
  | PDict m =>
      match m !! "diagnostics" with
      | Some (PList ds) =>
          PDict (<["diagnostics" := PList (alter (dict_setitem k v) i ds)]> m)
      | _ => plist
      end
  | _ => plist
  end.

Definition store_in_diag (i : nat) (k : string) (v : pyval) : M locals unit :=
  modify (fun s => mkLocals (l_world s) (setitem_in_diag i k v (l_plist s))
                            (l_files s) (l_reports s) (l_diag_changed s)).

Definition on_world {A} (f : world -> result A * world) : M locals A :=
  fun s => let '(r, w) := f (l_world s) in
           (r, mkLocals w (l_plist s) (l_files s) (l_reports s)
                        (l_diag_changed s)).

Definition unknown_checker_warning (path : string) : log_entry :=
  LogWarning ("Check name wasn't found in the plist file '" ++ path ++ "'. ").

(** [get_checker_name(diagnostic, path)] *)
Definition get_checker_name {S} `{Logger S} (diagnostic : pyval)
    (path : string) : M S pyval :=
  let* checker_name := lift (py_get diagnostic "check_name") in
  match checker_name with
  | Some v =>
      if negb (truthy v)
      then LOG (unknown_checker_warning path) >> ret (PStr "unknown")
      else ret v
  | None => LOG (unknown_checker_warning path) >> ret (PStr "unknown")
  end.

Section Parser.

(** [generate_report_hash(path, source_file, check_name)] of
    [libcodechecker.report]: the content hash, a function of its
    arguments, which may also raise. *)
Variable generate_report_hash : pyval -> pyval -> pyval -> result string.

(** [get_report_hash(diagnostic, source_file)] *)
Definition get_report_hash {S} `{Logger S} (diagnostic source_file : pyval)
  : M S pyval :=
  let* report_hash := lift (py_get diagnostic hash_key) in
  let generate :=
    let* p := lift (py_getitem diagnostic (PStr "path")) in
    let* checker := get_checker_name diagnostic EmptyString in
    let* h := lift (generate_report_hash p source_file checker) in
    ret (PStr h) in
  match report_hash with
  | Some v => if negb (truthy v) then generate else ret v
  | None => generate
  end.

(** [os.path.join(source_root, file_path.lstrip('/'))] when [source_root]
    is given and not empty. *)
Definition resolve_source_file (source_root : option string)
    (file_path : pyval) : result pyval :=
  match source_root with
  | Some (String c r) =>
      match file_path with
      | PStr p => Ok (PStr (path_join (String c r) (lstrip_slash p)))
      | _ => Raise AttributeError
      end
  | _ => Ok file_path
  end.

(** The main section: every key of the diagnostic but ['path']. *)
Fixpoint copy_main_section (diag : pyval) (keys : list string)
    (main_section : gmap string pyval) : result (gmap string pyval) :=
  match keys with
  | [] => Ok main_section
  | key :: keys' =>
      if negb (bool_decide (key = "path"))
      then match py_getitem diag (PStr key) with
           | Ok v => copy_main_section diag keys' (<[key := v]> main_section)
           | Raise e => Raise e
           end
      else copy_main_section diag keys' main_section
  end.

(** The body of the loop over [plist['diagnostics']], for the [i]-th
    item [diag]. *)
Definition parse_diag (path : string) (source_root : option string)
    (files : pyval) (i : nat) (diag : pyval) : M locals unit :=
  let* available_keys := lift (py_keys diag) in
  let* main_section := lift (copy_main_section diag available_keys ∅) in
  let* checker := get_checker_name diag path in
  let main_section := <["check_name" := checker]> main_section in
  let* loc := lift (py_getitem diag (PStr "location")) in
  let* fid := lift (py_getitem loc (PStr "file")) in
  let* file_path := lift (py_getitem files fid) in
  let* file_path := lift (resolve_source_file source_root file_path) in
  let* report_hash := get_report_hash diag file_path in
  let main_section := <[hash_key := report_hash]> main_section in
  let* present := lift (py_contains hash_key diag) in
  (if negb present
   then store_in_diag i hash_key report_hash >> set_diag_changed true
   else ret tt) >>
  let* p := lift (py_getitem diag (PStr "path")) in
  let* bug_path_items := lift (py_iter p) in
  append_report (mkReport (PDict main_section) bug_path_items files).

(** The loop over [plist['diagnostics']]; the position of each item is
    kept to find the object the loop variable aliases. *)
Definition parse_diagnostics (path : string) (source_root : option string)
    (files : pyval) (start : nat) (diags : list pyval) : M locals unit :=
  for_each_from start diags (parse_diag path source_root files).

(** The [try] suite of [parse_plist]. *)
Definition parse_plist_try (path : string) (source_root : option string)
    (allow_plist_update : bool) : M locals unit :=
  let* plist := on_world (fun w => (readPlist path w, w)) in
  set_plist plist >>
  let* files := lift (py_getitem plist (PStr "files")) in
  set_files files >>
  set_diag_changed false >>
  let* diagnostics := lift (py_getitem plist (PStr "diagnostics")) in
  let* diags := lift (py_iter diagnostics) in
  parse_diagnostics path source_root files 0 diags >>
  let* diag_changed := gets l_diag_changed in
  if diag_changed && allow_plist_update
  then let* plist := gets l_plist in
       on_world (writePlist plist path)
  else ret tt.

(** The [except] clauses, in order. *)
Definition parse_plist_except (path : string) (e : exn)
  : option (M locals unit) :=
  match e with
  | ExpatError | TypeError | AttributeError =>
      Some (LOG (LogError ("Failed to process plist file: " ++ path ++
                           " wrong file format?")) >>
            LOG (LogErrorExn e))
  | IndexError =>
      Some (LOG (LogError ("Indexing error during processing plist file " ++
                           path)) >>
            LOG (LogErrorExn e) >>
            LOG (LogErrorExn e))
  | _ =>
      if is_Exception e
      then Some (LOG (LogError
                   ("Error during processing reports from the plist file: "
                    ++ path)) >>
                 LOG (LogErrorExn e) >>
                 LOG (LogErrorExn e))
      else None
  end.

(** The locals when the [try] statement is entered: [reports = []],
    [files = []]; the other two are not bound yet. *)
Definition start_locals (path : string) (w : world) : locals :=
  mkLocals (log_to (LogDebug ("Parsing plist: " ++ path)) w)
           (PDict ∅) (PList []) [] false.

(** [parse_plist(path, source_root, allow_plist_update)] *)
Definition parse_plist (path : string) (source_root : option string)
    (allow_plist_update : bool) (w : world)
  : result (pyval * list Report) * world :=
  let '(r, s) :=
    finally_return
      (try_except (parse_plist_try path source_root allow_plist_update)
                  (parse_plist_except path))
      (fun s => (l_files s, l_reports s))
      (start_locals path w) in
  (r, l_world s).

End Parser.

(** *** What the loop computes for one diagnostic

    The value of each step of the loop body, without the log and the
    locals: used to state what the parser returns. *)

(** The value [get_checker_name] returns. *)
Definition checker_name_of (diagnostic : pyval) : result pyval :=
  match py_get diagnostic "check_name" with
  | Ok (Some v) => Ok (if truthy v then v else PStr "unknown")
  | Ok None => Ok (PStr "unknown")
  | Raise e => Raise e
  end.

Section ParsedDiagnostic.

Variable generate_report_hash : pyval -> pyval -> pyval -> result string.

(** The hash [generate_report_hash] computes for a diagnostic. *)
Definition generated_hash_of (diagnostic source_file : pyval)
  : result pyval :=
  match py_getitem diagnostic (PStr "path") with
  | Ok p =>
      match checker_name_of diagnostic with
      | Ok checker =>
          match generate_report_hash p source_file checker with
          | Ok h => Ok (PStr h)
          | Raise e => Raise e
          end
      | Raise e => Raise e
      end
  | Raise e => Raise e
  end.

(** The value [get_report_hash] returns. *)
Definition report_hash_of (diagnostic source_file : pyval) : result pyval :=
  match py_get diagnostic hash_key with
  | Ok (Some v) =>
      if truthy v then Ok v else generated_hash_of diagnostic source_file
  | Ok None => generated_hash_of diagnostic source_file
  | Raise e => Raise e
  end.

(** The report built from a diagnostic, with its identity hash and
    whether the diagnostic lacked the hash field. *)
Definition parsed_diag (source_root : option string) (files diag : pyval)
  : result (Report * pyval * bool) :=
  match py_keys diag with
  | Raise e => Raise e
  | Ok available_keys =>
  match copy_main_section diag available_keys ∅ with
  | Raise e => Raise e
  | Ok main_section =>
  match checker_name_of diag with
  | Raise e => Raise e
  | Ok checker =>
  match py_getitem diag (PStr "location") with
  | Raise e => Raise e
  | Ok loc =>
  match py_getitem loc (PStr "file") with
  | Raise e => Raise e
  | Ok fid =>
  match py_getitem files fid with
  | Raise e => Raise e
  | Ok file_path =>
  match resolve_source_file source_root file_path with
  | Raise e => Raise e
  | Ok file_path =>
  match report_hash_of diag file_path with
  | Raise e => Raise e
  | Ok report_hash =>
  match py_contains hash_key diag with
  | Raise e => Raise e
  | Ok present =>
  match py_getitem diag (PStr "path") with
  | Raise e => Raise e
  | Ok p =>
  match py_iter p with
  | Raise e => Raise e
  | Ok bug_path_items =>
      Ok (mkReport (PDict (<[hash_key := report_hash]>
                           (<["check_name" := checker]> main_section)))
                   bug_path_items files,
          report_hash, negb present)
  end end end end end end end end end end end.

(** The reports of the diagnostics up to the first one that raises, and
    the exception it raises. *)
Fixpoint parsed_diags (source_root : option string) (files : pyval)
    (diags : list pyval) : list Report * option exn :=
  match diags with
  | [] => ([], None)
  | diag :: diags' =>
      match parsed_diag source_root files diag with
      | Ok (report, _, _) =>
          let '(reports, e) := parsed_diags source_root files diags' in
          (report :: reports, e)
      | Raise e => ([], Some e)
      end
  end.

(** Whether the loop marks the document changed for this diagnostic. *)
Definition lacks_hash (source_root : option string) (files diag : pyval)
  : bool :=
  match parsed_diag source_root files diag with
  | Ok (_, _, absent) => absent
  | Raise _ => false
  end.

(** The diagnostic as the loop leaves it in the document: with its hash
    stored, if it lacked the field. *)
Definition enriched (source_root : option string) (files diag : pyval)
  : pyval :=
  match parsed_diag source_root files diag with
  | Ok (_, h, true) => dict_setitem hash_key h diag
  | _ => diag
  end.

End ParsedDiagnostic.

(** The log entries [entries] added to the world of [s]. *)
Definition logged (entries : list log_entry) (s : locals) : locals :=
  foldl (fun s e => log_to e s) s entries.

(** ** The file-exclusion filter *)

Definition bind_r {A B} (r : result A) (k : A -> result B) : result B :=
  match r with
  | Ok a => k a
  | Raise e => Raise e
  end.

Notation "'let?' x ':=' r 'in' k" := (bind_r r (fun x => k))
  (at level 10, x pattern, r at level 100, k at level 200) : py_scope.

(** [acc] extended with [f x] for each [x] of [l], in order. *)
Fixpoint extend_each {A B} (f : A -> result (list B)) (l : list A)
    (acc : list B) : result (list B) :=
  match l with
  | [] => Ok acc
  | x :: l' => let? ys := f x in extend_each f l' (acc ++ ys)
  end.

(** [for l in locs: fids.append(l['file'])] *)
Definition append_file_ids (locs : pyval) (fids : list pyval)
  : result (list pyval) :=
  let? ls := py_iter locs in
  extend_each (fun l => let? fid := py_getitem l (PStr "file") in Ok [fid])
              ls fids.

(** [fids_in_range(rng)] *)
Definition fids_in_range (rng : pyval) : result (list pyval) :=
  let? rs := py_iter rng in
  (fix loop (rs : list pyval) (fids : list pyval) : result (list pyval) :=
     match rs with
     | [] => Ok fids
     | r :: rs' => let? fids := append_file_ids r fids in loop rs' fids
     end) rs [].

(** [fids_in_edge(edges)] *)
Definition fids_in_edge (edges : pyval) : result (list pyval) :=
  let? es := py_iter edges in
  (fix loop (es : list pyval) (fids : list pyval) : result (list pyval) :=
     match es with
     | [] => Ok fids
     | e :: es' =>
         let? start := py_getitem e (PStr "start") in
         let? end_ := py_getitem e (PStr "end") in
         let? fids := append_file_ids start fids in
         let? fids := append_file_ids end_ fids in
         loop es' fids
     end) es [].

(** [try: acc.extend(r) except KeyError: pass] *)
Definition extend_unless_KeyError {A} (acc : list A) (r : result (list A))
  : result (list A) :=
  match r with
  | Ok xs => Ok (acc ++ xs)
  | Raise KeyError => Ok acc
  | Raise e => Raise e
  end.

(** The file ids of one path element [pe]. *)
Definition path_element_fids (pe : pyval) : result (list pyval) :=
  let? path_fids :=
    extend_unless_KeyError [] (let? rng := py_getitem pe (PStr "ranges") in
                               fids_in_range rng) in
  let? path_fids :=
    extend_unless_KeyError path_fids
      (let? loc := py_getitem pe (PStr "location") in
       let? fid := py_getitem loc (PStr "file") in
       Ok [fid]) in
  extend_unless_KeyError path_fids
    (let? edges := py_getitem pe (PStr "edges") in fids_in_edge edges).

(** [x in file_ids_to_remove], the list holding positions of the file
    table. *)
Definition in_file_ids (x : pyval) (file_ids_to_remove : list nat) : bool :=
  existsb (fun i => py_eq_int x (Z.of_nat i)) file_ids_to_remove.

(** The loop of [fids_in_path] over the diagnostics. *)
Fixpoint fids_in_path_loop (diags : list pyval) (file_ids_to_remove : list nat)
    (all_fids kept_diagnostics : list pyval)
  : result (list pyval * list pyval) :=
  match diags with
  | [] => Ok (all_fids, kept_diagnostics)
  | diag :: diags' =>
      let? loc := py_getitem diag (PStr "location") in
      let? fid := py_getitem loc (PStr "file") in
      if in_file_ids fid file_ids_to_remove
      then fids_in_path_loop diags' file_ids_to_remove all_fids kept_diagnostics
      else
        let kept_diagnostics := kept_diagnostics ++ [diag] in
        let? p := py_getitem diag (PStr "path") in
        let? pes := py_iter p in
        let? all_fids := extend_each path_element_fids pes all_fids in
        fids_in_path_loop diags' file_ids_to_remove all_fids kept_diagnostics
  end.

(** [fids_in_path(report_data, file_ids_to_remove)] *)
Definition fids_in_path (report_data : pyval) (file_ids_to_remove : list nat)
  : result (list pyval * list pyval) :=
  let? diagnostics := py_getitem report_data (PStr "diagnostics") in
  let? diags := py_iter diagnostics in
  fids_in_path_loop diags file_ids_to_remove [] [].

Section Filter.

(** [skip_handler.should_skip(f)]: the exclusion predicate. *)
Variable should_skip : pyval -> result bool.

(** [for i, f in enumerate(files): if should_skip(f): ids.append(i)] *)
Fixpoint collect_file_ids (i : nat) (fs : list pyval) (ids : list nat)
  : result (list nat) :=
  match fs with
  | [] => Ok ids
  | f :: fs' =>
      let? skip := should_skip f in
      collect_file_ids (S i) fs' (if skip then ids ++ [i] else ids)
  end.

(** The second [try] suite of [remove_report_from_plist]. *)
Definition remove_report_try (report_data : pyval) : result stored :=
  let? files := py_getitem report_data (PStr "files") in
  let? fs := py_iter files in
  let? file_ids_to_remove := collect_file_ids 0 fs [] in
  let? (_, kept_diagnostics) := fids_in_path report_data file_ids_to_remove in
  let new_data := dict_setitem "diagnostics" (PList kept_diagnostics)
                               report_data in
  Ok (writePlistToString new_data).

(** [remove_report_from_plist(plist_content, skip_handler)] *)
Definition remove_report_from_plist (plist_content : stored)
  : result stored :=
  match readPlistFromString plist_content with
  | Raise (ExpatError | TypeError | AttributeError) => Ok plist_content
  | Raise e => Raise e
  | Ok report_data =>
      match remove_report_try report_data with
      | Raise KeyError => Ok plist_content
      | r => r
      end
  end.

(** [skip_report_from_plist(plist_file, skip_handler)]: the file is
    opened for update, which fails when it is missing or may not be
    written; what it holds is replaced by what the filter returns.  An
    exception of the filter leaves the file as it was.  (The error lines
    the filter logs are left out.) *)
Definition skip_report_from_plist (plist_file : string) : M world unit :=
  fun w =>
    match contents w !! plist_file with
    | None => (Raise IOError, w)
    | Some plist =>
        if bool_decide (plist_file ∈ readonly w) then (Raise IOError, w)
        else match remove_report_from_plist plist with
             | Ok new_plist_content =>
                 (Ok tt, mkWorld (<[plist_file := new_plist_content]>
                                    (contents w))
                                 (readonly w) (log w))
             | Raise e => (Raise e, w)
             end
    end.

End Filter.

(** *** Well-formed diagnostics and their primary file *)

(** A path element whose ranges, location and edges can be scanned. *)
Definition scannable (pe : pyval) : bool :=
  negb (is_raise (path_element_fids pe)).

(** A diagnostic as an analyzer writes it: a dictionary whose location
    holds a position of the file table, with a path of scannable
    elements. *)
Definition well_formed_diag (d : pyval) : bool :=
  match d with
  | PDict m =>
      match m !! "location", m !! "path" with
      | Some (PDict l), Some p =>
          match l !! "file", py_iter p with
          | Some (PInt i), Ok pes => (0 <=? i)%Z && forallb scannable pes
          | _, _ => false
          end
      | _, _ => false
      end
  | _ => false
  end.

(** The file of the table that the location of a diagnostic names, as
    [parse_plist] resolves it: [files[diag['location']['file']]], where a
    negative position counts from the end of the table. *)
Definition primary_file (files : list pyval) (d : pyval) : option pyval :=
  match (let? loc := py_getitem d (PStr "location") in
         let? fid := py_getitem loc (PStr "file") in
         py_getitem (PList files) fid) with
  | Ok f => Some f
  | Raise _ => None
  end.

Definition primary_excluded (exclude : pyval -> bool) (files : list pyval)
    (d : pyval) : bool :=
  match primary_file files d with
  | Some f => exclude f
  | None => false
  end.

(** Whether the location of a diagnostic names a position held in
    [file_ids_to_remove]: the test of the [continue] in [fids_in_path]. *)
Definition listed (file_ids_to_remove : list nat) (diag : pyval) : bool :=
  match (let? loc := py_getitem diag (PStr "location") in
         py_getitem loc (PStr "file")) with
  | Ok fid => in_file_ids fid file_ids_to_remove
  | Raise _ => false
  end.

(** The ['file'] entry of a location. *)
Definition file_of (l fid : pyval) : Prop :=
  py_getitem l (PStr "file") = Ok fid.

(** An edge whose ends are the location lists [ends.1] and [ends.2]. *)
Definition edge_between (e : pyval) (ends : list pyval * list pyval) : Prop :=
  py_getitem e (PStr "start") = Ok (PList ends.1) /\
  py_getitem e (PStr "end") = Ok (PList ends.2).

(** A diagnostic that holds a (true) identity hash. *)
Definition has_hash (diag : pyval) : bool :=
  match py_get diag hash_key with
  | Ok (Some v) => truthy v
  | _ => false
  end.

(** ** Suppression handlers *)

(** The interface of [suppress_handler.SuppressHandler] as the formatter
    uses it: a query, and a store operation that may change the handler. *)
Class SuppressHandler (H : Type) : Type := {
  handler_get_suppressed : pyval -> pyval -> H -> result bool;
  handler_store_suppress_bug_id : pyval -> pyval -> pyval -> M H bool }.

(** A record of the suppress file: hash, file name, comment. *)
Definition suppress_record : Type := string * string * string.

(** [any(l)] for a list of suppress records: a record is a non-empty tuple,
    which is true. *)
Definition any_record (l : list suppress_record) : bool :=
  existsb (fun _ => true) l.

(** [os.path.basename(v)] on a value: strings only. *)
Definition py_basename (v : pyval) : result string :=
  match v with
  | PStr p => Ok (basename p)
  | _ => Raise AttributeError
  end.

Module GenericSuppressHandler.

Record t : Type := mk {
  suppress_file : option string;
  have_memory_backend : bool;
  allow_write : bool;
  suppress_info : list suppress_record }.

(** The records the comprehension of [get_suppressed] keeps: those with
    [suppress[0] == bug['hash_value'] and
     suppress[1] == os.path.basename(bug['file_path'])]. *)
Fixpoint matching_records (info : list suppress_record)
    (hash_value file_path : pyval) : result (list suppress_record) :=
  match info with
  | [] => Ok []
  | suppress :: info' =>
      let? keep :=
        if py_eq_str hash_value suppress.1.1
        then let? b := py_basename file_path in
             Ok (bool_decide (suppress.1.2 = b))
        else Ok false in
      let? rest := matching_records info' hash_value file_path in
      Ok (if keep then suppress :: rest else rest)
  end.

(** [get_suppressed(bug)], [bug] being the dictionary with ['hash_value']
    and ['file_path']. *)
Definition get_suppressed (self : t) (hash_value file_path : pyval)
  : result bool :=
  let? found := matching_records (suppress_info self) hash_value file_path in
  Ok (any_record found).

Section Backend.

(** The suppress files, and the functions of
    [libcodechecker.suppress_file_handler] on them. *)
Variable store : Type.
Variable get_suppress_data : string -> store -> result (list suppress_record).
Variable write_to_suppress_file :
  string -> pyval -> pyval -> pyval -> M store bool.
Variable remove_from_suppress_file : string -> pyval -> pyval -> M store bool.

Definition set_info (info : list suppress_record) (self : t) : t :=
  mk (suppress_file self) (have_memory_backend self) (allow_write self) info.

(** [__revalidate_suppress_data()] *)
Definition revalidate_suppress_data : M (t * store) unit :=
  fun '(self, st) =>
    if negb (have_memory_backend self) then (Ok tt, (self, st))
    else match suppress_file self with
         | None => (Raise AttributeError, (self, st))
         | Some f =>
             match get_suppress_data f st with
             | Ok info => (Ok tt, (set_info info self, st))
             | Raise e => (Raise e, (self, st))
             end
         end.

(** [GenericSuppressHandler(suppress_file, allow_write)] *)
Definition init (file : option string) (allow : bool) (st : store)
  : result unit * (t * store) :=
  match file with
  | Some (String c r) =>
      revalidate_suppress_data (mk (Some (String c r)) true allow [], st)
  | _ =>
      let self := mk None false allow [] in
      if allow then (Raise ValueError, (self, st)) else (Ok tt, (self, st))
  end.

Definition on_store {A} (f : M store A) : M (t * store) A :=
  fun '(self, st) => let '(r, st') := f st in (r, (self, st')).

(** [store_suppress_bug_id(bug_id, file_name, comment)] *)
Definition store_suppress_bug_id (bug_id file_name comment : pyval)
  : M (t * store) bool :=
  let* self := gets fst in
  if negb (allow_write self) then ret true
  else match suppress_file self with
       | None => raise AttributeError
       | Some f =>
           let* r := on_store (write_to_suppress_file f bug_id file_name
                                                      comment) in
           revalidate_suppress_data >> ret r
       end.

(** [remove_suppress_bug_id(bug_id, file_name)] *)
Definition remove_suppress_bug_id (bug_id file_name : pyval)
  : M (t * store) bool :=
  let* self := gets fst in
  if negb (allow_write self) then ret true
  else match suppress_file self with
       | None => raise AttributeError
       | Some f =>
           let* r := on_store (remove_from_suppress_file f bug_id
                                                         file_name) in
           revalidate_suppress_data >> ret r
       end.

#[global] Instance handler : SuppressHandler (t * store) := {
  handler_get_suppressed h f s := get_suppressed s.1 h f;
  handler_store_suppress_bug_id := store_suppress_bug_id }.

End Backend.

End GenericSuppressHandler.

(** ** The plain-text formatter *)

(** Keys of the statistics dictionaries: hashable values, [True] and [1]
    being the same key. *)
Inductive hkey : Type :=
| HInt (z : Z)
| HStr (s : string).

#[global] Instance hkey_eq_dec : EqDecision hkey.
Proof. solve_decision. Defined.

#[global] Instance hkey_countable : Countable hkey.
Proof.
  refine (inj_countable'
            (fun k => match k with HInt z => inl z | HStr s => inr s end)
            (fun x => match x with inl z => HInt z | inr s => HStr s end) _).
  intros []; reflexivity.
Defined.

(** [hash(v)], as needed to use [v] as a dictionary key. *)
Definition py_hash (v : pyval) : result hkey :=
  match v with
  | PBool b => Ok (HInt (Z.b2z b))
  | PInt z => Ok (HInt z)
  | PStr s => Ok (HStr s)
  | PList _ | PDict _ => Raise TypeError
  end.

(** [d[k] += 1] on a [defaultdict(int)] *)
Definition incr `{Countable K} (k : K) (d : gmap K nat) : gmap K nat :=
  <[k := S (default 0 (d !! k))]> d.

(** [sum(d.values())] *)
Definition sum_values `{Countable K} (d : gmap K nat) : nat :=
  map_fold (fun _ v acc => v + acc) 0 d.

Definition decimal (z : Z) : string := NilZero.string_of_int (Z.to_int z).

Definition tab : ascii := ascii_of_nat 9.

(** [s.replace('\t', '  ')] *)
Fixpoint replace_tabs (s : string) : string :=
  match s with
  | EmptyString => EmptyString
  | String c r =>
      if Ascii.eqb c tab then String " " (String " " (replace_tabs r))
      else String c (replace_tabs r)
  end.

(** [s.count('\t')] *)
Fixpoint count_tabs (s : string) : nat :=
  match s with
  | EmptyString => 0
  | String c r => (if Ascii.eqb c tab then 1 else 0) + count_tabs r
  end.

(** [s[0:n]] *)
Definition slice_to (s : string) (n : Z) : string :=
  let len := Z.of_nat (String.length s) in
  let stop := if (n <? 0)%Z then Z.max 0 (n + len) else Z.min n len in
  substring 0 (Z.to_nat stop) s.

(** [' ' * n] *)
Fixpoint spaces (n : nat) : string :=
  match n with
  | 0 => EmptyString
  | S n' => String " " (spaces n')
  end.

(** ['%d' % v] *)
Definition format_d (v : pyval) : result string :=
  match py_as_index v with
  | Some z => Ok (decimal z)
  | None => Raise TypeError
  end.

(** ['%Nd' % i]: right-justified in [width] columns. *)
Definition format_d_width (width : nat) (i : Z) : string :=
  let s := decimal i in
  spaces (width - String.length s) ++ s.

(** [int(math.floor(math.log10(n)) + 1)] for [n > 0]: the number of decimal
    digits of [n]. *)
Definition index_width (n : nat) : nat := String.length (decimal (Z.of_nat n)).

(** [index_format % i], where [index_format = '    %%%dd, ' % width]. *)
Definition index_format (width : nat) (i : Z) : string :=
  "    " ++ format_d_width width i ++ ", ".

Record report_stats (K : Type) `{Countable K} : Type := mkStats {
  stats_severity : gmap string nat;
  stats_files : gmap K nat;
  stats_reports : gmap string nat }.
Arguments mkStats {K _ _}.
Arguments stats_severity {K _ _}.
Arguments stats_files {K _ _}.
Arguments stats_reports {K _ _}.

(** What [parse_and_write] returns: the integer [1] or the statistics. *)
Inductive parse_and_write_result : Type :=
| RetInt (z : Z)
| RetStats (s : report_stats hkey).

(** The state of a rendering pass: the world, the suppress handler (if
    any), what was written to [output], and the locals of [__write_bugs]. *)
Record fstate (H : Type) : Type := mkF {
  f_world : world;
  f_handler : option H;
  f_output : list string;
  severity_stats : gmap string nat;
  file_stats : gmap hkey nat;
  report_count : gmap string nat;
  non_suppressed : nat }.
Arguments mkF {H}.
Arguments f_world {H}.
Arguments f_handler {H}.
Arguments f_output {H}.
Arguments severity_stats {H}.
Arguments file_stats {H}.
Arguments report_count {H}.
Arguments non_suppressed {H}.

#[global] Instance fstate_logger {H} : Logger (fstate H) :=
  fun e s => mkF (log_to e (f_world s)) (f_handler s) (f_output s)
                 (severity_stats s) (file_stats s) (report_count s)
                 (non_suppressed s).

Section Formatter.

Context {H : Type} `{SuppressHandler H}.

(** The collaborators of [PlistToPlaintextFormatter]: the severity map,
    the skip-list handler (or [None]), the step-printing flag, and the
    code of other modules: [report + str] and [str(report)] of class
    [Report], [SourceSuppressHandler(...).get_suppressed()],
    [util.get_line], and [str] on values other than strings and
    integers. *)
Variable severity_map : gmap hkey string.
Variable skiplist_handler : option (pyval -> result bool).
Variable print_steps : bool.
Variable report_plus_str : Report -> string -> result string.
Variable report_str : Report -> string.
Variable source_get_suppressed :
  pyval -> pyval -> pyval -> pyval -> result (option (pyval * pyval * pyval)).
Variable get_line : pyval -> pyval -> result string.
Variable py_repr : pyval -> string.

(** ['%s' % v] *)
Definition format_s (v : pyval) : string :=
  match v with
  | PStr s => s
  | PInt z => decimal z
  | PBool true => "True"
  | PBool false => "False"
  | _ => py_repr v
  end.

(** [__format_location(event, source_file)] *)
Definition format_location (event source_file : pyval) : result string :=
  let? loc := py_getitem event (PStr "location") in
  let? ln := py_getitem loc (PStr "line") in
  let? line := get_line source_file ln in
  if bool_decide (line = EmptyString) then Ok line
  else
    let? col := py_getitem loc (PStr "col") in
    match py_as_index col with
    | None => Raise TypeError
    | Some c =>
        let marker_line := slice_to line (c - 1) in
        let marker_line :=
          spaces (String.length marker_line + count_tabs marker_line) in
        Ok (replace_tabs line +:+ marker_line +:+ "^")
    end.

(** [__format_bug_event(name, severity, event, source_file)], [name] and
    [severity] being [None] for the steps. *)
Definition format_bug_event (name : option pyval) (severity : option string)
    (event source_file : pyval) : result string :=
  let? loc := py_getitem event (PStr "location") in
  let? fname := py_basename source_file in
  if truthy_opt name
  then
    let? ln := py_getitem loc (PStr "line") in
    let? col := py_getitem loc (PStr "col") in
    let? msg := py_getitem event (PStr "message") in
    let? ln := format_d ln in
    let? col := format_d col in
    Ok ("[" +:+ default "None" severity +:+ "] " +:+ fname +:+ ":" +:+ ln
        +:+ ":" +:+ col +:+ ": " +:+ format_s msg +:+ " ["
        +:+ from_option format_s "None" name +:+ "]")
  else
    let? ln := py_getitem loc (PStr "line") in
    let? col := py_getitem loc (PStr "col") in
    let? msg := py_getitem event (PStr "message") in
    let? ln := format_d ln in
    let? col := format_d col in
    Ok (fname +:+ ":" +:+ ln +:+ ":" +:+ col +:+ ": " +:+ format_s msg).

(** [output.write(s)] *)
Definition write (s : string) : M (fstate H) unit :=
  modify (fun st => mkF (f_world st) (f_handler st) (f_output st ++ [s])
                        (severity_stats st) (file_stats st) (report_count st)
                        (non_suppressed st)).

(** [events = [i for i in bug_path if i.get('kind') == 'event']] *)
Fixpoint event_steps (path : list pyval) : result (list pyval) :=
  match path with
  | [] => Ok []
  | i :: path' =>
      let? kind := py_get i "kind" in
      let? rest := event_steps path' in
      Ok (if from_option (fun k => py_eq_str k "event") false kind
          then i :: rest else rest)
  end.

(** [self.suppress_handler and self.suppress_handler.get_suppressed(bug)] *)
Definition stored_suppressed (hash_value f_path : pyval)
  : M (fstate H) bool :=
  let* h := gets f_handler in
  match h with
  | None => ret false
  | Some h => lift (handler_get_suppressed hash_value f_path h)
  end.

(** [if self.suppress_handler:
        self.suppress_handler.store_suppress_bug_id(..)] *)
Definition promote_suppression (hash_value file_name comment : pyval)
  : M (fstate H) unit :=
  fun st =>
    match f_handler st with
    | None => (Ok tt, st)
    | Some h =>
        let '(r, h') :=
          handler_store_suppress_bug_id hash_value file_name comment h in
        (match r with Ok _ => Ok tt | Raise e => Raise e end,
         mkF (f_world st) (Some h') (f_output st) (severity_stats st)
             (file_stats st) (report_count st) (non_suppressed st))
    end.

(** [file_stats[f_path] += 1; ...; severity_stats[severity] += 1;
    report_count["report_count"] += 1], giving the severity. *)
Definition count_report (f_path checker_name : pyval)
  : M (fstate H) string :=
  let* k := lift (py_hash f_path) in
  modify (fun st => mkF (f_world st) (f_handler st) (f_output st)
                        (severity_stats st) (incr k (file_stats st))
                        (report_count st) (non_suppressed st)) >>
  let* c := lift (py_hash checker_name) in
  let severity := default "UNSPECIFIED" (severity_map !! c) in
  modify (fun st => mkF (f_world st) (f_handler st) (f_output st)
                        (incr severity (severity_stats st)) (file_stats st)
                        (incr "report_count" (report_count st))
                        (non_suppressed st)) >>
  ret severity.

(** The steps of a report, written when [print_steps] is set. *)
Definition write_steps (width : nat) (files report_hash : pyval)
    (events : list pyval) : M (fstate H) unit :=
  match report_hash with
  | PStr h => write ("  Report hash: " +:+ h +:+ nl)
  | _ => raise TypeError
  end >>
  write ("  Steps:" +:+ nl) >>
  for_each_from 0 events
    (fun index event =>
       write (index_format width (Z.of_nat index + 1)) >>
       let* loc := lift (py_getitem event (PStr "location")) in
       let* fid := lift (py_getitem loc (PStr "file")) in
       let* source_file := lift (py_getitem files fid) in
       let* line := lift (format_bug_event None None event source_file) in
       write line >>
       write nl).

(** [f_path = files[events[-1]['location']['file']]], for the event
    steps [events] of a report. *)
Definition display_file (files : pyval) (events : list pyval)
  : result pyval :=
  let? last_event := py_index events (-1) in
  let? loc := py_getitem last_event (PStr "location") in
  let? fid := py_getitem loc (PStr "file") in
  py_getitem files fid.

(** Whether a path step is a dictionary of kind ["event"]. *)
Definition is_event_step (i : pyval) : bool :=
  match py_get i "kind" with
  | Ok (Some k) => py_eq_str k "event"
  | _ => false
  end.

Definition is_step_dict (i : pyval) : bool :=
  match i with PDict _ => true | _ => false end.

(** The body of the loop of [__write_bugs]; a [continue] ends it early. *)
Definition write_bug (width : nat) (files : pyval) (report : Report)
  : M (fstate H) unit :=
  let* events := lift (event_steps (bug_path report)) in
  let* f_path := lift (display_file files events) in
  let* skip := match skiplist_handler with
               | None => ret false
               | Some should_skip => lift (should_skip f_path)
               end in
  if skip then
    let* msg := lift (report_plus_str report " is skipped (in ") in
    match f_path with
    | PStr p => LOG (LogDebug (msg +:+ p +:+ ")"))
    | _ => raise TypeError
    end
  else
  let* hash_value := lift (py_getitem (main report) (PStr hash_key)) in
  let* suppressed := stored_suppressed hash_value f_path in
  if suppressed then
    LOG (LogDebug ("Suppressed by suppress file: " +:+ report_str report))
  else
  let* last_report_event := lift (py_index (bug_path report) (-1)) in
  let* loc := lift (py_getitem last_report_event (PStr "location")) in
  let* fid := lift (py_getitem loc (PStr "file")) in
  let* source_file := lift (py_getitem files fid) in
  let* loc := lift (py_getitem last_report_event (PStr "location")) in
  let* report_line := lift (py_getitem loc (PStr "line")) in
  let* report_hash := lift (py_getitem (main report) (PStr hash_key)) in
  let* checker_name := lift (py_getitem (main report) (PStr "check_name")) in
  let* suppress_data :=
    lift (source_get_suppressed source_file report_line report_hash
                                checker_name) in
  match suppress_data with
  | Some (hash_value, file_name, comment) =>
      promote_suppression hash_value file_name comment
  | None =>
      let* severity := count_report f_path checker_name in
      let* line := lift (format_bug_event (Some checker_name) (Some severity)
                                          last_report_event source_file) in
      write line >>
      write nl >>
      let* line := lift (format_location last_report_event source_file) in
      write line >>
      write nl >>
      (if print_steps then write_steps width files report_hash events
       else ret tt) >>
      write nl >>
      modify (fun st => mkF (f_world st) (f_handler st) (f_output st)
                            (severity_stats st) (file_stats st)
                            (report_count st) (S (non_suppressed st)))
  end.

(** The summary line written after the loop. *)
Definition summary (non_suppressed : nat)
    (analyzed_source_file : option string) : string :=
  let basefile_print :=
    match analyzed_source_file with
    | Some (String c r) => " " +:+ basename (String c r)
    | _ => EmptyString
    end in
  if Nat.eqb non_suppressed 0
  then "Found no defects while analyzing" +:+ basefile_print +:+ nl
  else "Found " +:+ decimal (Z.of_nat non_suppressed)
       +:+ " defect(s) while analyzing" +:+ basefile_print +:+ nl +:+ nl.

(** The state in which [__write_bugs] starts: empty statistics, nothing
    counted. *)
Definition start_pass (st : fstate H) : fstate H :=
  mkF (f_world st) (f_handler st) (f_output st) ∅ ∅ ∅ 0.

(** [__write_bugs(output, reports, files, analyzed_source_file,
    report_stats)], returning what it stores in [report_stats]. *)
Definition write_bugs (reports : list Report) (files : pyval)
    (analyzed_source_file : option string)
  : M (fstate H) (report_stats hkey) :=
  modify start_pass >>
  let width := index_width (length reports) in
  for_each reports (write_bug width files) >>
  let* n := gets non_suppressed in
  write (summary n analyzed_source_file) >>
  let* st := gets id in
  ret (mkStats (severity_stats st) (file_stats st) (report_count st)).

(** *** What a pass does to a report

    The three ways a report is dropped, as the conditions of the three
    [continue] statements, and the count of the reports for which the
    body of the loop wrote to [output]. *)

Definition excluded_by_skiplist (files : pyval) (report : Report) : Prop :=
  exists events f_path should_skip,
    event_steps (bug_path report) = Ok events /\
    display_file files events = Ok f_path /\
    skiplist_handler = Some should_skip /\
    should_skip f_path = Ok true.

Definition suppressed_by_store (files : pyval) (report : Report)
    (st : fstate H) : Prop :=
  exists events f_path hash_value h,
    event_steps (bug_path report) = Ok events /\
    display_file files events = Ok f_path /\
    py_getitem (main report) (PStr hash_key) = Ok hash_value /\
    f_handler st = Some h /\
    handler_get_suppressed hash_value f_path h = Ok true.

Definition suppressed_inline (files : pyval) (report : Report) : Prop :=
  exists last_report_event loc fid source_file report_line report_hash
         checker_name suppress_data,
    py_index (bug_path report) (-1) = Ok last_report_event /\
    py_getitem last_report_event (PStr "location") = Ok loc /\
    py_getitem loc (PStr "file") = Ok fid /\
    py_getitem files fid = Ok source_file /\
    py_getitem loc (PStr "line") = Ok report_line /\
    py_getitem (main report) (PStr hash_key) = Ok report_hash /\
    py_getitem (main report) (PStr "check_name") = Ok checker_name /\
    source_get_suppressed source_file report_line report_hash checker_name
    = Ok (Some suppress_data).


(** Nothing written, nothing counted, between two states of a pass. *)
Definition untouched (s s' : fstate H) : Prop :=
  f_output s' = f_output s /\ severity_stats s' = severity_stats s /\
  file_stats s' = file_stats s /\ report_count s' = report_count s /\
  non_suppressed s' = non_suppressed s.

(** Text written, statistics as they were. *)
Definition wrote (s s' : fstate H) : Prop :=
  (exists extra, f_output s' = f_output s ++ extra) /\
  severity_stats s' = severity_stats s /\
  file_stats s' = file_stats s /\ report_count s' = report_count s /\
  non_suppressed s' = non_suppressed s.

(** One finding rendered, and counted once in each dictionary. *)
Definition counted (s s' : fstate H) : Prop :=
  (exists chunk extra, f_output s' = f_output s ++ chunk :: extra) /\
  (exists sev, severity_stats s' = incr sev (severity_stats s)) /\
  (exists k, file_stats s' = incr k (file_stats s)) /\
  report_count s' = incr "report_count" (report_count s) /\
  non_suppressed s' = S (non_suppressed s).

Fixpoint rendered_findings (width : nat) (files : pyval)
    (reports : list Report) (st : fstate H) : nat :=
  match reports with
  | [] => 0
  | report :: reports' =>
      match write_bug width files report st with
      | (Ok _, st') =>
          (if bool_decide (f_output st' = f_output st) then 0 else 1)
          + rendered_findings width files reports' st'
      | (Raise _, _) => 0
      end
  end.

(** [generate_report_hash] of [libcodechecker.report], which
    [parse_plist] calls. *)
Variable generate_report_hash : pyval -> pyval -> pyval -> result string.

Definition set_world (w : world) (st : fstate H) : fstate H :=
  mkF w (f_handler st) (f_output st) (severity_stats st) (file_stats st)
      (report_count st) (non_suppressed st).

(** [parse_and_write(plist_file, analyzed_source_file, output)] *)
Definition parse_and_write (plist_file : string)
    (analyzed_source_file : option string)
  : M (fstate H) parse_and_write_result :=
  fun st =>
    match parse_plist generate_report_hash plist_file None true (f_world st)
    with
    | (Raise ex, w) =>
        if is_Exception ex
        then (LOG (LogError "The generated plist is not valid!") >>
              LOG (LogErrorExn ex) >>
              ret (RetInt 1)) (set_world w st)
        else (Raise ex, set_world w st)
    | (Ok (files, reports), w) =>
        (let* report_stats :=
           write_bugs reports files analyzed_source_file in
         ret (RetStats report_stats)) (set_world w st)
    end.

End Formatter.

(** ** Sample bundles, handlers and collaborators *)

Module Samples.

(** A content hash that depends on the source file and the checker. *)
Definition sample_hash (path source_file checker : pyval) : result string :=
  match source_file, checker with
  | PStr f, PStr c => Ok ("hash:" +:+ f +:+ ":" +:+ c)
  | _, _ => Raise ValueError
  end.

Definition location (fid line col : Z) : pyval :=
  PDict (<["file" := PInt fid]>
         (<["line" := PInt line]> (<["col" := PInt col]> ∅))).

(** A path step of the given kind. *)
Definition step (kind : string) (fid line col : Z) (msg : string) : pyval :=
  PDict (<["kind" := PStr kind]>
         (<["location" := location fid line col]>
          (<["message" := PStr msg]> ∅))).

(** A diagnostic without identity hash, located in file [fid]. *)
Definition diag (fid : Z) (steps : list pyval) : pyval :=
  PDict (<["check_name" := PStr "core.NullDereference"]>
         (<["location" := location fid 3 2]>
          (<["path" := PList steps]> ∅))).

Definition bundle (file_table diags : list pyval) : pyval :=
  PDict (<["files" := PList file_table]>
         (<["diagnostics" := PList diags]> ∅)).

Definition two_files : list pyval := [PStr "/x/a.c"; PStr "/y/b.c"].

(** Two well-formed diagnostics. *)
Definition good_diags : list pyval :=
  [diag 0 [step "control" 0 1 1 EmptyString;
           step "event" 0 3 2 "null pointer"];
   diag 1 [step "event" 1 7 5 "dereference"]].

Definition good_bundle : pyval := bundle two_files good_diags.

(** The second diagnostic points outside the file table. *)
Definition first_diag : pyval := diag 0 [step "event" 0 3 2 "null pointer"].
Definition outside_diag : pyval := diag 5 [step "event" 5 1 1 "nowhere"].
Definition last_diag : pyval := diag 1 [step "event" 1 7 5 "dereference"].

Definition bad_bundle : pyval :=
  bundle two_files [first_diag; outside_diag; last_diag].

Definition world_with (path : string) (content : stored) : world :=
  mkWorld {[ path := content ]} ∅ [].

(** A formatter without suppress handler: the handler type is never
    inhabited in a state, any instance does. *)
#[export] Instance no_handler : SuppressHandler unit := {
  handler_get_suppressed _ _ _ := Ok false;
  handler_store_suppress_bug_id _ _ _ := ret true }.

Definition fresh_state (w : world) : fstate unit := mkF w None [] ∅ ∅ ∅ 0.

(** A source reader that finds the same line everywhere. *)
Definition one_line (source_file line : pyval) : result string :=
  Ok "  return *p;".

Definition no_inline_suppression (source_file line hash checker : pyval)
  : result (option (pyval * pyval * pyval)) := Ok None.

(** [report + str] for a class that does not define it. *)
Definition report_plus_unsupported (r : Report) (s : string)
  : result string := Raise TypeError.

Definition report_plus_supported (r : Report) (s : string)
  : result string := Ok ("<report>" +:+ s).

Definition sample_report_str (r : Report) : string := "<report>".

Definition sample_repr (v : pyval) : string := "<value>".

Definition report_at (fid : Z) (steps : list pyval) : Report :=
  mkReport (PDict (<["check_name" := PStr "core.NullDereference"]>
                   (<[hash_key := PStr "0123abcd"]> ∅)))
           steps (PList two_files).

(** An exclusion policy that skips [/y/b.c]. *)
Definition skip_b (f : pyval) : result bool := Ok (py_eq_str f "/y/b.c").

Definition three_reports : list Report :=
  [report_at 0 [step "event" 0 3 2 "null pointer"];
   report_at 1 [step "event" 1 7 5 "dereference"];
   report_at 0 [step "control" 0 1 1 EmptyString;
                step "event" 0 9 1 "leak"]].

(** A pass over [three_reports] with [/y/b.c] excluded. *)
Definition sample_pass : result (report_stats hkey) * fstate unit :=
  write_bugs ∅ (Some skip_b) true report_plus_supported sample_report_str
    no_inline_suppression one_line sample_repr three_reports
    (PList two_files) (Some "/src/main.c")
    (fresh_state (mkWorld ∅ ∅ [])).

(** A handler whose suppress file holds one record for [a.c]. *)
Definition handler_a : GenericSuppressHandler.t :=
  GenericSuppressHandler.mk (Some "suppress.txt") true false
    [("0123abcd", "a.c", EmptyString)].

(** A report whose path has a control step only. *)
Definition no_event_report : Report :=
  report_at 0 [step "control" 0 3 2 "entering loop"].

(** A pass over [reports] with no skip list and no suppress handler. *)
Definition plain_pass (print_steps : bool) (reports : list Report)
  : result (report_stats hkey) * fstate unit :=
  write_bugs ∅ None print_steps report_plus_unsupported sample_report_str
    no_inline_suppression one_line sample_repr reports
    (PList two_files) (Some "/src/main.c")
    (fresh_state (mkWorld ∅ ∅ [])).

(** [parse_and_write] of a formatter without skip list and handler. *)
Definition plain_parse_and_write (plist_file : string) (w : world)
  : result parse_and_write_result * fstate unit :=
  parse_and_write ∅ None false report_plus_unsupported sample_report_str
    no_inline_suppression one_line sample_repr sample_hash plist_file
    (Some "/src/main.c") (fresh_state w).

(** A report with ten event steps, and ten reports with one step each. *)
Definition ten_step_report : Report :=
  report_at 0 ((fun i => step "event" 0 (Z.of_nat i + 1) 1 "visited")
               <$> seq 0 10).

Definition ten_reports : list Report :=
  (fun i => report_at 0 [step "event" 0 (Z.of_nat i + 1) 1 "visited"])
  <$> seq 0 10.

(** A path element with a range and an edge in file [fid]. *)
Definition step_with_ranges (fid other : Z) : pyval :=
  PDict (<["kind" := PStr "control"]>
         (<["location" := location fid 1 1]>
          (<["ranges" := PList [PList [location other 1 1;
                                       location other 1 9]]]>
           (<["edges" :=
                PList [PDict (<["start" := PList [location other 1 1]]>
                              (<["end" := PList [location other 2 1]]> ∅))]]>
            ∅)))).

(** Two diagnostics on [a.c] and [b.c]; the first one mentions [b.c] in
    a range and an edge only. *)
Definition diag_a : pyval :=
  diag 0 [step_with_ranges 0 1; step "event" 0 3 2 "in a.c"].

Definition diag_b : pyval := diag 1 [step "event" 1 7 5 "in b.c"].

Definition a_and_b : gmap string pyval :=
  <["files" := PList [PStr "a.c"; PStr "b.c"]]>
  (<["diagnostics" := PList [diag_a; diag_b]]> ∅).

Definition exclude_b (f : pyval) : bool := py_eq_str f "b.c".

(** A diagnostic located at position [-1]: the last file, [b.c]. *)
Definition diag_from_end : pyval := diag (-1) [step "event" 1 7 5 "in b.c"].

(** A diagnostic on [a.c] with a path element whose ranges are a
    number. *)
Definition diag_bad_ranges : pyval :=
  diag 0 [PDict (<["kind" := PStr "event"]>
                 (<["location" := location 0 3 2]>
                  (<["ranges" := PInt 0]> ∅)))].

Definition with_diagnostics (diags : list pyval) : stored :=
  Plist (PDict (<["diagnostics" := PList diags]> a_and_b)).

(** Suppress files kept in memory, each with its records, and the three
    operations of a suppress-file backend on them. *)
Definition suppress_files : Type := gmap string (list suppress_record).

Definition read_records (f : string) (st : suppress_files)
  : result (list suppress_record) :=
  match st !! f with
  | Some records => Ok records
  | None => Raise IOError
  end.

Definition append_record (f : string) (bug_id file_name comment : pyval)
  : M suppress_files bool :=
  fun st =>
    match bug_id, file_name, comment with
    | PStr h, PStr n, PStr c =>
        (Ok true, <[f := default [] (st !! f) ++ [(h, n, c)]]> st)
    | _, _, _ => (Raise TypeError, st)
    end.

Definition drop_record (f : string) (bug_id file_name : pyval)
  : M suppress_files bool :=
  fun st =>
    match bug_id, file_name with
    | PStr h, PStr n =>
        (Ok true,
         <[f := filter (fun r : suppress_record =>
                          ~ (r.1.1 = h /\ r.1.2 = n))
                       (default [] (st !! f))]> st)
    | _, _ => (Raise TypeError, st)
    end.

(** The good bundle with an identity hash in every diagnostic. *)
Definition hashed_diags : list pyval :=
  dict_setitem hash_key (PStr "0123abcd") <$> good_diags.

Definition hashed_bundle : gmap string pyval :=
  <["files" := PList two_files]> (<["diagnostics" := PList hashed_diags]> ∅).

(** A world whose only file may not be written. *)
Definition read_only_world : world :=
  mkWorld {[ "r.plist" := Plist good_bundle ]} {[ "r.plist" ]} [].

(** A content-hash function that always fails. *)
Definition failing_hash (path source_file checker : pyval) : result string :=
  Raise ValueError.

(** A pass over one report, in the excluded file [/y/b.c]. *)
Definition excluded_pass : result (report_stats hkey) * fstate unit :=
  write_bugs ∅ (Some skip_b) true report_plus_supported sample_report_str
    no_inline_suppression one_line sample_repr
    [report_at 1 [step "event" 1 7 5 "dereference"]]
    (PList two_files) (Some "/src/main.c")
    (fresh_state (mkWorld ∅ ∅ [])).

(** A handler over the in-memory suppress files that may write. *)
Definition writable_handler : GenericSuppressHandler.t :=
  GenericSuppressHandler.mk (Some "suppress.txt") true true [].

End Samples.

(** * Reasoning about computations *)

Lemma wp_ret {S A} (a : A) Q E (s : S) : Q a s -> wp (ret a) Q E s.
Proof. done. Qed.

Lemma wp_raise {S A} e (Q : A -> S -> Prop) E (s : S) :
  E e s -> wp (raise e) Q E s.
Proof. done. Qed.

Lemma wp_bind {S A B} (m : M S A) (k : A -> M S B) Q E (s : S) :
  wp m (fun a s' => wp (k a) Q E s') E s -> wp (bind m k) Q E s.
Proof. unfold wp, bind. by destruct (m s) as [[a|e] s']. Qed.

Lemma wp_lift {S A} (r : result A) (Q : A -> S -> Prop) E (s : S) :
  match r with Ok a => Q a s | Raise e => E e s end -> wp (lift r) Q E s.
Proof. done. Qed.

Lemma wp_gets {S A} (f : S -> A) Q E (s : S) : Q (f s) s -> wp (gets f) Q E s.
Proof. done. Qed.

Lemma wp_modify {S} (f : S -> S) Q E (s : S) :
  Q tt (f s) -> wp (modify f) Q E s.
Proof. done. Qed.

Lemma wp_mono {S A} (m : M S A) (Q Q' : A -> S -> Prop)
    (E E' : exn -> S -> Prop) s :
  wp m Q E s ->
  (forall a s', Q a s' -> Q' a s') ->
  (forall e s', E e s' -> E' e s') ->
  wp m Q' E' s.
Proof. unfold wp. destruct (m s) as [[a|e] s']; auto. Qed.

Lemma wp_returns {S A} (m : M S A) Q E s a s' :
  wp m Q E s -> m s = (Ok a, s') -> Q a s'.
Proof. unfold wp. intros Hw Heq. by rewrite Heq in Hw. Qed.

Lemma wp_for_each_from {S A} (I : S -> Prop) (E : exn -> S -> Prop)
    (l : list A) (body : nat -> A -> M S unit) i s :
  I s ->
  (forall j x s, I s -> wp (body j x) (fun _ => I) E s) ->
  wp (for_each_from i l body) (fun _ => I) E s.
Proof.
  revert i s. induction l as [|x l IH]; intros i s Hs Hb; [done|].
  cbn [for_each_from]. apply wp_bind.
  eapply wp_mono; [by apply Hb| |done].
  intros ? s' Hs'. by apply IH.
Qed.

(** One step through a computation: a [bind] is entered, a primitive is
    run, a lifted result is split into its two cases. *)
Ltac wp_step :=
  lazymatch goal with
  | |- wp (bind _ _) _ _ _ => apply wp_bind
  | |- wp (ret _) _ _ _ => apply wp_ret
  | |- wp (raise _) _ _ _ => apply wp_raise
  | |- wp (gets _) _ _ _ => apply wp_gets
  | |- wp (modify _) _ _ _ => apply wp_modify
  | |- wp (LOG _) _ _ _ => apply wp_modify
  | |- wp (write _) _ _ _ => apply wp_modify
  | |- wp (lift ?r) _ _ _ =>
      apply wp_lift; let E := fresh "E" in destruct r eqn:E; [|try done]
  end.

(** * What the parser computes *)

Lemma logged_fields es s :
  l_plist (logged es s) = l_plist s /\
  l_files (logged es s) = l_files s /\
  l_reports (logged es s) = l_reports s /\
  l_diag_changed (logged es s) = l_diag_changed s /\
  contents (l_world (logged es s)) = contents (l_world s) /\
  readonly (l_world (logged es s)) = readonly (l_world s).
Proof.
  revert s. induction es as [|e es IH]; intros s; [done|].
  change (logged (e :: es) s) with (logged es (log_to e s)).
  destruct (IH (log_to e s)) as (-> & -> & -> & -> & -> & ->). done.
Qed.

Lemma l_plist_logged es s : l_plist (logged es s) = l_plist s.
Proof. apply logged_fields. Qed.
Lemma l_files_logged es s : l_files (logged es s) = l_files s.
Proof. apply logged_fields. Qed.
Lemma l_reports_logged es s : l_reports (logged es s) = l_reports s.
Proof. apply logged_fields. Qed.
Lemma l_diag_changed_logged es s :
  l_diag_changed (logged es s) = l_diag_changed s.
Proof. apply logged_fields. Qed.
Lemma contents_logged es s :
  contents (l_world (logged es s)) = contents (l_world s).
Proof. apply logged_fields. Qed.
Lemma readonly_logged es s :
  readonly (l_world (logged es s)) = readonly (l_world s).
Proof. apply logged_fields. Qed.

Create Rewrite HintDb logged.
#[export] Hint Rewrite l_plist_logged l_files_logged l_reports_logged
  l_diag_changed_logged contents_logged readonly_logged : logged.

Lemma log_logged es s : log (l_world (logged es s)) = log (l_world s) ++ es.
Proof.
  revert s. induction es as [|e es IH]; intros s; [by rewrite app_nil_r|].
  change (logged (e :: es) s) with (logged es (log_to e s)).
  rewrite IH. cbn. by rewrite <- app_assoc.
Qed.

Lemma get_checker_name_run d path (s : locals) :
  exists es, get_checker_name d path s = (checker_name_of d, logged es s).
Proof.
  unfold get_checker_name, checker_name_of, bind, lift.
  destruct (py_get d "check_name") as [[v|]|e].
  - destruct (truthy v); [by exists []|by eexists [_]].
  - by eexists [_].
  - by exists [].
Qed.

Lemma copy_main_section_lookup (m : gmap string pyval) ks :
  forall acc,
    (forall k, k ∈ ks -> is_Some (m !! k)) ->
    exists r,
      copy_main_section (PDict m) ks acc = Ok r /\
      forall k, r !! k = if decide (k ∈ ks /\ k <> "path")
                         then m !! k else acc !! k.
Proof.
  induction ks as [|key ks IH]; intros acc Hks.
  { exists acc. split; [done|]. intros k. rewrite decide_False; [done|].
    intros [Hk _]. by apply not_elem_of_nil in Hk. }
  cbn [copy_main_section].
  assert (forall k, k ∈ ks -> is_Some (m !! k)) as Hks'
    by (intros k Hk; apply Hks; by right).
  case_bool_decide as Hkey; cbn [negb].
  - subst key. destruct (IH acc Hks') as (r & -> & Hr). exists r.
    split; [done|]. intros k. rewrite Hr.
    destruct (decide (k ∈ ks /\ k <> "path")) as [[H1 H2]|Hn],
             (decide (k ∈ "path" :: ks /\ k <> "path")) as [[H3 H4]|Hn'];
      try done.
    + exfalso. apply Hn'. split; [by right|done].
    + exfalso. apply Hn. split; [|done].
      by apply elem_of_cons in H3 as [?|?].
  - destruct (Hks key) as [v Hv]; [by left|].
    cbn [py_getitem]. rewrite Hv.
    destruct (IH (<[key := v]> acc) Hks') as (r & -> & Hr). exists r.
    split; [done|]. intros k. rewrite Hr.
    destruct (decide (k = key)) as [->|Hne].
    + rewrite lookup_insert_eq. rewrite (decide_True (P := _ ∈ _ :: _ /\ _));
        [|split; [by left|done]].
      by case_decide.
    + rewrite lookup_insert_ne by done.
      destruct (decide (k ∈ ks /\ k <> "path")) as [[H1 H2]|Hn],
               (decide (k ∈ key :: ks /\ k <> "path")) as [[H3 H4]|Hn'];
        try done.
      * exfalso. apply Hn'. split; [by right|done].
      * exfalso. apply Hn. split; [|done].
        by apply elem_of_cons in H3 as [?|?].
Qed.

(** The main section starts as the diagnostic without its path. *)
Lemma copy_main_section_all (m : gmap string pyval) :
  copy_main_section (PDict m) (map_to_list m).*1 ∅ = Ok (delete "path" m).
Proof.
  assert (forall k, k ∈ (map_to_list m).*1 <-> is_Some (m !! k)) as Hkeys.
  { intros k. rewrite list_elem_of_fmap. split.
    - intros ([k' v] & -> & Hin). apply elem_of_map_to_list in Hin. by eexists.
    - intros [v Hv]. exists (k, v). split; [done|].
      by apply elem_of_map_to_list. }
  destruct (copy_main_section_lookup m (map_to_list m).*1 ∅) as (r & -> & Hr).
  { intros k. apply Hkeys. }
  f_equal. apply map_eq. intros k. rewrite Hr, lookup_empty.
  destruct (decide (k = "path")) as [->|Hne].
  - rewrite lookup_delete_eq. rewrite decide_False; [done|]. by intros [_ ?].
  - rewrite lookup_delete_ne by done. case_decide as Hd; [done|].
    destruct (m !! k) eqn:Hk; [|done]. exfalso. apply Hd. split; [|done].
    apply Hkeys. by eexists.
Qed.

(** The state reached is given by computation, up to the log. *)
Ltac finish :=
  eexists; split; [reflexivity|]; simpl; autorewrite with logged; done.

(** One lifted step of the loop body: its exception ends the run. *)
Ltac step r :=
  unfold bind at 1, lift at 1; destruct r; [|finish].

Section ParserFacts.

Variable generate_report_hash : pyval -> pyval -> pyval -> result string.

Lemma get_report_hash_run d sf (s : locals) :
  exists es,
    get_report_hash generate_report_hash d sf s
    = (report_hash_of generate_report_hash d sf, logged es s).
Proof.
  assert (exists es,
    (let* p := lift (py_getitem d (PStr "path")) in
     let* checker := get_checker_name d EmptyString in
     let* h := lift (generate_report_hash p sf checker) in
     ret (PStr h)) s
    = (generated_hash_of generate_report_hash d sf, logged es s)) as Hgen.
  { unfold generated_hash_of, bind at 1, lift at 1.
    destruct (py_getitem d (PStr "path")) as [p|e]; [|by exists []].
    unfold bind at 1.
    destruct (get_checker_name_run d EmptyString s) as [es ->].
    destruct (checker_name_of d) as [c|e]; [|by exists es].
    unfold bind, lift, ret.
    destruct (generate_report_hash p sf c); by exists es. }
  unfold get_report_hash, report_hash_of, bind at 1, lift at 1.
  destruct (py_get d hash_key) as [[v|]|e]; [| |by exists []].
  - destruct (truthy v); [by exists []|]. exact Hgen.
  - exact Hgen.
Qed.

(** The body of the loop computes [parsed_diag]: it appends the report,
    stores the hash in a diagnostic that lacked it and marks the document
    changed; when it raises, the reports are as they were. *)
Lemma parse_diag_run path source_root ft i d (s : locals) :
  exists s',
    parse_diag generate_report_hash path source_root ft i d s
    = (match parsed_diag generate_report_hash source_root ft d with
       | Ok _ => Ok tt
       | Raise e => Raise e
       end, s') /\
    l_files s' = l_files s /\
    contents (l_world s') = contents (l_world s) /\
    readonly (l_world s') = readonly (l_world s) /\
    match parsed_diag generate_report_hash source_root ft d with
    | Ok (rep, h, absent) =>
        l_reports s' = l_reports s ++ [rep] /\
        l_plist s' = (if absent
                      then setitem_in_diag i hash_key h (l_plist s)
                      else l_plist s) /\
        l_diag_changed s' = absent || l_diag_changed s
    | Raise _ => l_reports s' = l_reports s
    end.
Proof.
  unfold parse_diag, parsed_diag.
  step (py_keys d). step (copy_main_section d a ∅).
  unfold bind at 1. destruct (get_checker_name_run d path s) as [es ->].
  destruct (checker_name_of d) as [checker|]; [|finish].
  step (py_getitem d (PStr "location")).
  step (py_getitem a1 (PStr "file")).
  step (py_getitem ft a2).
  step (resolve_source_file source_root a3).
  unfold bind at 1.
  destruct (get_report_hash_run d a4 (logged es s)) as [es' ->].
  destruct (report_hash_of generate_report_hash d a4) as [h|]; [|finish].
  step (py_contains hash_key d).
  unfold bind at 1.
  destruct a5; cbn [negb];
    cbv [store_in_diag set_diag_changed append_report ret bind modify lift];
    (destruct (py_getitem d (PStr "path")) as [p|]; [|finish]);
    destruct (py_iter p); finish.
Qed.

(** The loop computes [parsed_diags]; if it completes, every diagnostic
    from position [start] on is left enriched in the document. *)
Lemma parse_diagnostics_run path source_root ft ds :
  forall start (s : locals),
  exists s',
    parse_diagnostics generate_report_hash path source_root ft start ds s
    = (match (parsed_diags generate_report_hash source_root ft ds).2 with
       | None => Ok tt
       | Some e => Raise e
       end, s') /\
    l_files s' = l_files s /\
    contents (l_world s') = contents (l_world s) /\
    readonly (l_world s') = readonly (l_world s) /\
    l_reports s'
    = l_reports s
      ++ (parsed_diags generate_report_hash source_root ft ds).1 /\
    ((parsed_diags generate_report_hash source_root ft ds).2 = None ->
     l_diag_changed s'
     = existsb (lacks_hash generate_report_hash source_root ft) ds
       || l_diag_changed s /\
     forall m pre,
       l_plist s = PDict m ->
       m !! "diagnostics" = Some (PList (pre ++ ds)) ->
       length pre = start ->
       l_plist s'
       = PDict (<["diagnostics" :=
                    PList (pre ++ (enriched generate_report_hash
                                            source_root ft <$> ds))]> m)).
Proof.
  induction ds as [|d ds IH]; intros start s.
  { exists s. cbn. rewrite app_nil_r. split_and!; try done.
    intros _. split; [done|]. intros m pre Hm Hd _.
    rewrite app_nil_r in *. by rewrite insert_id. }
  unfold parse_diagnostics. cbn [for_each_from parsed_diags].
  unfold bind at 1.
  destruct (parse_diag_run path source_root ft start d s)
    as (s1 & -> & Hf & Hc & Hr & Hd).
  unfold lacks_hash at 1, enriched at 1. cbn [existsb fmap list_fmap].
  destruct (parsed_diag generate_report_hash source_root ft d)
    as [[[rep h] absent]|e].
  2:{ exists s1. cbn. rewrite app_nil_r. by split_and!. }
  destruct Hd as (Hrep & Hpl & Hch).
  destruct (IH (S start) s1) as (s2 & Hrun & Hf2 & Hc2 & Hr2 & Hrep2 & Hok).
  fold (parse_diagnostics generate_report_hash path source_root ft
                          (S start) ds).
  rewrite Hrun. exists s2.
  destruct (parsed_diags generate_report_hash source_root ft ds)
    as [reps oe] eqn:Hds.
  cbn [fst snd] in *. split; [done|].
  rewrite Hf2, Hc2, Hr2, Hrep2, Hrep, <- app_assoc. split_and!; try done.
  intros ->. destruct (Hok eq_refl) as [Hch2 Hpl2]. split.
  { rewrite Hch2, Hch. by destruct absent, (existsb _ ds), (l_diag_changed s). }
  intros m pre Hm Hdiag Hlen.
  assert (l_plist s1
          = PDict (<["diagnostics" :=
                       PList (pre ++ (if absent
                                      then dict_setitem hash_key h d
                                      else d) :: ds)]> m)) as Hs1.
  { rewrite Hpl. destruct absent; [|by rewrite Hm, insert_id].
    rewrite Hm. unfold setitem_in_diag. rewrite Hdiag. do 3 f_equal.
    subst start. rewrite alter_app_r_alt by done.
    by rewrite Nat.sub_diag. }
  rewrite (Hpl2 _ (pre ++ [if absent then dict_setitem hash_key h d else d])
                Hs1).
  - rewrite insert_insert_eq. do 3 f_equal. rewrite <- app_assoc. simpl.
    by destruct absent.
  - rewrite lookup_insert_eq. by rewrite <- app_assoc.
  - rewrite length_app. simpl. lia.
Qed.

(** The [try] suite, case by case on the document. *)
Lemma parse_plist_try_run path source_root allow_plist_update w :
  exists r s',
    parse_plist_try generate_report_hash path source_root
                    allow_plist_update (start_locals path w) = (r, s') /\
    readonly (l_world s') = readonly w /\
    match readPlist path w with
    | Raise e =>
        r = Raise e /\ l_files s' = PList [] /\ l_reports s' = [] /\
        contents (l_world s') = contents w
    | Ok plist =>
        match py_getitem plist (PStr "files") with
        | Raise e =>
            r = Raise e /\ l_files s' = PList [] /\ l_reports s' = [] /\
            contents (l_world s') = contents w
        | Ok ft =>
            l_files s' = ft /\
            match (let? d := py_getitem plist (PStr "diagnostics") in
                   py_iter d) with
            | Raise e =>
                r = Raise e /\ l_reports s' = [] /\
                contents (l_world s') = contents w
            | Ok ds =>
                let changed :=
                  existsb (lacks_hash generate_report_hash source_root ft)
                          ds in
                l_reports s'
                = (parsed_diags generate_report_hash source_root ft ds).1 /\
                match (parsed_diags generate_report_hash source_root ft
                                    ds).2 with
                | Some e => r = Raise e /\ contents (l_world s') = contents w
                | None =>
                    l_diag_changed s' = changed /\
                    if changed && allow_plist_update
                    then
                      if bool_decide (path ∈ readonly w)
                      then r = Raise IOError /\
                           contents (l_world s') = contents w
                      else r = Ok tt /\
                           forall m all,
                             plist = PDict m ->
                             m !! "diagnostics" = Some (PList all) ->
                             contents (l_world s')
                             = <[path :=
                                   Plist (PDict (<["diagnostics" :=
                                     PList (enriched generate_report_hash
                                              source_root ft <$> all)]> m))]>
                               (contents w)
                    else r = Ok tt /\ contents (l_world s') = contents w
                end
            end
        end
    end.
Proof.
  unfold parse_plist_try. unfold bind at 1. cbn [on_world start_locals l_world].
  change (readPlist path (log_to (LogDebug ("Parsing plist: " +:+ path)) w))
    with (readPlist path w).
  destruct (readPlist path w) as [plist|e]; [|by eexists _, _].
  cbv [bind set_plist set_files set_diag_changed modify lift] .
  cbn [l_world l_plist l_files l_reports l_diag_changed].
  destruct (py_getitem plist (PStr "files")) as [ft|e]; [|by eexists _, _].
  destruct (py_getitem plist (PStr "diagnostics")) as [dv|e] eqn:Hdv;
    [|by eexists _, _].
  cbn [bind_r].
  destruct (py_iter dv) as [ds|e] eqn:Hiter; [|by eexists _, _].
  match goal with
  | |- context [parse_diagnostics _ _ _ _ _ _ ?s] =>
      destruct (parse_diagnostics_run path source_root ft ds 0 s)
        as (s1 & -> & Hf & Hc & Hr & Hrep & Hok)
  end.
  cbn [l_world l_plist l_files l_reports l_diag_changed app] in *.
  destruct (parsed_diags generate_report_hash source_root ft ds)
    as [reps [e|]]; cbn [fst snd] in *.
  { by eexists _, _. }
  destruct (Hok eq_refl) as [Hch Hpl]. rewrite orb_false_r in Hch.
  cbv [gets]. rewrite Hch. cbn zeta.
  destruct (existsb (lacks_hash generate_report_hash source_root ft) ds
            && allow_plist_update).
  2:{ by eexists _, _. }
  cbv [on_world writePlist]. rewrite Hr.
  change (readonly (log_to (LogDebug ("Parsing plist: " +:+ path)) w))
    with (readonly w).
  case_bool_decide.
  { by eexists _, _. }
  eexists _, _. split; [done|]. cbn. split_and!; try done.
  intros m all -> Hall. rewrite Hc.
  cbn [py_getitem] in Hdv. rewrite Hall in Hdv. injection Hdv as <-.
  injection Hiter as <-.
  by rewrite (Hpl m [] eq_refl Hall eq_refl).
Qed.

(** The handlers only log; an exception that derives from [Exception]
    is caught and logged. *)
Lemma parse_plist_except_run path e (s : locals) :
  match parse_plist_except path e with
  | Some h =>
      is_Exception e = true /\
      exists es, h s = (Ok tt, logged es s) /\ LogErrorExn e ∈ es
  | None => is_Exception e = false
  end.
Proof.
  destruct e; cbn; try done; (split; [done|]);
    first [ eexists [_; _]; split; [reflexivity|set_solver]
          | eexists [_; _; _]; split; [reflexivity|set_solver] ].
Qed.

(** [parse_plist] returns the files and reports its [try] suite ended
    with; a caught exception is in the log. *)
Lemma parse_plist_run path source_root allow_plist_update w :
  exists r s' es,
    parse_plist_try generate_report_hash path source_root
                    allow_plist_update (start_locals path w) = (r, s') /\
    parse_plist generate_report_hash path source_root allow_plist_update w
    = (Ok (l_files s', l_reports s'), l_world (logged es s')) /\
    (forall e, r = Raise e -> is_Exception e = true -> LogErrorExn e ∈ es) /\
    (r = Ok tt -> es = []).
Proof.
  unfold parse_plist, finally_return, try_except.
  destruct (parse_plist_try _ _ _ _ _) as [[[]|e] s'] eqn:Htry.
  - exists (Ok tt), s', []. by split_and!.
  - pose proof (parse_plist_except_run path e s') as Hex.
    destruct (parse_plist_except path e) as [h|].
    + destruct Hex as (_ & es & -> & Hin). exists (Raise e), s', es.
      autorewrite with logged. split_and!; try done.
      by intros ? [= <-].
    + exists (Raise e), s', []. split_and!; try done.
      intros ? [= <-]. congruence.
Qed.

(** What [parse_plist] returns is read off the locals its [try]
    statement ends with, whether the suite completed or not. *)
Lemma parse_plist_unfold path source_root allow_plist_update w :
  let s := (try_except
              (parse_plist_try generate_report_hash path source_root
                               allow_plist_update)
              (parse_plist_except path) (start_locals path w)).2 in
  parse_plist generate_report_hash path source_root allow_plist_update w
  = (Ok (l_files s, l_reports s), l_world s).
Proof.
  unfold parse_plist, finally_return. cbn zeta.
  by destruct (try_except _ _ _) as [r s].
Qed.

Lemma parse_plist_Ok path source_root allow_plist_update w :
  exists files reports w',
    parse_plist generate_report_hash path source_root allow_plist_update w
    = (Ok (files, reports), w').
Proof. rewrite parse_plist_unfold. eauto. Qed.

End ParserFacts.

(** * The parser returns a pair on every input *)

Section AlwaysReturns.

Variable generate_report_hash : pyval -> pyval -> pyval -> result string.

Lemma parsed_diags_length source_root ft ds :
  length (parsed_diags generate_report_hash source_root ft ds).1
  <= length ds.
Proof.
  induction ds as [|d ds IH]; cbn [parsed_diags]; [done|].
  destruct (parsed_diag _ _ _ d) as [[[rep h] a]|e]; [|cbn; lia].
  destruct (parsed_diags _ _ _ ds) as [reps oe]. cbn in *. lia.
Qed.

(** C1. For every path, [parse_plist] returns a pair and raises nothing.
    If the file cannot be read as a plist, or the document has no file
    table, the pair is the empty table and no reports; otherwise it is
    the file table of the document with the reports of the diagnostics up
    to the first one that raises (none if the diagnostics cannot be
    iterated). *)
Theorem parse_plist_always_returns path source_root allow_plist_update w :
  exists files reports w',
    parse_plist generate_report_hash path source_root allow_plist_update w
    = (Ok (files, reports), w') /\
    match readPlist path w with
    | Raise _ => files = PList [] /\ reports = []
    | Ok plist =>
        match py_getitem plist (PStr "files") with
        | Raise _ => files = PList [] /\ reports = []
        | Ok file_table =>
            files = file_table /\
            match (let? d := py_getitem plist (PStr "diagnostics") in
                   py_iter d) with
            | Raise _ => reports = []
            | Ok diags =>
                reports
                = (parsed_diags generate_report_hash source_root
                                file_table diags).1 /\
                length reports <= length diags
            end
        end
    end.
Proof.
  destruct (parse_plist_run generate_report_hash path source_root
              allow_plist_update w) as (r & s' & es & Htry & -> & _ & _).
  destruct (parse_plist_try_run generate_report_hash path source_root
              allow_plist_update w) as (r' & s'' & Htry' & _ & Hcase).
  rewrite Htry in Htry'. injection Htry' as <- <-.
  eexists _, _, _. split; [done|].
  destruct (readPlist path w) as [plist|e];
    [|by destruct Hcase as (_ & ? & ? & _)].
  destruct (py_getitem plist (PStr "files")) as [ft|e];
    [|by destruct Hcase as (_ & ? & ? & _)].
  destruct Hcase as [Hf Hcase]. split; [done|].
  destruct (let? d := py_getitem plist (PStr "diagnostics") in py_iter d)
    as [ds|e]; [|by destruct Hcase as (_ & ? & _)].
  destruct Hcase as [-> _]. split; [done|]. apply parsed_diags_length.
Qed.

End AlwaysReturns.

(** * A diagnostic that cannot be parsed *)

Section Offending.

Variable generate_report_hash : pyval -> pyval -> pyval -> result string.

Lemma parsed_diags_complete_length source_root ft ds :
  (parsed_diags generate_report_hash source_root ft ds).2 = None ->
  length (parsed_diags generate_report_hash source_root ft ds).1
  = length ds.
Proof.
  induction ds as [|d ds IH]; cbn [parsed_diags]; [done|].
  destruct (parsed_diag _ _ _ d) as [[[rep h] a]|e]; [|done].
  destruct (parsed_diags _ _ _ ds) as [reps oe]. cbn in *.
  intros ->. by rewrite IH.
Qed.

Lemma parsed_diags_stop source_root ft pre bad post e :
  (parsed_diags generate_report_hash source_root ft pre).2 = None ->
  parsed_diag generate_report_hash source_root ft bad = Raise e ->
  parsed_diags generate_report_hash source_root ft (pre ++ bad :: post)
  = ((parsed_diags generate_report_hash source_root ft pre).1, Some e).
Proof.
  intros Hpre Hbad. induction pre as [|d pre IH]; cbn [parsed_diags app].
  { by rewrite Hbad. }
  cbn [parsed_diags] in Hpre.
  destruct (parsed_diag _ _ _ d) as [[[rep h] a]|e']; [|done].
  destruct (parsed_diags _ _ _ pre) as [reps oe]. cbn in Hpre. subst oe.
  by rewrite IH.
Qed.

(** A diagnostic whose location names a position past the end of the
    file table raises [IndexError]. *)
Lemma parsed_diag_index_outside source_root (m l : gmap string pyval)
    (fs : list pyval) (i : Z) :
  m !! "location" = Some (PDict l) ->
  l !! "file" = Some (PInt i) ->
  (Z.of_nat (length fs) <= i)%Z ->
  parsed_diag generate_report_hash source_root (PList fs) (PDict m)
  = Raise IndexError.
Proof.
  intros Hl Hf Hi. unfold parsed_diag. cbn [py_keys].
  rewrite copy_main_section_all. unfold checker_name_of. cbn [py_get].
  assert (py_index fs i = Raise IndexError) as Hidx.
  { unfold py_index. destruct (Z.ltb_spec i 0); [lia|].
    destruct (Z.ltb_spec i 0); [lia|].
    rewrite lookup_ge_None_2; [done|lia]. }
  destruct (m !! "check_name"); cbn [py_getitem]; rewrite Hl;
    cbn [py_getitem]; rewrite Hf; cbn [py_getitem py_as_index];
    by rewrite Hidx.
Qed.

(** C9. When the diagnostics before [bad] are parsed and [bad] raises an
    exception [e] (a file index outside the file table raises
    [IndexError]), [parse_plist] still returns: the file table with the
    reports of the diagnostics before [bad], one for each; [e] is logged,
    the diagnostics after [bad] are not looked at and the stored document
    is not rewritten. *)
Theorem parse_plist_abandons_offending_diagnostic path source_root
    allow_plist_update w plist ft pre bad post e :
  readPlist path w = Ok plist ->
  py_getitem plist (PStr "files") = Ok ft ->
  py_getitem plist (PStr "diagnostics") = Ok (PList (pre ++ bad :: post)) ->
  (parsed_diags generate_report_hash source_root ft pre).2 = None ->
  parsed_diag generate_report_hash source_root ft bad = Raise e ->
  is_Exception e = true ->
  let reports := (parsed_diags generate_report_hash source_root ft pre).1 in
  exists w',
    parse_plist generate_report_hash path source_root allow_plist_update w
    = (Ok (ft, reports), w') /\
    length reports = length pre /\
    LogErrorExn e ∈ log w' /\
    contents w' = contents w.
Proof.
  intros Hread Hfiles Hdiags Hpre Hbad He reports.
  destruct (parse_plist_run generate_report_hash path source_root
              allow_plist_update w) as (r & s' & es & Htry & -> & Hlog & _).
  destruct (parse_plist_try_run generate_report_hash path source_root
              allow_plist_update w) as (r' & s'' & Htry' & _ & Hcase).
  rewrite Htry in Htry'. injection Htry' as <- <-.
  rewrite Hread, Hfiles, Hdiags in Hcase. cbn [bind_r py_iter] in Hcase.
  rewrite (parsed_diags_stop _ _ _ _ _ _ Hpre Hbad) in Hcase.
  cbn [fst snd] in Hcase. destruct Hcase as (-> & -> & -> & Hc).
  eexists. split; [done|]. split_and!.
  - by apply parsed_diags_complete_length.
  - rewrite log_logged. apply elem_of_app. right. by apply Hlog.
  - by rewrite contents_logged.
Qed.

End Offending.

Lemma parse_plist_abandons_offending_diagnostic_witness :
  let w := Samples.world_with "reports.plist" (Plist Samples.bad_bundle) in
  let reports := (parsed_diags Samples.sample_hash None
                    (PList Samples.two_files) [Samples.first_diag]).1 in
  exists w',
    parse_plist Samples.sample_hash "reports.plist" None true w
    = (Ok (PList Samples.two_files, reports), w') /\
    length reports = 1 /\
    LogErrorExn IndexError ∈ log w' /\
    contents w' = contents w.
Proof.
  apply (parse_plist_abandons_offending_diagnostic Samples.sample_hash
           "reports.plist" None true
           (Samples.world_with "reports.plist" (Plist Samples.bad_bundle))
           Samples.bad_bundle (PList Samples.two_files)
           [Samples.first_diag] Samples.outside_diag [Samples.last_diag]
           IndexError); vm_compute; reflexivity.
Defined.

(** * Enriching a bundle twice *)

Lemma py_getitem_insert_ne (m : gmap string pyval) k k' v :
  k <> k' ->
  py_getitem (PDict (<[k := v]> m)) (PStr k') = py_getitem (PDict m) (PStr k').
Proof. intros Hne. cbn. by rewrite lookup_insert_ne. Qed.

Lemma checker_name_of_insert_ne (m : gmap string pyval) k v :
  k <> "check_name" ->
  checker_name_of (PDict (<[k := v]> m)) = checker_name_of (PDict m).
Proof.
  intros Hne. unfold checker_name_of. cbn. by rewrite lookup_insert_ne.
Qed.

Section Idempotence.

Variable generate_report_hash : pyval -> pyval -> pyval -> result string.

Lemma generated_hash_of_insert (m : gmap string pyval) v sf :
  generated_hash_of generate_report_hash (PDict (<[hash_key := v]> m)) sf
  = generated_hash_of generate_report_hash (PDict m) sf.
Proof.
  unfold generated_hash_of.
  by rewrite py_getitem_insert_ne, checker_name_of_insert_ne.
Qed.

(** Once the generated hash is stored in the diagnostic, the resolver
    gives it back, also when it is the empty string. *)
Lemma report_hash_of_stored (m : gmap string pyval) sf h :
  m !! hash_key = None ->
  report_hash_of generate_report_hash (PDict m) sf = Ok h ->
  report_hash_of generate_report_hash (PDict (<[hash_key := h]> m)) sf
  = Ok h.
Proof.
  intros Hnone. unfold report_hash_of. cbn [py_get].
  rewrite Hnone, lookup_insert_eq. intros Hgen.
  destruct (truthy h); [done|]. by rewrite generated_hash_of_insert.
Qed.

(** Parsing the enriched diagnostic gives the same report and hash, and
    finds the hash field present. *)
Lemma parsed_diag_enriched source_root ft d rep h a :
  parsed_diag generate_report_hash source_root ft d = Ok (rep, h, a) ->
  parsed_diag generate_report_hash source_root ft
              (enriched generate_report_hash source_root ft d)
  = Ok (rep, h, false).
Proof.
  intros Hd. unfold enriched. rewrite Hd. destruct a.
  2:{ done. }
  destruct d as [| | | |m]; try done.
  revert Hd. unfold parsed_diag. cbn [py_keys dict_setitem].
  rewrite !copy_main_section_all.
  rewrite checker_name_of_insert_ne by done.
  destruct (checker_name_of (PDict m)) as [c|]; [|done].
  rewrite !py_getitem_insert_ne by done.
  destruct (py_getitem (PDict m) (PStr "location")) as [loc|]; [|done].
  destruct (py_getitem loc (PStr "file")) as [fid|]; [|done].
  destruct (py_getitem ft fid) as [fp|]; [|done].
  destruct (resolve_source_file source_root fp) as [sf|]; [|done].
  destruct (report_hash_of generate_report_hash (PDict m) sf)
    as [h'|] eqn:Hh; [|done].
  cbn [py_contains]. rewrite lookup_insert_eq.
  case_bool_decide as Hpresent; cbn [negb].
  { destruct (py_getitem (PDict m) (PStr "path")) as [p|]; [|done].
    by destruct (py_iter p). }
  assert (m !! hash_key = None) as Hnone.
  { destruct (m !! hash_key) eqn:E; [|done]. exfalso. apply Hpresent.
    by eexists. }
  destruct (py_getitem (PDict m) (PStr "path")) as [p|]; [|done].
  destruct (py_iter p) as [items|]; [|done].
  intros [= <- <-]. rewrite (report_hash_of_stored _ _ _ Hnone Hh).
  rewrite bool_decide_true by (by eexists). cbn [negb].
  do 5 f_equal. apply map_eq. intros k.
  destruct (decide (k = hash_key)) as [->|Hk1].
  { by rewrite !lookup_insert_eq. }
  rewrite !(lookup_insert_ne _ hash_key) by done.
  destruct (decide (k = "check_name")) as [->|Hk2].
  { by rewrite !lookup_insert_eq. }
  rewrite !(lookup_insert_ne _ "check_name") by done.
  destruct (decide (k = "path")) as [->|Hk3].
  { by rewrite !lookup_delete_eq. }
  rewrite !lookup_delete_ne by done. by rewrite lookup_insert_ne.
Qed.

Lemma lacks_hash_enriched source_root ft d :
  (exists r, parsed_diag generate_report_hash source_root ft d = Ok r) ->
  lacks_hash generate_report_hash source_root ft
             (enriched generate_report_hash source_root ft d) = false.
Proof.
  intros [[[rep h] a] Hd]. unfold lacks_hash.
  by rewrite (parsed_diag_enriched _ _ _ _ _ _ Hd).
Qed.

Lemma enriched_enriched source_root ft d :
  (exists r, parsed_diag generate_report_hash source_root ft d = Ok r) ->
  enriched generate_report_hash source_root ft
           (enriched generate_report_hash source_root ft d)
  = enriched generate_report_hash source_root ft d.
Proof.
  intros [[[rep h] a] Hd]. unfold enriched at 1.
  by rewrite (parsed_diag_enriched _ _ _ _ _ _ Hd).
Qed.

(** A bundle whose diagnostics were all parsed gives, once enriched, the
    same reports again; nothing is left to store. *)
Lemma parsed_diags_enriched source_root ft ds :
  (parsed_diags generate_report_hash source_root ft ds).2 = None ->
  parsed_diags generate_report_hash source_root ft
               (enriched generate_report_hash source_root ft <$> ds)
  = parsed_diags generate_report_hash source_root ft ds /\
  existsb (lacks_hash generate_report_hash source_root ft)
          (enriched generate_report_hash source_root ft <$> ds)
  = false /\
  enriched generate_report_hash source_root ft
    <$> (enriched generate_report_hash source_root ft <$> ds)
  = enriched generate_report_hash source_root ft <$> ds.
Proof.
  induction ds as [|d ds IH]; [done|].
  cbn [parsed_diags fmap list_fmap existsb].
  destruct (parsed_diag generate_report_hash source_root ft d)
    as [[[rep h] a]|e] eqn:Hd; [|done].
  rewrite (parsed_diag_enriched _ _ _ _ _ _ Hd).
  destruct (parsed_diags generate_report_hash source_root ft ds)
    as [reps oe] eqn:Hds.
  cbn [snd]. intros ->. destruct (IH eq_refl) as (IH1 & IH2 & IH3).
  fold (fmap (M:=list) (enriched generate_report_hash source_root ft)).
  rewrite IH1, IH2, IH3.
  rewrite lacks_hash_enriched, enriched_enriched by (by eexists).
  done.
Qed.

(** Stated on the document: when every diagnostic is parsed, one lacked
    its hash and the file can be written, the enriched bundle is stored
    and a second parse reproduces the first. *)
Lemma enrichment_idempotent_on_document path source_root w
    (m : gmap string pyval) ft all :
  readPlist path w = Ok (PDict m) ->
  m !! "files" = Some ft ->
  m !! "diagnostics" = Some (PList all) ->
  existsb (lacks_hash generate_report_hash source_root ft) all = true ->
  (parsed_diags generate_report_hash source_root ft all).2 = None ->
  path ∉ readonly w ->
  let reports := (parsed_diags generate_report_hash source_root ft all).1 in
  let rewritten :=
    PDict (<["diagnostics" :=
               PList (enriched generate_report_hash source_root ft
                      <$> all)]> m) in
  exists w1,
    parse_plist generate_report_hash path source_root true w
    = (Ok (ft, reports), w1) /\
    contents w1 = <[path := Plist rewritten]> (contents w) /\
    forall allow_plist_update,
    exists s2 w2,
      parse_plist_try generate_report_hash path source_root
                      allow_plist_update (start_locals path w1)
      = (Ok tt, s2) /\
      l_diag_changed s2 = false /\
      parse_plist generate_report_hash path source_root
                  allow_plist_update w1
      = (Ok (ft, reports), w2) /\
      contents w2 = contents w1.
Proof.
  intros Hread Hfiles Hdiags Hlacks Hall Hrw reports rewritten.
  destruct (parse_plist_run generate_report_hash path source_root true w)
    as (r & s1 & es & Htry & Hrun & _ & _).
  destruct (parse_plist_try_run generate_report_hash path source_root true w)
    as (r' & s1' & Htry' & Hro & Hcase).
  rewrite Htry in Htry'. injection Htry' as <- <-.
  rewrite Hread in Hcase. cbn [py_getitem] in Hcase.
  rewrite Hfiles, Hdiags in Hcase. cbn [bind_r py_iter] in Hcase.
  rewrite Hall, Hlacks in Hcase. cbn [andb] in Hcase.
  rewrite bool_decide_false in Hcase by done.
  destruct Hcase as (Hf & Hrep & Hch & -> & Hc).
  specialize (Hc m all eq_refl Hdiags).
  exists (l_world (logged es s1)). rewrite Hrun, Hf, Hrep.
  split; [done|]. rewrite contents_logged, Hc. split; [done|].
  intros upd. set (w1 := l_world (logged es s1)).
  assert (readPlist path w1 = Ok rewritten) as Hread1.
  { unfold readPlist, w1. by rewrite contents_logged, Hc, lookup_insert_eq. }
  destruct (parsed_diags_enriched source_root ft all Hall)
    as (Hsame & Hnone & _).
  destruct (parse_plist_run generate_report_hash path source_root upd w1)
    as (r2 & s2 & es2 & Htry2 & Hrun2 & _ & Hes2).
  destruct (parse_plist_try_run generate_report_hash path source_root upd w1)
    as (r2' & s2' & Htry2' & Hro2 & Hcase2).
  rewrite Htry2 in Htry2'. injection Htry2' as <- <-.
  rewrite Hread1 in Hcase2. unfold rewritten in Hcase2.
  cbn [py_getitem] in Hcase2.
  rewrite lookup_insert_ne, Hfiles, lookup_insert_eq in Hcase2 by done.
  cbn [bind_r py_iter] in Hcase2.
  rewrite Hsame, Hall, Hnone in Hcase2. cbn [andb] in Hcase2.
  destruct Hcase2 as (Hf2 & Hrep2 & Hch2 & -> & Hc2).
  exists s2, (l_world (logged es2 s2)). rewrite Hrun2, Hf2, Hrep2.
  split_and!; try done.
  rewrite contents_logged, Hc2. unfold w1. by rewrite contents_logged.
Qed.

Lemma lacks_hash_dict source_root ft d :
  lacks_hash generate_report_hash source_root ft d = true ->
  exists md, d = PDict md.
Proof.
  unfold lacks_hash, parsed_diag. destruct d; try done. by eexists.
Qed.

(** The enriched diagnostic holds the hash field. *)
Lemma enriched_has_hash source_root ft d :
  (exists r, parsed_diag generate_report_hash source_root ft d = Ok r) ->
  py_contains hash_key (enriched generate_report_hash source_root ft d)
  = Ok true.
Proof.
  intros [[[rep h] a] Hd].
  pose proof (parsed_diag_enriched _ _ _ _ _ _ Hd) as He.
  revert He. generalize (enriched generate_report_hash source_root ft d).
  intros d'. unfold parsed_diag.
  destruct (py_contains hash_key d') as [[|]|e]; [done| |];
    repeat match goal with
           | |- context [match ?r with Ok _ => _ | Raise _ => _ end] =>
               destruct r; try done
           end.
Qed.

Lemma parsed_diags_all_ok source_root ft ds :
  (parsed_diags generate_report_hash source_root ft ds).2 = None ->
  Forall (fun d => exists r, parsed_diag generate_report_hash source_root
                                         ft d = Ok r) ds.
Proof.
  induction ds as [|d ds IH]; [done|]. cbn [parsed_diags].
  destruct (parsed_diag generate_report_hash source_root ft d)
    as [[[rep h] a]|e] eqn:Hd; [|done].
  destruct (parsed_diags generate_report_hash source_root ft ds)
    as [reps oe]. cbn [snd] in *. intros ->.
  constructor; [by eexists|by apply IH].
Qed.

(** A [try] suite that completes with the document marked changed read a
    dictionary with a list of diagnostics, parsed them all, and could
    write the file. *)
Lemma completed_and_changed path source_root w s1 :
  parse_plist_try generate_report_hash path source_root true
                  (start_locals path w) = (Ok tt, s1) ->
  l_diag_changed s1 = true ->
  exists (m : gmap string pyval) ft all,
    readPlist path w = Ok (PDict m) /\
    m !! "files" = Some ft /\
    m !! "diagnostics" = Some (PList all) /\
    existsb (lacks_hash generate_report_hash source_root ft) all = true /\
    (parsed_diags generate_report_hash source_root ft all).2 = None /\
    (path ∉ readonly w) /\
    l_files s1 = ft /\
    l_reports s1 = (parsed_diags generate_report_hash source_root ft all).1.
Proof.
  intros Htry Hchanged.
  destruct (parse_plist_try_run generate_report_hash path source_root true w)
    as (r' & s1' & Htry' & Hro & Hcase).
  rewrite Htry in Htry'. injection Htry' as <- <-.
  destruct (readPlist path w) as [plist|e]; [|by destruct Hcase].
  destruct (py_getitem plist (PStr "files")) as [ft|e] eqn:Hfiles;
    [|by destruct Hcase].
  destruct Hcase as [Hf Hcase].
  destruct (py_getitem plist (PStr "diagnostics")) as [dv|e] eqn:Hdv;
    cbn [bind_r] in Hcase; [|by destruct Hcase].
  destruct (py_iter dv) as [ds|e] eqn:Hiter; [|by destruct Hcase].
  cbn zeta in Hcase. destruct Hcase as [Hrep Hcase].
  destruct (parsed_diags generate_report_hash source_root ft ds).2
    as [e|] eqn:Hall; [by destruct Hcase|].
  destruct Hcase as [Hch Hcase]. rewrite Hchanged in Hch.
  rewrite <- Hch in Hcase. cbn [andb] in Hcase.
  case_bool_decide as Hrw; [by destruct Hcase|].
  destruct plist as [| | | |m]; try done.
  cbn in Hfiles, Hdv.
  destruct (m !! "files") as [ft'|] eqn:Hmf; [|done].
  injection Hfiles as ->.
  destruct (m !! "diagnostics") as [dv'|] eqn:Hmd; [|done].
  injection Hdv as ->.
  symmetry in Hch. pose proof Hch as Hex.
  apply existsb_exists in Hex as (d & Hin & Hd).
  apply lacks_hash_dict in Hd as [md ->].
  assert (dv = PList ds) as ->.
  { destruct dv as [| |str|l|dd]; try done; cbn in Hiter;
      injection Hiter as <-.
    - apply in_map_iff in Hin as (x & Hx & _). done.
    - done.
    - apply in_map_iff in Hin as (x & Hx & _). done. }
  exists m, ft, ds. by split_and!.
Qed.

(** C2 (amended). When the first parse, with rewriting allowed, completes
    its [try] suite (every diagnostic is parsed and the file is written)
    with the bundle marked changed, the bundle stored under the path is
    the enriched one, each of its diagnostics holding the hash field;
    parsing it again gives the same file table and the same reports
    (hence the same hash for each diagnostic), does not mark the bundle
    changed and leaves the stored files as they are. *)
Theorem enrichment_idempotent_when_parsed path source_root w s1 :
  parse_plist_try generate_report_hash path source_root true
                  (start_locals path w) = (Ok tt, s1) ->
  l_diag_changed s1 = true ->
  exists w1 rewritten diags,
    parse_plist generate_report_hash path source_root true w
    = (Ok (l_files s1, l_reports s1), w1) /\
    contents w1 = <[path := Plist rewritten]> (contents w) /\
    py_getitem rewritten (PStr "diagnostics") = Ok (PList diags) /\
    Forall (fun d => py_contains hash_key d = Ok true) diags /\
    forall allow_plist_update,
    exists s2 w2,
      parse_plist_try generate_report_hash path source_root
                      allow_plist_update (start_locals path w1)
      = (Ok tt, s2) /\
      l_diag_changed s2 = false /\
      parse_plist generate_report_hash path source_root
                  allow_plist_update w1
      = (Ok (l_files s1, l_reports s1), w2) /\
      contents w2 = contents w1.
Proof.
  intros Htry Hchanged.
  destruct (completed_and_changed _ _ _ _ Htry Hchanged)
    as (m & ft & all & Hread & Hfiles & Hdiags & Hlacks & Hall & Hrw
        & -> & ->).
  destruct (enrichment_idempotent_on_document path source_root w m ft all
              Hread Hfiles Hdiags Hlacks Hall Hrw)
    as (w1 & Hrun & Hc & Hagain).
  eexists w1, _, _. split; [exact Hrun|]. split; [exact Hc|].
  split; [cbn; by rewrite lookup_insert_eq|]. split; [|exact Hagain].
  apply Forall_fmap. eapply Forall_impl; [by apply parsed_diags_all_ok|].
  intros d Hd. by apply enriched_has_hash.
Qed.

End Idempotence.

Lemma enrichment_idempotent_when_parsed_witness :
  let w := Samples.world_with "reports.plist" (Plist Samples.good_bundle) in
  let s1 := (parse_plist_try Samples.sample_hash "reports.plist" None true
               (start_locals "reports.plist" w)).2 in
  exists w1,
    parse_plist Samples.sample_hash "reports.plist" None true w
    = (Ok (l_files s1, l_reports s1), w1) /\
    forall allow_plist_update,
    exists s2 w2,
      parse_plist_try Samples.sample_hash "reports.plist" None
                      allow_plist_update (start_locals "reports.plist" w1)
      = (Ok tt, s2) /\
      l_diag_changed s2 = false /\
      parse_plist Samples.sample_hash "reports.plist" None
                  allow_plist_update w1
      = (Ok (l_files s1, l_reports s1), w2) /\
      contents w2 = contents w1.
Proof.
  intros w s1.
  unshelve epose proof
    (enrichment_idempotent_when_parsed Samples.sample_hash
       "reports.plist" None w s1 _ _)
    as (w1 & rewritten & diags & Hrun & _ & _ & _ & Hagain);
    [vm_compute; reflexivity..|].
  exists w1. split; [exact Hrun|exact Hagain].
Defined.

(** The claim as the specification states it fails when a diagnostic
    cannot be parsed: the diagnostics of [bad_bundle] lack the hash, the
    parse with rewriting allowed leaves the stored bundle as it was, and a
    second parse marks the bundle changed again. *)
Lemma enrichment_lost_on_error :
  let w := Samples.world_with "reports.plist" (Plist Samples.bad_bundle) in
  let w1 := (parse_plist Samples.sample_hash "reports.plist" None true w).2 in
  Forall (fun d => py_get d hash_key = Ok None)
         [Samples.first_diag; Samples.outside_diag; Samples.last_diag] /\
  contents w1 !! "reports.plist" = Some (Plist Samples.bad_bundle) /\
  l_diag_changed
    (parse_plist_try Samples.sample_hash "reports.plist" None true
                     (start_locals "reports.plist" w1)).2 = true.
Proof.
  split; [by repeat constructor|]. vm_compute. done.
Qed.

(** * Suppression is matched on the hash and the base name *)

Lemma basename_no_slash p : has_slash p = false -> basename p = p.
Proof.
  destruct p as [|c r]; simpl; [done|].
  intros [Hc Hr]%orb_false_iff. by rewrite Hr, Hc.
Qed.

Lemma has_slash_app a b : has_slash (a +:+ b) = has_slash a || has_slash b.
Proof. induction a as [|c a IH]; simpl; [done|]. by rewrite IH, orb_assoc. Qed.

Lemma basename_after_slash p : basename (String "/" p) = basename p.
Proof.
  simpl. destruct (has_slash p) eqn:E; [done|]. by rewrite basename_no_slash.
Qed.

(** Directory components in front of a path do not change its base
    name. *)
Lemma basename_prefix dir p : basename (dir +:+ "/" +:+ p) = basename p.
Proof.
  induction dir as [|c dir IH]; [apply basename_after_slash|].
  change (String c dir +:+ "/" +:+ p) with (String c (dir +:+ "/" +:+ p)).
  cbn [basename]. rewrite has_slash_app. simpl. by rewrite orb_true_r.
Qed.

Lemma matching_records_str info h p :
  GenericSuppressHandler.matching_records info (PStr h) (PStr p)
  = Ok (filter (fun r : suppress_record => r.1.1 = h /\ r.1.2 = basename p)
               info).
Proof.
  induction info as [|r info IH]; [done|].
  cbn [GenericSuppressHandler.matching_records]. rewrite IH. simpl.
  rewrite filter_cons.
  destruct (decide (r.1.1 = h /\ r.1.2 = basename p)) as [[Hh Hp]|Hn].
  - rewrite bool_decide_true by done. simpl. by rewrite bool_decide_true.
  - case_bool_decide; simpl; [|done]. case_bool_decide; [|done]. naive_solver.
Qed.

Lemma any_record_true l : any_record l = true <-> l <> [].
Proof. destruct l; simpl; naive_solver. Qed.

(** C4. [get_suppressed] answers true exactly when a stored record has the
    bug's hash and the base name of the bug's file path; a directory prefix
    of the path never changes the answer, and a record for [a.c] with hash [h]
    suppresses hash [h] both at [/x/a.c] and at [/y/a.c]. *)
Theorem get_suppressed_basename_scoped :
  (forall (self : GenericSuppressHandler.t) (h p : string),
      exists b,
        GenericSuppressHandler.get_suppressed self (PStr h) (PStr p) = Ok b /\
        (b = true <->
         exists r : suppress_record,
           r ∈ GenericSuppressHandler.suppress_info self /\
           r.1.1 = h /\ r.1.2 = basename p)) /\
  (forall (self : GenericSuppressHandler.t) (h dir p : string),
      GenericSuppressHandler.get_suppressed self (PStr h)
        (PStr (dir +:+ "/" +:+ p))
      = GenericSuppressHandler.get_suppressed self (PStr h) (PStr p)) /\
  (forall (self : GenericSuppressHandler.t) (h : string),
      (h, "a.c", EmptyString) ∈ GenericSuppressHandler.suppress_info self ->
      GenericSuppressHandler.get_suppressed self (PStr h) (PStr "/x/a.c")
      = Ok true /\
      GenericSuppressHandler.get_suppressed self (PStr h) (PStr "/y/a.c")
      = Ok true).
Proof.
  assert (forall (self : GenericSuppressHandler.t) (h p : string),
      exists b,
        GenericSuppressHandler.get_suppressed self (PStr h) (PStr p) = Ok b /\
        (b = true <->
         exists r : suppress_record,
           r ∈ GenericSuppressHandler.suppress_info self /\
           r.1.1 = h /\ r.1.2 = basename p)) as Hiff.
  { intros self h p. unfold GenericSuppressHandler.get_suppressed.
    rewrite matching_records_str. simpl. eexists. split; [done|].
    rewrite any_record_true. split.
    - intros Hne.
      destruct (filter _ _) as [|r l] eqn:Hf; [done|].
      assert (r ∈ r :: l) as Hin by left. rewrite <- Hf in Hin.
      apply list_elem_of_filter in Hin as [[Hh Hp] Hin]. by exists r.
    - intros (r & Hin & Hh & Hp) Hnil.
      assert (r ∈ filter (fun r : suppress_record =>
                            r.1.1 = h /\ r.1.2 = basename p)
                         (GenericSuppressHandler.suppress_info self)) as Hr
        by (apply list_elem_of_filter; done).
      rewrite Hnil in Hr. by apply not_elem_of_nil in Hr. }
  split; [exact Hiff|]. split.
  - intros self h dir p. unfold GenericSuppressHandler.get_suppressed.
    by rewrite !matching_records_str, basename_prefix.
  - intros self h Hin. split.
    + destruct (Hiff self h "/x/a.c") as (b & -> & Hb). f_equal.
      apply Hb. by exists (h, "a.c", EmptyString).
    + destruct (Hiff self h "/y/a.c") as (b & -> & Hb). f_equal.
      apply Hb. by exists (h, "a.c", EmptyString).
Qed.

Lemma get_suppressed_basename_scoped_witness :
  GenericSuppressHandler.get_suppressed Samples.handler_a (PStr "0123abcd")
    (PStr "/x/a.c") = Ok true /\
  GenericSuppressHandler.get_suppressed Samples.handler_a (PStr "0123abcd")
    (PStr "/y/a.c") = Ok true.
Proof.
  apply (proj2 (proj2 get_suppressed_basename_scoped) Samples.handler_a).
  simpl. left.
Defined.

(** * Empty fields count as missing *)

Section EmptyFields.

Context {S : Type} `{Logger S}.
Variable generate_report_hash : pyval -> pyval -> pyval -> result string.

Lemma get_checker_name_lookup (m m' : gmap string pyval) path :
  m !! "check_name" = m' !! "check_name" ->
  get_checker_name (S:=S) (PDict m) path = get_checker_name (PDict m') path.
Proof. intros E. unfold get_checker_name, py_get. by rewrite E. Qed.

Lemma get_checker_name_empty (m : gmap string pyval) path (s : S) :
  get_checker_name (PDict (<["check_name" := PStr EmptyString]> m)) path s
  = (Ok (PStr "unknown"), log_to (unknown_checker_warning path) s).
Proof.
  unfold get_checker_name, bind, lift, py_get. by rewrite lookup_insert_eq.
Qed.

Lemma get_checker_name_missing (m : gmap string pyval) path (s : S) :
  get_checker_name (PDict (delete "check_name" m)) path s
  = (Ok (PStr "unknown"), log_to (unknown_checker_warning path) s).
Proof.
  unfold get_checker_name, bind, lift, py_get. by rewrite lookup_delete_eq.
Qed.

Lemma get_report_hash_empty (m : gmap string pyval) sf (s : S) :
  get_report_hash generate_report_hash
                  (PDict (<[hash_key := PStr EmptyString]> m)) sf s
  = get_report_hash generate_report_hash (PDict (delete hash_key m)) sf s.
Proof.
  unfold get_report_hash, py_get.
  unfold bind at 1 3. unfold lift at 1 4.
  rewrite lookup_insert_eq, lookup_delete_eq. cbn [truthy negb].
  unfold py_getitem. rewrite lookup_insert_ne, lookup_delete_ne by done.
  erewrite (get_checker_name_lookup (<[hash_key:=PStr EmptyString]> m)
                                    (delete hash_key m)); [done|].
  by rewrite lookup_insert_ne, lookup_delete_ne.
Qed.

Lemma get_report_hash_empty_value (m : gmap string pyval) sf (s : S) p c :
  m !! "path" = Some p -> m !! "check_name" = Some c -> truthy c = true ->
  get_report_hash generate_report_hash
                  (PDict (<[hash_key := PStr EmptyString]> m)) sf s
  = (match generate_report_hash p sf c with
     | Ok h => Ok (PStr h)
     | Raise e => Raise e
     end, s).
Proof.
  intros Hp Hc Ht.
  unfold get_report_hash, py_get, get_checker_name, py_get, bind, lift, ret.
  rewrite lookup_insert_eq. cbn [truthy negb].
  unfold py_getitem. rewrite !lookup_insert_ne by done.
  rewrite Hp, Hc, Ht. simpl.
  by destruct (generate_report_hash p sf c).
Qed.

(** C10. A [check_name] that is present but empty resolves to
    ["unknown"], with the same warning as a missing one; an identity hash
    that is present but empty is resolved as a missing one is, that is
    recomputed by [generate_report_hash] from the path, the source file
    and the checker name. *)
Theorem empty_field_is_absent (m : gmap string pyval) (path : string)
    (source_file : pyval) (s : S) :
  (get_checker_name (PDict (<["check_name" := PStr EmptyString]> m)) path s).1
  = Ok (PStr "unknown") /\
  get_checker_name (PDict (<["check_name" := PStr EmptyString]> m)) path s
  = get_checker_name (PDict (delete "check_name" m)) path s /\
  get_report_hash generate_report_hash
                  (PDict (<[hash_key := PStr EmptyString]> m)) source_file s
  = get_report_hash generate_report_hash (PDict (delete hash_key m))
                    source_file s /\
  (forall p c,
      m !! "path" = Some p -> m !! "check_name" = Some c ->
      truthy c = true ->
      get_report_hash generate_report_hash
                      (PDict (<[hash_key := PStr EmptyString]> m)) source_file s
      = (match generate_report_hash p source_file c with
         | Ok h => Ok (PStr h)
         | Raise e => Raise e
         end, s)).
Proof.
  split_and!.
  - by rewrite get_checker_name_empty.
  - by rewrite get_checker_name_empty, get_checker_name_missing.
  - apply get_report_hash_empty.
  - apply get_report_hash_empty_value.
Qed.

End EmptyFields.

Lemma empty_field_is_absent_witness :
  let m : gmap string pyval :=
    <["path" := PList []]> (<["check_name" := PStr "core.DivideZero"]> ∅) in
  get_report_hash Samples.sample_hash
                  (PDict (<[hash_key := PStr EmptyString]> m))
                  (PStr "/x/a.c") (mkWorld ∅ ∅ [])
  = (Ok (PStr "hash:/x/a.c:core.DivideZero"), mkWorld ∅ ∅ []).
Proof.
  intros m.
  apply (proj2 (proj2 (proj2 (empty_field_is_absent Samples.sample_hash m
                                EmptyString (PStr "/x/a.c")
                                (mkWorld ∅ ∅ []))))
               (PList []) (PStr "core.DivideZero")); reflexivity.
Defined.

(** * The display file of a report *)

Lemma py_index_last {A} (l : list A) :
  py_index l (-1) = match last l with
                    | Some x => Ok x
                    | None => Raise IndexError
                    end.
Proof.
  unfold py_index. cbn [Z.ltb Z.compare].
  rewrite last_lookup. destruct l as [|x l]; [done|].
  replace (-1 + Z.of_nat (length (x :: l)))%Z with (Z.of_nat (length l))
    by (simpl; lia).
  destruct (Z.ltb_spec (Z.of_nat (length l)) 0); [lia|].
  by rewrite Nat2Z.id.
Qed.

Lemma event_steps_filter (path : list pyval) :
  forallb is_step_dict path = true ->
  event_steps path = Ok (filter (fun i => is_event_step i = true) path).
Proof.
  induction path as [|i path IH]; [done|].
  cbn [forallb]. intros [Hi Hp]%andb_true_iff.
  cbn [event_steps]. rewrite (IH Hp). rewrite filter_cons.
  destruct i; try done. unfold is_event_step. simpl.
  destruct (d !! "kind") as [k|]; simpl.
  - destruct (py_eq_str k "event"); try case_decide; done.
  - done.
Qed.

(** C6 (amended). For a report whose path steps are dictionaries, the
    display file is [files[e['location']['file']]] for the last step [e] of
    kind ["event"]; when no step is of that kind there is no fallback to
    the last path step: the lookup raises [IndexError]. *)
Theorem display_file_last_event (files : pyval) (report : Report) :
  forallb is_step_dict (bug_path report) = true ->
  (let? events := event_steps (bug_path report) in display_file files events)
  = match last (filter (fun i => is_event_step i = true) (bug_path report))
    with
    | Some last_event =>
        let? loc := py_getitem last_event (PStr "location") in
        let? fid := py_getitem loc (PStr "file") in
        py_getitem files fid
    | None => Raise IndexError
    end.
Proof.
  intros Hd. rewrite (event_steps_filter _ Hd). cbn [bind_r].
  unfold display_file. rewrite py_index_last.
  by destruct (last _).
Qed.

Lemma display_file_last_event_witness :
  (let? events := event_steps (bug_path (Samples.report_at 1
                    [Samples.step "event" 0 3 2 "first";
                     Samples.step "event" 1 7 5 "second";
                     Samples.step "control" 0 9 1 EmptyString])) in
   display_file (PList Samples.two_files) events)
  = Ok (PStr "/y/b.c").
Proof.
  rewrite display_file_last_event; reflexivity.
Defined.

(** The claim as the specification states it fails: a report without an
    event step makes the pass raise [IndexError], although its last path
    step names a file of the table. *)
Lemma display_file_no_fallback :
  (let? last_step := py_index (bug_path Samples.no_event_report) (-1) in
   let? loc := py_getitem last_step (PStr "location") in
   let? fid := py_getitem loc (PStr "file") in
   py_getitem (PList Samples.two_files) fid) = Ok (PStr "/x/a.c") /\
  (let? events := event_steps (bug_path Samples.no_event_report) in
   display_file (PList Samples.two_files) events) = Raise IndexError /\
  (Samples.plain_pass false [Samples.no_event_report]).1 = Raise IndexError.
Proof. split_and!; vm_compute; reflexivity. Qed.

(** * The entry point of the formatter *)

(** C7. [parse_and_write] never returns an integer: since [parse_plist]
    swallows every error, the [except] clause that returns [1] is never
    entered.  On a file that is not a plist the pass runs over no reports,
    writes the "no defects" line and returns the (empty) statistics. *)
Theorem parse_and_write_never_fails_with_1 :
  (forall {H : Type} `{SuppressHandler H} severity_map skiplist_handler
          print_steps report_plus_str report_str source_get_suppressed
          get_line py_repr generate_report_hash plist_file
          analyzed_source_file (st : fstate H),
      match (parse_and_write severity_map skiplist_handler print_steps
               report_plus_str report_str source_get_suppressed get_line
               py_repr generate_report_hash plist_file analyzed_source_file
               st).1 with
      | Ok (RetInt _) => False
      | Ok (RetStats _) | Raise _ => True
      end) /\
  let r := Samples.plain_parse_and_write "bad.plist"
             (Samples.world_with "bad.plist" (Unreadable ExpatError)) in
  r.1 = Ok (RetStats (mkStats ∅ ∅ ∅)) /\
  f_output r.2 = ["Found no defects while analyzing main.c" +:+ nl] /\
  log (f_world r.2)
  = [LogDebug "Parsing plist: bad.plist";
     LogError "Failed to process plist file: bad.plist wrong file format?";
     LogErrorExn ExpatError].
Proof.
  split.
  - intros H SH sev skip ps rps rs sgs gl pr gen pf an st.
    unfold parse_and_write.
    destruct (parse_plist_Ok gen pf None true (f_world st))
      as (files & reports & w' & ->).
    unfold bind. by destruct (write_bugs _ _ _ _ _ _ _ _ _ _ _ _) as [[?|?] ?].
  - vm_compute. done.
Qed.

(** * Numbering of the steps *)

(** C8. The width of the step index is computed from the number of reports
    of the pass, not from the number of steps of the finding.  One report
    with ten steps gets width 1: its first step is numbered ["    1, "] and
    its tenth ["    10, "], where the width of the step count would give
    ["     1, "]; ten reports with one step each get width 2, where the
    step count would give width 1. *)
Theorem step_index_width_from_report_count :
  let out1 := f_output (Samples.plain_pass true [Samples.ten_step_report]).2 in
  let out10 := f_output (Samples.plain_pass true Samples.ten_reports).2 in
  (out1 !! 6 = Some "    1, " /\ out1 !! 33 = Some "    10, " /\
   index_format (index_width 10) 1 = "     1, ") /\
  (out10 !! 6 = Some "     1, " /\ index_format (index_width 1) 1 = "    1, ").
Proof. vm_compute. done. Qed.

(** * The exclusion filter *)

Lemma py_index_nonneg {A} (l : list A) (i : Z) :
  (0 <= i)%Z ->
  py_index l i = match l !! Z.to_nat i with
                 | Some x => Ok x
                 | None => Raise IndexError
                 end.
Proof.
  intros Hi. unfold py_index.
  destruct (Z.ltb_spec i 0) as [?|_]; [lia|]. cbn zeta.
  by destruct (Z.ltb_spec i 0) as [?|_]; [lia|].
Qed.

Section FilterFacts.

Variable exclude : pyval -> bool.

Let should_skip (f : pyval) : result bool := Ok (exclude f).

Lemma collect_file_ids_spec fs : forall i ids,
  exists ids',
    collect_file_ids should_skip i fs ids = Ok ids' /\
    forall n, n ∈ ids' <->
              n ∈ ids \/
              exists f, i <= n /\ fs !! (n - i) = Some f /\ exclude f = true.
Proof.
  induction fs as [|f fs IH]; intros i ids.
  { exists ids. split; [done|]. intros n. split; [by left|].
    intros [?|(f & _ & Hf & _)]; [done|]. by rewrite lookup_nil in Hf. }
  cbn [collect_file_ids]. unfold should_skip at 1. cbn [bind_r].
  destruct (IH (S i) (if exclude f then ids ++ [i] else ids))
    as (ids' & -> & Hids').
  exists ids'. split; [done|]. intros n. rewrite Hids'. split.
  - intros [Hn|(g & Hle & Hg & He)].
    + destruct (exclude f) eqn:Ef; [|by left].
      apply elem_of_app in Hn as [Hn|Hn]; [by left|].
      apply list_elem_of_singleton in Hn as ->. right. exists f.
      by rewrite Nat.sub_diag.
    + right. exists g. split; [lia|]. split; [|done].
      replace (n - i) with (S (n - S i)) by lia. done.
  - intros [Hn|(g & Hle & Hg & He)].
    + left. destruct (exclude f); [|done]. apply elem_of_app. by left.
    + destruct (decide (n = i)) as [->|Hne].
      * rewrite Nat.sub_diag in Hg. injection Hg as ->. rewrite He.
        left. apply elem_of_app. right. by apply list_elem_of_singleton.
      * right. exists g. split; [lia|]. split; [|done].
        replace (n - i) with (S (n - S i)) in Hg by lia. done.
Qed.

Lemma in_file_ids_spec (z : Z) ids :
  (0 <= z)%Z ->
  in_file_ids (PInt z) ids = true <-> Z.to_nat z ∈ ids.
Proof.
  intros Hz. unfold in_file_ids. rewrite existsb_exists. split.
  - intros (n & Hn & He). unfold py_eq_int in He. simpl in He.
    apply Z.eqb_eq in He. subst z. rewrite Nat2Z.id.
    by apply list_elem_of_In.
  - intros Hin. exists (Z.to_nat z). split; [by apply list_elem_of_In|].
    unfold py_eq_int. simpl. apply Z.eqb_eq. lia.
Qed.

Lemma extend_each_scannable pes : forall acc,
  forallb scannable pes = true ->
  exists r, extend_each path_element_fids pes acc = Ok r.
Proof.
  induction pes as [|pe pes IH]; intros acc; [by eexists|].
  cbn [forallb]. intros [Hpe Hpes]%andb_true_iff.
  cbn [extend_each]. unfold scannable in Hpe.
  destruct (path_element_fids pe) as [ys|e]; [|done].
  cbn [bind_r]. by apply IH.
Qed.

Lemma fids_in_path_loop_filter (files diags : list pyval) ids :
  (forall n, n ∈ ids <-> exists f, files !! n = Some f /\ exclude f = true) ->
  forallb well_formed_diag diags = true ->
  forall all_fids kept,
  exists all_fids',
    fids_in_path_loop diags ids all_fids kept
    = Ok (all_fids',
          kept ++ filter (fun d => primary_excluded exclude files d = false)
                         diags).
Proof.
  intros Hids. induction diags as [|d diags IH]; intros Hwf all_fids kept.
  { eexists. cbn. by rewrite app_nil_r. }
  cbn [forallb] in Hwf. apply andb_true_iff in Hwf as [Hd Hwf].
  specialize (IH Hwf).
  destruct d as [| | | |m]; try done. cbn [well_formed_diag] in Hd.
  destruct (m !! "location") as [[| | | |l]|] eqn:Hl; try done.
  destruct (m !! "path") as [p|] eqn:Hp; [|done].
  destruct (l !! "file") as [[|i| | |]|] eqn:Hf; try done.
  destruct (py_iter p) as [pes|] eqn:Hpes; [|done].
  apply andb_true_iff in Hd as [Hi Hscan]. apply Z.leb_le in Hi.
  cbn [fids_in_path_loop py_getitem]. rewrite Hl. cbn [bind_r py_getitem].
  rewrite Hf. cbn [bind_r]. rewrite filter_cons.
  assert (primary_excluded exclude files (PDict m)
          = in_file_ids (PInt i) ids) as Hex.
  { unfold primary_excluded, primary_file. cbn [py_getitem]. rewrite Hl.
    cbn [bind_r py_getitem]. rewrite Hf. cbn [bind_r py_as_index].
    rewrite py_index_nonneg by done.
    destruct (in_file_ids (PInt i) ids) eqn:Hin.
    - apply in_file_ids_spec, Hids in Hin as (f & Hfile & He); [|done].
      by rewrite Hfile.
    - destruct (files !! Z.to_nat i) as [f|] eqn:Hfile; [|done].
      destruct (exclude f) eqn:He; [|done].
      rewrite <- Hin. symmetry. apply in_file_ids_spec; [done|].
      apply Hids. eauto. }
  rewrite Hex. destruct (in_file_ids (PInt i) ids).
  - rewrite decide_False by done. apply IH.
  - rewrite decide_True by done. rewrite Hp. cbn [bind_r]. rewrite Hpes.
    cbn [bind_r].
    destruct (extend_each_scannable pes all_fids Hscan) as [r ->].
    cbn [bind_r]. destruct (IH r (kept ++ [PDict m])) as [a ->].
    exists a. by rewrite <- app_assoc.
Qed.

(** C3 (amended). On a bundle whose diagnostics are well formed, that
    is dictionaries whose location holds a non-negative file position and
    whose path elements can be scanned without an error, the filter
    removes exactly the diagnostics whose primary file (the file of the
    table at that position) is excluded, whatever files their ranges and
    edges mention, keeps the others in their order, and leaves the file
    table as it was. *)
Theorem remove_report_filters_primary_file (m : gmap string pyval)
    (files diags : list pyval) :
  m !! "files" = Some (PList files) ->
  m !! "diagnostics" = Some (PList diags) ->
  forallb well_formed_diag diags = true ->
  let kept := filter (fun d => primary_excluded exclude files d = false)
                     diags in
  let new_data := <["diagnostics" := PList kept]> m in
  remove_report_from_plist (fun f => Ok (exclude f)) (Plist (PDict m))
  = Ok (Plist (PDict new_data)) /\
  new_data !! "files" = Some (PList files) /\
  new_data !! "diagnostics" = Some (PList kept).
Proof.
  intros Hfiles Hdiags Hwf kept new_data. split; [|split].
  - unfold remove_report_from_plist, remove_report_try.
    cbn [readPlistFromString py_getitem]. rewrite Hfiles.
    cbn [bind_r py_iter].
    destruct (collect_file_ids_spec files 0 []) as (ids & Hc & Hids).
    fold should_skip. rewrite Hc. cbn [bind_r].
    unfold fids_in_path. cbn [py_getitem]. rewrite Hdiags.
    cbn [bind_r py_iter].
    destruct (fids_in_path_loop_filter files diags ids)
      with (all_fids := @nil pyval) (kept := @nil pyval)
      as [a Ha]; [|done|].
    { intros n. rewrite Hids. rewrite Nat.sub_0_r. split.
      - intros [Hn|(f & _ & ? & ?)]; [by apply not_elem_of_nil in Hn|eauto].
      - intros (f & ? & ?). right. exists f. split; [lia|done]. }
    rewrite Ha. cbn. done.
  - unfold new_data. by rewrite lookup_insert_ne.
  - unfold new_data. by rewrite lookup_insert_eq.
Qed.

End FilterFacts.

Lemma remove_report_filters_primary_file_witness :
  remove_report_from_plist (fun f => Ok (Samples.exclude_b f))
                           (Plist (PDict Samples.a_and_b))
  = Ok (Plist (PDict (<["diagnostics" := PList [Samples.diag_a]]>
                        Samples.a_and_b))) /\
  (<["diagnostics" := PList [Samples.diag_a]]> Samples.a_and_b) !! "files"
  = Some (PList [PStr "a.c"; PStr "b.c"]).
Proof.
  pose proof (remove_report_filters_primary_file Samples.exclude_b
                Samples.a_and_b [PStr "a.c"; PStr "b.c"]
                [Samples.diag_a; Samples.diag_b]
                eq_refl eq_refl eq_refl) as (H1 & H2 & _).
  split; [exact H1|exact H2].
Defined.

(** The claim as the specification states it, for every bundle, fails
    outside the well-formed ones.  A diagnostic located at position [-1],
    which the parser resolves to the last file [b.c], is kept although
    [b.c] is excluded, since the filter looks the position up among the
    non-negative positions it collected; a diagnostic without location makes
    the filter return the original content, with the diagnostic of the
    excluded [b.c] still in it; and a path element whose ranges are not a
    sequence makes the filter raise [TypeError]. *)
Lemma exclusion_fails_outside_well_formed :
  (primary_file [PStr "a.c"; PStr "b.c"] Samples.diag_from_end
   = Some (PStr "b.c") /\
   primary_excluded Samples.exclude_b [PStr "a.c"; PStr "b.c"]
                    Samples.diag_from_end = true /\
   remove_report_from_plist (fun f => Ok (Samples.exclude_b f))
     (Samples.with_diagnostics [Samples.diag_a; Samples.diag_from_end])
   = Ok (Samples.with_diagnostics [Samples.diag_a; Samples.diag_from_end])) /\
  (primary_excluded Samples.exclude_b [PStr "a.c"; PStr "b.c"] Samples.diag_b
   = true /\
   remove_report_from_plist (fun f => Ok (Samples.exclude_b f))
     (Samples.with_diagnostics [Samples.diag_b; PDict ∅; Samples.diag_a])
   = Ok (Samples.with_diagnostics [Samples.diag_b; PDict ∅; Samples.diag_a]))
  /\
  remove_report_from_plist (fun f => Ok (Samples.exclude_b f))
    (Samples.with_diagnostics [Samples.diag_bad_ranges; Samples.diag_b])
  = Raise TypeError.
Proof. split_and!; vm_compute; reflexivity. Qed.

(** * Statistics of a rendering pass *)

Lemma sum_values_incr `{Countable K} (k : K) (d : gmap K nat) :
  sum_values (incr k d) = S (sum_values d).
Proof.
  unfold sum_values, incr.
  destruct (d !! k) as [v|] eqn:Hk; simpl.
  - rewrite <- (insert_delete_eq d k (S v)).
    rewrite map_fold_insert_L; [|intros; lia|apply lookup_delete_eq].
    rewrite (map_fold_delete_L _ 0 k v d); [lia|intros; lia|done].
  - rewrite map_fold_insert_L; [lia|intros; lia|done].
Qed.

Lemma sum_values_empty `{Countable K} : sum_values (∅ : gmap K nat) = 0.
Proof. apply map_fold_empty. Qed.

Section Pass.

Context {H : Type} `{SuppressHandler H}.
Variable severity_map : gmap hkey string.
Variable skiplist_handler : option (pyval -> result bool).
Variable print_steps : bool.
Variable report_plus_str : Report -> string -> result string.
Variable report_str : Report -> string.
Variable source_get_suppressed :
  pyval -> pyval -> pyval -> pyval -> result (option (pyval * pyval * pyval)).
Variable get_line : pyval -> pyval -> result string.
Variable py_repr : pyval -> string.

Let body := write_bug (H:=H) severity_map skiplist_handler print_steps
              report_plus_str report_str source_get_suppressed get_line
              py_repr.

Lemma wrote_write (s s' : fstate H) x :
  wrote s s' ->
  wrote s (mkF (f_world s') (f_handler s') (f_output s' ++ [x])
               (severity_stats s') (file_stats s') (report_count s')
               (non_suppressed s')).
Proof.
  intros ([ex Hx] & ? & ? & ? & ?). split_and!; try done. simpl.
  exists (ex ++ [x]). by rewrite Hx, <- app_assoc.
Qed.

Lemma wp_write_wrote (s0 s : fstate H) x (Q : unit -> fstate H -> Prop) E :
  wrote s0 s -> (forall s', wrote s0 s' -> Q tt s') -> wp (write x) Q E s.
Proof. intros Hw HQ. apply wp_modify, HQ. by apply wrote_write. Qed.

Lemma wp_write_steps width files h events (s0 s : fstate H) :
  wrote s0 s ->
  wp (write_steps (H:=H) py_repr width files h events)
     (fun _ s' => wrote s0 s') (fun _ _ => True) s.
Proof.
  intros Hs. unfold write_steps.
  wp_step. destruct h; try done.
  wp_step. wp_step. wp_step.
  apply wp_for_each_from; [by do 2 apply wrote_write|].
  clear s Hs. intros j x s Hs. repeat wp_step.
  by do 3 apply wrote_write.
Qed.

Lemma wp_promote_suppression a b c (s : fstate H) :
  wp (promote_suppression a b c) (fun _ s' => untouched s s')
     (fun _ _ => True) s.
Proof.
  unfold wp, promote_suppression. destruct (f_handler s) as [h|].
  - destruct (handler_store_suppress_bug_id a b c h) as [[r|e] h'];
      [by repeat split|done].
  - by repeat split.
Qed.

Lemma wp_count_report f_path checker (s : fstate H) :
  wp (count_report (H:=H) severity_map f_path checker)
     (fun _ s' =>
        f_output s' = f_output s /\
        (exists sev, severity_stats s' = incr sev (severity_stats s)) /\
        (exists k, file_stats s' = incr k (file_stats s)) /\
        report_count s' = incr "report_count" (report_count s) /\
        non_suppressed s' = non_suppressed s /\
        f_handler s' = f_handler s)
     (fun _ _ => True) s.
Proof.
  unfold count_report. repeat wp_step. simpl. split_and!; eauto.
Qed.

(** The body of the loop either leaves output and statistics as they
    were, or renders the report and counts it once everywhere; in the
    second case none of the three drop conditions held. *)
Lemma wp_write_bug width files report (s : fstate H) :
  wp (body width files report)
     (fun _ s' =>
        untouched s s' \/
        (counted s s' /\
         ~ excluded_by_skiplist skiplist_handler files report /\
         ~ suppressed_by_store files report s /\
         ~ suppressed_inline source_get_suppressed files report))
     (fun _ _ => True) s.
Proof.
  unfold body, write_bug.
  wp_step. wp_step. rename a into events.
  wp_step. wp_step. rename a into f_path.
  wp_step.
  assert (forall Q : bool -> fstate H -> Prop,
            (forall b, match skiplist_handler with
                       | Some sk => sk f_path = Ok b
                       | None => b = false
                       end -> Q b s) ->
            wp (match skiplist_handler with
                | Some should_skip => lift (should_skip f_path)
                | None => ret false
                end) Q (fun _ _ => True) s) as Hskip.
  { intros Q HQ. destruct skiplist_handler as [sk|]; [|by apply wp_ret, HQ].
    apply wp_lift. destruct (sk f_path) eqn:Esk; [by apply HQ|done]. }
  apply Hskip. clear Hskip. intros skip Hskip.
  destruct skip.
  { wp_step. wp_step. destruct f_path; try done. wp_step. left.
    by repeat split. }
  wp_step. wp_step. rename a into hash_value.
  wp_step.
  assert (forall Q : bool -> fstate H -> Prop,
            (forall b, match f_handler s with
                       | Some h => handler_get_suppressed hash_value f_path h
                                   = Ok b
                       | None => b = false
                       end -> Q b s) ->
            wp (stored_suppressed hash_value f_path) Q (fun _ _ => True) s)
    as Hstored.
  { intros Q HQ. unfold stored_suppressed. wp_step. wp_step.
    destruct (f_handler s) as [h|]; [|by apply wp_ret, HQ].
    apply wp_lift.
    destruct (handler_get_suppressed hash_value f_path h) eqn:Eh;
      [by apply HQ|done]. }
  apply Hstored. clear Hstored. intros suppressed Hsup.
  destruct suppressed.
  { wp_step. left. by repeat split. }
  do 2 wp_step. rename a into last_report_event.
  do 2 wp_step. rename a into loc.
  do 2 wp_step. rename a into fid.
  do 2 wp_step. rename a into source_file.
  do 2 wp_step. rename a into loc'.
  do 2 wp_step. rename a into report_line.
  do 2 wp_step. rename a into report_hash.
  do 2 wp_step. rename a into checker_name.
  do 2 wp_step. rename a into suppress_data.
  destruct suppress_data as [[[hv fn] cm]|].
  { eapply wp_mono; [apply wp_promote_suppression| |done].
    intros ? s' Hs'. by left. }
  wp_step.
  eapply wp_mono; [apply wp_count_report| |done].
  intros severity s1 (Hout & Hsev & Hfiles & Hrc & Hns & Hh).
  do 2 wp_step. rename a into line.
  do 2 wp_step.
  set (s2 := mkF _ _ (f_output s1 ++ [line]) _ _ _ _).
  assert (wrote s2 s2) as Hw
    by (split_and!; [by exists []; rewrite app_nil_r|done..]).
  revert Hw. generalize s2 at 2 3. intros s3 Hw.
  wp_step. apply (wp_write_wrote s2); [done|]. clear s3 Hw. intros s3 Hw.
  do 2 wp_step.
  wp_step. apply (wp_write_wrote s2); [done|]. clear s3 Hw. intros s3 Hw.
  wp_step. apply (wp_write_wrote s2); [done|]. clear s3 Hw. intros s3 Hw.
  wp_step.
  eapply (wp_mono _ (fun _ s' => wrote s2 s')); [| |done].
  { destruct print_steps; [by apply wp_write_steps|by apply wp_ret]. }
  clear s3 Hw. intros ? s3 Hw.
  wp_step. apply (wp_write_wrote s2); [done|]. clear s3 Hw. intros s3 Hw.
  wp_step. right.
  destruct Hw as ([extra Hx] & Hw1 & Hw2 & Hw3 & Hw4). subst s2. simpl in *.
  split; [|split_and!].
  - split_and!; simpl.
    + exists line, extra. by rewrite Hx, Hout, <- app_assoc.
    + destruct Hsev as [sev Hsev]. exists sev. by rewrite Hw1, Hsev.
    + destruct Hfiles as [k Hk]. exists k. by rewrite Hw2, Hk.
    + by rewrite Hw3, Hrc.
    + by rewrite Hw4, Hns.
  - intros (ev & fp & sk & H1 & H2 & H3 & H4).
    rewrite H1 in E; injection E as <-. rewrite H2 in E0; injection E0 as <-.
    rewrite H3 in Hskip. congruence.
  - intros (ev & fp & hv & h & H1 & H2 & H3 & H4 & H5).
    rewrite H1 in E; injection E as <-. rewrite H2 in E0; injection E0 as <-.
    rewrite H3 in E1; injection E1 as <-.
    rewrite H4 in Hsup. congruence.
  - intros (l & lo & fi & sf & rl & rh & cn & sd & H1 & H2 & H3 & H4 & H5
            & H6 & H7 & H8).
    congruence.
Qed.

Lemma loop_statistics width files reports (s s' : fstate H) :
  for_each reports (body width files) s = (Ok tt, s') ->
  let n := rendered_findings severity_map skiplist_handler print_steps
             report_plus_str report_str source_get_suppressed get_line
             py_repr width files reports s in
  sum_values (severity_stats s') = sum_values (severity_stats s) + n /\
  sum_values (file_stats s') = sum_values (file_stats s) + n /\
  sum_values (report_count s') = sum_values (report_count s) + n /\
  default 0 (report_count s' !! "report_count")
  = default 0 (report_count s !! "report_count") + n /\
  non_suppressed s' = non_suppressed s + n.
Proof.
  revert s. induction reports as [|r rs IH]; intros s.
  { cbn. intros [= <-]. repeat split; lia. }
  cbn [for_each rendered_findings]. unfold bind at 1. fold (body width files r).
  pose proof (wp_write_bug width files r s) as Hstep. unfold wp in Hstep.
  destruct (body width files r s) as [[[]|e] s1]; [|done].
  intros Hrest. specialize (IH _ Hrest). cbn zeta in IH.
  destruct IH as (I1 & I2 & I3 & I4 & I5).
  destruct Hstep as [(U0 & U1 & U2 & U3 & U4)|[(C0 & C1 & C2 & C3 & C4) _]].
  - rewrite bool_decide_true by done.
    rewrite I1, I2, I3, I4, I5, U1, U2, U3, U4. repeat split; lia.
  - destruct C0 as (chunk & extra & C0), C1 as [sev C1], C2 as [k C2].
    rewrite bool_decide_false.
    2:{ rewrite C0. intros Heq. apply (f_equal length) in Heq.
        rewrite length_app in Heq. simpl in Heq. lia. }
    rewrite I1, I2, I3, I4, I5, C1, C2, C3, C4, !sum_values_incr.
    unfold incr at 1. rewrite lookup_insert_eq. simpl. repeat split; lia.
Qed.

(** C5. A rendering pass that returns its statistics has counted every
    rendered finding once in each of the three dictionaries: the sums of
    the severity and file statistics, the aggregate report count and the
    number of findings the loop wrote text for are all equal; and a
    finding dropped by the skip list, by the suppression store or by an
    inline suppression leaves the output and the three dictionaries as
    they were. *)
Theorem write_bugs_statistics_consistent reports files analyzed_source_file
    (st st' : fstate H) stats :
  write_bugs severity_map skiplist_handler print_steps report_plus_str
    report_str source_get_suppressed get_line py_repr reports files
    analyzed_source_file st = (Ok stats, st') ->
  let width := index_width (length reports) in
  let rendered :=
    rendered_findings severity_map skiplist_handler print_steps
      report_plus_str report_str source_get_suppressed get_line py_repr
      width files reports (start_pass st) in
  (sum_values (stats_severity stats) = rendered /\
   sum_values (stats_files stats) = rendered /\
   sum_values (stats_reports stats) = rendered /\
   default 0 (stats_reports stats !! "report_count") = rendered /\
   non_suppressed st' = rendered) /\
  (forall report (s s' : fstate H),
      write_bug severity_map skiplist_handler print_steps report_plus_str
        report_str source_get_suppressed get_line py_repr width files
        report s = (Ok tt, s') ->
      excluded_by_skiplist skiplist_handler files report \/
      suppressed_by_store files report s \/
      suppressed_inline source_get_suppressed files report ->
      untouched s s').
Proof.
  intros Hrun width rendered. split.
  - unfold write_bugs in Hrun. unfold bind at 1 in Hrun. cbn [modify] in Hrun.
    unfold bind at 1 in Hrun. fold width in Hrun.
    fold (body width files) in Hrun.
    destruct (for_each reports (body width files) (start_pass st))
      as [[[]|e] s1] eqn:Hloop; [|done].
    apply loop_statistics in Hloop. cbn zeta in Hloop. fold rendered in Hloop.
    destruct Hloop as (L1 & L2 & L3 & L4 & L5).
    cbv [bind gets write modify ret id] in Hrun. injection Hrun as <- <-.
    cbn -[sum_values]. cbn -[sum_values] in L1, L2, L3, L4, L5.
    rewrite !sum_values_empty in *. rewrite lookup_empty in L4.
    by rewrite L1, L2, L3, L4, L5.
  - intros report s s' Hstep Hdrop.
    pose proof (wp_write_bug width files report s) as Hwp.
    apply (wp_returns _ _ _ _ _ _ Hwp) in Hstep.
    destruct Hstep as [?|(_ & N1 & N2 & N3)]; [done|]. tauto.
Qed.

End Pass.

Lemma write_bugs_statistics_witness :
  exists stats st',
    Samples.sample_pass = (Ok stats, st') /\
    sum_values (stats_severity stats) = 2 /\
    sum_values (stats_files stats) = 2 /\
    sum_values (stats_reports stats) = 2 /\
    non_suppressed st' = 2.
Proof.
  destruct Samples.sample_pass as [[stats|e] st'] eqn:Hrun;
    [|by vm_compute in Hrun].
  exists stats, st'. split; [done|].
  destruct (write_bugs_statistics_consistent _ _ _ _ _ _ _ _ _ _ _ _ _ _ Hrun)
    as [(S1 & S2 & S3 & S4 & S5) _].
  assert (non_suppressed st' = 2) as Hn.
  { vm_compute in Hrun. by injection Hrun as _ <-. }
  rewrite Hn in S5. rewrite <- S5 in S1, S2, S3. done.
Defined.

(** * The exclusion filter beyond well-formed bundles *)

Lemma extend_each_file_ids (ls : list pyval) : forall acc fids,
  extend_each (fun l => let? fid := py_getitem l (PStr "file") in Ok [fid])
              ls acc = Ok fids <->
  exists new, fids = acc ++ new /\ Forall2 file_of ls new.
Proof.
  induction ls as [|l ls IH]; intros acc fids; cbn [extend_each].
  - split.
    + intros [= <-]. exists []. by rewrite app_nil_r.
    + intros (new & -> & Hnew). apply Forall2_nil_inv_l in Hnew as ->.
      by rewrite app_nil_r.
  - destruct (py_getitem l (PStr "file")) as [fid|e] eqn:Hl; cbn [bind_r].
    + rewrite IH. split.
      * intros (new & -> & Hnew). exists (fid :: new).
        rewrite <- app_assoc. split; [done|]. by constructor.
      * intros (new & -> & Hnew).
        apply Forall2_cons_inv_l in Hnew as (fid' & new' & Hf & Hnew & ->).
        unfold file_of in Hf. rewrite Hl in Hf. injection Hf as <-.
        exists new'. by rewrite <- app_assoc.
    + split; [done|]. intros (new & _ & Hnew).
      apply Forall2_cons_inv_l in Hnew as (fid' & new' & Hf & _).
      unfold file_of in Hf. congruence.
Qed.

Lemma append_file_ids_list (ls acc fids : list pyval) :
  append_file_ids (PList ls) acc = Ok fids <->
  exists new, fids = acc ++ new /\ Forall2 file_of ls new.
Proof.
  unfold append_file_ids. cbn [py_iter bind_r]. apply extend_each_file_ids.
Qed.

(** X1. [fids_in_range] on a list of ranges, each a list of locations,
    returns the ['file'] entry of every location, in the order of the
    ranges and of the locations within a range; it returns at all only if
    every location has the entry. *)
Theorem fids_in_range_flattens (rs : list (list pyval)) (fids : list pyval) :
  fids_in_range (PList (PList <$> rs)) = Ok fids <->
  Forall2 file_of (concat rs) fids.
Proof.
  unfold fids_in_range. cbn [py_iter bind_r].
  set (loop := fix loop (rs : list pyval) (fids : list pyval) :=
         match rs with
         | [] => Ok fids
         | r :: rs' => let? fids := append_file_ids r fids in loop rs' fids
         end).
  assert (forall acc,
            loop (PList <$> rs) acc = Ok fids <->
            exists new, fids = acc ++ new /\ Forall2 file_of (concat rs) new)
    as Hloop.
  { assert (forall acc, loop [] acc = Ok acc) as Hnil by done.
    assert (forall r rs acc,
              loop (r :: rs) acc
              = let? fids := append_file_ids r acc in loop rs fids) as Hcons
      by done.
    clearbody loop.
    induction rs as [|r rs IH]; intros acc; cbn [fmap list_fmap concat];
      [rewrite Hnil|rewrite Hcons].
    - split.
      + intros [= <-]. exists []. by rewrite app_nil_r.
      + intros (new & -> & Hnew). apply Forall2_nil_inv_l in Hnew as ->.
        by rewrite app_nil_r.
    - destruct (append_file_ids (PList r) acc) as [mid|e] eqn:Hr; cbn [bind_r].
      + apply append_file_ids_list in Hr as (new1 & -> & Hnew1).
        rewrite IH. split.
        * intros (new & -> & Hnew). exists (new1 ++ new).
          rewrite app_assoc. split; [done|]. by apply Forall2_app.
        * intros (new & -> & Hnew).
          apply Forall2_app_inv_l in Hnew as (k1 & k2 & Hk1 & Hk2 & ->).
          assert (k1 = new1) as ->.
          { assert (append_file_ids (PList r) acc = Ok (acc ++ k1)) as Hk
              by (apply append_file_ids_list; eauto).
            assert (append_file_ids (PList r) acc = Ok (acc ++ new1)) as Hn
              by (apply append_file_ids_list; eauto).
            rewrite Hk in Hn. injection Hn as Hn. by apply app_inv_head in Hn. }
          exists k2. by rewrite app_assoc.
      + split; [done|]. intros (new & _ & Hnew).
        apply Forall2_app_inv_l in Hnew as (k1 & k2 & Hk1 & _ & _).
        assert (append_file_ids (PList r) acc = Ok (acc ++ k1)) as Hk
          by (apply append_file_ids_list; eauto).
        congruence. }
  rewrite Hloop. split.
  - by intros (new & -> & Hnew).
  - intros Hf. by exists fids.
Qed.

Lemma fids_in_range_flattens_witness :
  fids_in_range (PList [PList [Samples.location 1 1 1; Samples.location 1 1 9];
                        PList [Samples.location 0 2 1]])
  = Ok [PInt 1; PInt 1; PInt 0].
Proof.
  apply (fids_in_range_flattens
           [[Samples.location 1 1 1; Samples.location 1 1 9];
            [Samples.location 0 2 1]]).
  repeat constructor.
Defined.

(** X2. [fids_in_edge] on a list of edges returns, for each edge in
    order, the ['file'] entries of its start locations followed by those
    of its end locations. *)
Theorem fids_in_edge_flattens (es : list pyval)
    (ends : list (list pyval * list pyval)) (fids : list pyval) :
  Forall2 edge_between es ends ->
  fids_in_edge (PList es) = Ok fids <->
  Forall2 file_of (concat ((fun se => se.1 ++ se.2) <$> ends)) fids.
Proof.
  intros Hes. unfold fids_in_edge. cbn [py_iter bind_r].
  set (loop := fix loop (es : list pyval) (fids : list pyval) :=
         match es with
         | [] => Ok fids
         | e :: es' =>
             let? start := py_getitem e (PStr "start") in
             let? end_ := py_getitem e (PStr "end") in
             let? fids := append_file_ids start fids in
             let? fids := append_file_ids end_ fids in
             loop es' fids
         end).
  assert (forall acc,
            loop es acc = Ok fids <->
            exists new,
              fids = acc ++ new /\
              Forall2 file_of (concat ((fun se => se.1 ++ se.2) <$> ends)) new)
    as Hloop.
  { assert (forall acc, loop [] acc = Ok acc) as Hnil by done.
    assert (forall e es acc,
              loop (e :: es) acc
              = let? start := py_getitem e (PStr "start") in
                let? end_ := py_getitem e (PStr "end") in
                let? fids := append_file_ids start acc in
                let? fids := append_file_ids end_ fids in
                loop es fids) as Hcons by done.
    clearbody loop.
    induction Hes as [|e [st en] es ends [Hst Hen] Hes IH]; intros acc;
      cbn [fmap list_fmap concat fst snd]; [rewrite Hnil|rewrite Hcons].
    - split.
      + intros [= <-]. exists []. by rewrite app_nil_r.
      + intros (new & -> & Hnew). apply Forall2_nil_inv_l in Hnew as ->.
        by rewrite app_nil_r.
    - cbn [fst snd] in Hst, Hen. rewrite Hst, Hen. cbn [bind_r].
      assert (forall k, append_file_ids (PList (st ++ en)) acc = Ok k <->
                        (let? f1 := append_file_ids (PList st) acc in
                         append_file_ids (PList en) f1) = Ok k) as Happ.
      { intros k. rewrite append_file_ids_list.
        destruct (append_file_ids (PList st) acc) as [f1|e1] eqn:H1;
          cbn [bind_r].
        - apply append_file_ids_list in H1 as (n1 & -> & Hn1).
          rewrite append_file_ids_list. split.
          + intros (new & -> & Hnew).
            apply Forall2_app_inv_l in Hnew as (k1 & k2 & Hk1 & Hk2 & ->).
            assert (k1 = n1) as ->.
            { assert (append_file_ids (PList st) acc = Ok (acc ++ k1)) as Hk
                by (apply append_file_ids_list; eauto).
              assert (append_file_ids (PList st) acc = Ok (acc ++ n1)) as Hn
                by (apply append_file_ids_list; eauto).
              rewrite Hk in Hn. injection Hn as Hn.
              by apply app_inv_head in Hn. }
            exists k2. by rewrite app_assoc.
          + intros (new & -> & Hnew). exists (n1 ++ new).
            rewrite app_assoc. split; [done|]. by apply Forall2_app.
        - split; [|done]. intros (new & _ & Hnew).
          apply Forall2_app_inv_l in Hnew as (k1 & k2 & Hk1 & _ & _).
          assert (append_file_ids (PList st) acc = Ok (acc ++ k1)) as Hk
            by (apply append_file_ids_list; eauto).
          congruence. }
      destruct (append_file_ids (PList st) acc) as [f1|e1] eqn:H1;
        cbn [bind_r] in *.
      + destruct (append_file_ids (PList en) f1) as [f2|e2] eqn:H2;
          cbn [bind_r].
        * pose proof (proj2 (Happ f2) eq_refl) as Hse.
          apply append_file_ids_list in Hse as (n12 & -> & Hn12).
          rewrite IH. split.
          -- intros (new & -> & Hnew). exists (n12 ++ new).
             rewrite app_assoc. split; [done|]. by apply Forall2_app.
          -- intros (new & -> & Hnew).
             apply Forall2_app_inv_l in Hnew as (k1 & k2 & Hk1 & Hk2 & ->).
             assert (k1 = n12) as ->.
             { assert (append_file_ids (PList (st ++ en)) acc
                       = Ok (acc ++ k1)) as Hk
                 by (apply append_file_ids_list; eauto).
               apply Happ in Hk. injection Hk as Hk.
               by apply app_inv_head in Hk. }
             exists k2. by rewrite app_assoc.
        * split; [done|]. intros (new & _ & Hnew).
          apply Forall2_app_inv_l in Hnew as (k1 & k2 & Hk1 & _ & _).
          assert (append_file_ids (PList (st ++ en)) acc = Ok (acc ++ k1))
            as Hk by (apply append_file_ids_list; eauto).
          by apply Happ in Hk.
      + split; [done|]. intros (new & _ & Hnew).
        apply Forall2_app_inv_l in Hnew as (k1 & k2 & Hk1 & _ & _).
        assert (append_file_ids (PList (st ++ en)) acc = Ok (acc ++ k1))
          as Hk by (apply append_file_ids_list; eauto).
        by apply Happ in Hk. }
  rewrite Hloop. split.
  - by intros (new & -> & Hnew).
  - intros Hf. by exists fids.
Qed.

Lemma fids_in_edge_flattens_witness :
  fids_in_edge
    (PList [PDict (<["start" := PList [Samples.location 1 1 1]]>
                   (<["end" := PList [Samples.location 0 2 1]]> ∅))])
  = Ok [PInt 1; PInt 0].
Proof.
  apply (fids_in_edge_flattens _
           [([Samples.location 1 1 1], [Samples.location 0 2 1])]).
  - repeat constructor.
  - repeat constructor.
Defined.

Lemma extend_unless_KeyError_raises {A} (acc : list A) r :
  match extend_unless_KeyError acc r with
  | Raise KeyError => False
  | _ => True
  end.
Proof. by destruct r as [xs|[]]. Qed.

(** X3. A path element never makes the scan fail with [KeyError]: each of
    its three parts (ranges, location, edges) is tried on its own and a
    missing key only drops the ids of that part.  An element that has
    neither ranges nor edges yields the file of its location alone. *)
Theorem path_element_fids_tolerates_missing_keys :
  (forall pe, match path_element_fids pe with
              | Raise KeyError => False
              | _ => True
              end) /\
  (forall (m : gmap string pyval) loc fid,
      m !! "ranges" = None -> m !! "edges" = None ->
      m !! "location" = Some loc -> file_of loc fid ->
      path_element_fids (PDict m) = Ok [fid]).
Proof.
  split.
  - intros pe. unfold path_element_fids.
    pose proof (extend_unless_KeyError_raises []
                  (let? rng := py_getitem pe (PStr "ranges") in
                   fids_in_range rng)) as H1.
    destruct (extend_unless_KeyError [] _) as [a|e1]; cbn [bind_r];
      [|by destruct e1].
    pose proof (extend_unless_KeyError_raises a
                  (let? loc := py_getitem pe (PStr "location") in
                   let? fid := py_getitem loc (PStr "file") in
                   Ok [fid])) as H2.
    destruct (extend_unless_KeyError a _) as [b|e2]; cbn [bind_r];
      [|by destruct e2].
    apply extend_unless_KeyError_raises.
  - intros m loc fid Hr He Hl Hf. unfold path_element_fids, file_of in *.
    assert (py_getitem (PDict m) (PStr "ranges") = Raise KeyError) as ->
      by (cbn; by rewrite Hr).
    assert (py_getitem (PDict m) (PStr "edges") = Raise KeyError) as ->
      by (cbn; by rewrite He).
    assert (py_getitem (PDict m) (PStr "location") = Ok loc) as ->
      by (cbn; by rewrite Hl).
    cbn [bind_r extend_unless_KeyError]. by rewrite Hf.
Qed.

Lemma path_element_fids_tolerates_missing_keys_witness :
  path_element_fids (Samples.step "event" 1 7 5 "dereference") = Ok [PInt 1].
Proof.
  apply (proj2 path_element_fids_tolerates_missing_keys _
           (Samples.location 1 7 5)); reflexivity.
Defined.

Lemma fids_in_path_loop_kept (ds : list pyval) ids :
  forall a k a' k',
    fids_in_path_loop ds ids a k = Ok (a', k') ->
    k' = k ++ filter (fun d => listed ids d = false) ds.
Proof.
  induction ds as [|d ds IH]; intros a k a' k'; cbn [fids_in_path_loop].
  { intros [= <- <-]. by rewrite app_nil_r. }
  rewrite filter_cons.
  destruct (py_getitem d (PStr "location")) as [loc|] eqn:Hloc; cbn [bind_r];
    [|done].
  destruct (py_getitem loc (PStr "file")) as [fid|] eqn:Hfid; cbn [bind_r];
    [|done].
  assert (listed ids d = in_file_ids fid ids) as Hlisted.
  { unfold listed. rewrite Hloc. cbn [bind_r]. by rewrite Hfid. }
  destruct (in_file_ids fid ids).
  - rewrite decide_False by (by rewrite Hlisted). apply IH.
  - rewrite decide_True by done.
    destruct (py_getitem d (PStr "path")) as [p|]; cbn [bind_r]; [|done].
    destruct (py_iter p) as [pes|]; cbn [bind_r]; [|done].
    destruct (extend_each path_element_fids pes a) as [a1|]; cbn [bind_r];
      [|done].
    intros Hrest. apply IH in Hrest as ->. by rewrite <- app_assoc.
Qed.

(** X4. Whenever [fids_in_path] returns, the diagnostics it keeps are
    exactly those whose location does not name a listed file position, in
    their original order: what the path of a diagnostic mentions never
    decides whether it is kept. *)
Theorem fids_in_path_keeps_unlisted (report_data : pyval) (ids : list nat)
    (all_fids kept : list pyval) :
  fids_in_path report_data ids = Ok (all_fids, kept) ->
  exists diagnostics ds,
    py_getitem report_data (PStr "diagnostics") = Ok diagnostics /\
    py_iter diagnostics = Ok ds /\
    kept = filter (fun d => listed ids d = false) ds.
Proof.
  unfold fids_in_path.
  destruct (py_getitem report_data (PStr "diagnostics")) as [dv|];
    cbn [bind_r]; [|done].
  destruct (py_iter dv) as [ds|] eqn:Hds; cbn [bind_r]; [|done].
  intros Hloop. apply fids_in_path_loop_kept in Hloop.
  exists dv, ds. split_and!; [done..|exact Hloop].
Qed.

Lemma fids_in_path_keeps_unlisted_witness :
  exists diagnostics ds,
    py_getitem (PDict Samples.a_and_b) (PStr "diagnostics") = Ok diagnostics /\
    py_iter diagnostics = Ok ds /\
    [Samples.diag_a] = filter (fun d => listed [1] d = false) ds.
Proof.
  apply (fids_in_path_keeps_unlisted (PDict Samples.a_and_b) [1]
           (PInt <$> [1; 1; 0; 1; 1; 0]%Z) [Samples.diag_a]).
  vm_compute. reflexivity.
Defined.

Section FilterShape.

Variable should_skip : pyval -> result bool.

(** X5. What the filter returns for a parsed document is either the
    document itself or the document with its ['diagnostics'] entry
    replaced by a sub-sequence of the diagnostics it held: no other entry
    is touched (the file table in particular), and no diagnostic is
    added, changed or moved. *)
Theorem remove_report_result_shape (v : pyval) (r : stored) :
  remove_report_from_plist should_skip (Plist v) = Ok r ->
  r = Plist v \/
  exists (m : gmap string pyval) diagnostics ds kept,
    v = PDict m /\ m !! "diagnostics" = Some diagnostics /\
    py_iter diagnostics = Ok ds /\ sublist kept ds /\
    r = Plist (PDict (<["diagnostics" := PList kept]> m)).
Proof.
  unfold remove_report_from_plist, remove_report_try.
  cbn [readPlistFromString].
  destruct (py_getitem v (PStr "files")) as [fv|e] eqn:Hfv; cbn [bind_r].
  2:{ destruct e; try done. intros [= <-]. by left. }
  destruct (py_iter fv) as [fs|e]; cbn [bind_r].
  2:{ destruct e; try done. intros [= <-]. by left. }
  destruct (collect_file_ids should_skip 0 fs []) as [ids|e]; cbn [bind_r].
  2:{ destruct e; try done. intros [= <-]. by left. }
  destruct (fids_in_path v ids) as [[a kept]|e] eqn:Hpath; cbn [bind_r].
  2:{ destruct e; try done. intros [= <-]. by left. }
  intros [= <-]. right. unfold fids_in_path in Hpath.
  destruct (py_getitem v (PStr "diagnostics")) as [dv|] eqn:Hdv;
    cbn [bind_r] in Hpath; [|done].
  destruct (py_iter dv) as [ds|] eqn:Hds; cbn [bind_r] in Hpath; [|done].
  apply fids_in_path_loop_kept in Hpath. cbn [app] in Hpath. subst kept.
  destruct v as [| | | |m]; try done.
  cbn [py_getitem] in Hdv.
  destruct (m !! "diagnostics") as [dv'|] eqn:Hm; [|done].
  injection Hdv as ->.
  exists m, dv, ds, (filter (fun d => listed ids d = false) ds).
  split_and!; try done. apply sublist_filter.
Qed.

End FilterShape.

Lemma remove_report_result_shape_witness :
  exists r,
    remove_report_from_plist Samples.skip_b (Plist Samples.good_bundle)
    = Ok r /\
    (r = Plist Samples.good_bundle \/
     exists (m : gmap string pyval) diagnostics ds kept,
       Samples.good_bundle = PDict m /\
       m !! "diagnostics" = Some diagnostics /\
       py_iter diagnostics = Ok ds /\ sublist kept ds /\
       r = Plist (PDict (<["diagnostics" := PList kept]> m))).
Proof.
  destruct (remove_report_from_plist Samples.skip_b
              (Plist Samples.good_bundle)) as [r|e] eqn:Hrun;
    [|by vm_compute in Hrun].
  exists r. split; [done|].
  exact (remove_report_result_shape _ _ _ Hrun).
Defined.

Lemma fids_in_path_loop_app (pre rest : list pyval) ids :
  forall a k,
    fids_in_path_loop (pre ++ rest) ids a k
    = let? (a', k') := fids_in_path_loop pre ids a k in
      fids_in_path_loop rest ids a' k'.
Proof.
  induction pre as [|d pre IH]; intros a k; [done|].
  cbn [app fids_in_path_loop].
  destruct (py_getitem d (PStr "location")) as [loc|]; cbn [bind_r]; [|done].
  destruct (py_getitem loc (PStr "file")) as [fid|]; cbn [bind_r]; [|done].
  destruct (in_file_ids fid ids); [apply IH|].
  destruct (py_getitem d (PStr "path")) as [p|]; cbn [bind_r]; [|done].
  destruct (py_iter p) as [pes|]; cbn [bind_r]; [|done].
  destruct (extend_each path_element_fids pes a) as [a1|]; cbn [bind_r];
    [|done].
  apply IH.
Qed.

Lemma forallb_filter {A} (f : A -> bool) (P : A -> Prop)
    `{forall x, Decision (P x)} (l : list A) :
  forallb f l = true -> forallb f (filter P l) = true.
Proof.
  induction l as [|x l IH]; [done|]. cbn [forallb].
  intros [Hx Hl]%andb_true_iff. rewrite filter_cons.
  case_decide; [|by apply IH]. cbn [forallb]. by rewrite Hx, IH.
Qed.

Lemma filter_filter_same {A} (P : A -> Prop) `{forall x, Decision (P x)}
    (l : list A) :
  filter P (filter P l) = filter P l.
Proof.
  induction l as [|x l IH]; [done|]. rewrite filter_cons.
  case_decide; [|done]. rewrite filter_cons, decide_True by done.
  by rewrite IH.
Qed.

Lemma filter_all {A} (P : A -> Prop) `{forall x, Decision (P x)}
    (l : list A) :
  (forall x, x ∈ l -> P x) -> filter P l = l.
Proof.
  induction l as [|x l IH]; [done|]. intros Hall. rewrite filter_cons.
  rewrite decide_True by (apply Hall; left).
  rewrite IH; [done|]. intros y Hy. apply Hall. by right.
Qed.

Section FilterMore.

Variable exclude : pyval -> bool.

Lemma collected_ids_spec (files : list pyval) :
  exists ids,
    collect_file_ids (fun f => Ok (exclude f)) 0 files [] = Ok ids /\
    forall n, n ∈ ids <->
              exists f, files !! n = Some f /\ exclude f = true.
Proof.
  destruct (collect_file_ids_spec exclude files 0 []) as (ids & Hc & Hids).
  exists ids. split; [done|]. intros n. rewrite Hids, Nat.sub_0_r. split.
  - intros [Hn|(f & _ & ? & ?)]; [by apply not_elem_of_nil in Hn|eauto].
  - intros (f & ? & ?). right. exists f. split; [lia|done].
Qed.

(** On a bundle of well-formed diagnostics the filter keeps the
    diagnostics whose primary file is not excluded. *)
Lemma remove_report_well_formed (m : gmap string pyval)
    (files diags : list pyval) :
  m !! "files" = Some (PList files) ->
  m !! "diagnostics" = Some (PList diags) ->
  forallb well_formed_diag diags = true ->
  remove_report_from_plist (fun f => Ok (exclude f)) (Plist (PDict m))
  = Ok (Plist (PDict (<["diagnostics" :=
          PList (filter (fun d => primary_excluded exclude files d = false)
                        diags)]> m))).
Proof.
  intros Hfiles Hdiags Hwf.
  unfold remove_report_from_plist, remove_report_try.
  cbn [readPlistFromString py_getitem]. rewrite Hfiles.
  cbn [bind_r py_iter].
  destruct (collected_ids_spec files) as (ids & -> & Hids). cbn [bind_r].
  unfold fids_in_path. cbn [py_getitem]. rewrite Hdiags.
  cbn [bind_r py_iter].
  destruct (fids_in_path_loop_filter exclude files diags ids Hids Hwf [] [])
    as [a ->].
  done.
Qed.

(** X6. One malformed diagnostic switches the filter off for the whole
    bundle: when a diagnostic has no ['location'], the [KeyError] ends the
    scan and the original content is returned, with the diagnostics of
    excluded files that precede or follow it still in place. *)
Theorem remove_report_all_or_nothing (m d : gmap string pyval)
    (files pre post : list pyval) :
  m !! "files" = Some (PList files) ->
  m !! "diagnostics" = Some (PList (pre ++ PDict d :: post)) ->
  forallb well_formed_diag pre = true ->
  d !! "location" = None ->
  remove_report_from_plist (fun f => Ok (exclude f)) (Plist (PDict m))
  = Ok (Plist (PDict m)).
Proof.
  intros Hfiles Hdiags Hwf Hd.
  unfold remove_report_from_plist, remove_report_try.
  cbn [readPlistFromString py_getitem]. rewrite Hfiles.
  cbn [bind_r py_iter].
  destruct (collected_ids_spec files) as (ids & -> & Hids). cbn [bind_r].
  unfold fids_in_path. cbn [py_getitem]. rewrite Hdiags.
  cbn [bind_r py_iter]. rewrite fids_in_path_loop_app.
  destruct (fids_in_path_loop_filter exclude files pre ids Hids Hwf [] [])
    as [a ->].
  cbn [bind_r fids_in_path_loop py_getitem]. by rewrite Hd.
Qed.

(** X7. Filtering is idempotent on bundles of well-formed diagnostics:
    filtering the filtered content again, with the same exclusion policy,
    returns it unchanged. *)
Theorem remove_report_idempotent (m : gmap string pyval)
    (files diags : list pyval) (r : stored) :
  m !! "files" = Some (PList files) ->
  m !! "diagnostics" = Some (PList diags) ->
  forallb well_formed_diag diags = true ->
  remove_report_from_plist (fun f => Ok (exclude f)) (Plist (PDict m))
  = Ok r ->
  remove_report_from_plist (fun f => Ok (exclude f)) r = Ok r.
Proof.
  intros Hfiles Hdiags Hwf.
  rewrite (remove_report_well_formed m files diags Hfiles Hdiags Hwf).
  intros [= <-].
  rewrite (remove_report_well_formed _ files
             (filter (fun d => primary_excluded exclude files d = false)
                     diags)).
  - by rewrite insert_insert_eq, filter_filter_same.
  - by rewrite lookup_insert_ne.
  - by rewrite lookup_insert_eq.
  - by apply forallb_filter.
Qed.

(** X8. When the policy excludes no file of the table, the filter returns
    a bundle of well-formed diagnostics as it is, also when a diagnostic
    names a position outside the table. *)
Theorem remove_report_nothing_excluded (m : gmap string pyval)
    (files diags : list pyval) :
  m !! "files" = Some (PList files) ->
  m !! "diagnostics" = Some (PList diags) ->
  forallb well_formed_diag diags = true ->
  (forall f, f ∈ files -> exclude f = false) ->
  remove_report_from_plist (fun f => Ok (exclude f)) (Plist (PDict m))
  = Ok (Plist (PDict m)).
Proof.
  intros Hfiles Hdiags Hwf Hnone.
  rewrite (remove_report_well_formed m files diags Hfiles Hdiags Hwf).
  rewrite filter_all; [by rewrite insert_id|].
  intros d _. unfold primary_excluded.
  destruct (primary_file files d) as [f|] eqn:Hf; [|done].
  apply Hnone. unfold primary_file in Hf.
  destruct (py_getitem d (PStr "location")) as [loc|]; [|done].
  cbn [bind_r] in Hf.
  destruct (py_getitem loc (PStr "file")) as [fid|]; [|done].
  cbn [bind_r py_getitem] in Hf.
  destruct (py_as_index fid) as [i|]; [|done]. unfold py_index in Hf.
  destruct (_ <? 0)%Z; [done|].
  destruct (files !! _) as [f'|] eqn:Hl; [|done]. injection Hf as ->.
  by eapply list_elem_of_lookup_2.
Qed.

End FilterMore.

Lemma remove_report_all_or_nothing_witness :
  remove_report_from_plist (fun f => Ok (Samples.exclude_b f))
    (Plist (PDict (<["diagnostics" :=
                       PList [Samples.diag_b; PDict ∅; Samples.diag_a]]>
                     Samples.a_and_b)))
  = Ok (Plist (PDict (<["diagnostics" :=
                          PList [Samples.diag_b; PDict ∅; Samples.diag_a]]>
                        Samples.a_and_b))).
Proof.
  apply (remove_report_all_or_nothing Samples.exclude_b _ ∅
           [PStr "a.c"; PStr "b.c"] [Samples.diag_b] [Samples.diag_a]);
    reflexivity.
Defined.

Lemma remove_report_idempotent_witness :
  remove_report_from_plist (fun f => Ok (Samples.exclude_b f))
    (Plist (PDict (<["diagnostics" := PList [Samples.diag_a]]>
                     Samples.a_and_b)))
  = Ok (Plist (PDict (<["diagnostics" := PList [Samples.diag_a]]>
                        Samples.a_and_b))).
Proof.
  apply (remove_report_idempotent Samples.exclude_b Samples.a_and_b
           [PStr "a.c"; PStr "b.c"] [Samples.diag_a; Samples.diag_b]);
    vm_compute; reflexivity.
Defined.

Lemma remove_report_nothing_excluded_witness :
  remove_report_from_plist (fun f => Ok (py_eq_str f "c.c"))
                           (Plist (PDict Samples.a_and_b))
  = Ok (Plist (PDict Samples.a_and_b)).
Proof.
  apply (remove_report_nothing_excluded (fun f => py_eq_str f "c.c")
           Samples.a_and_b [PStr "a.c"; PStr "b.c"]
           [Samples.diag_a; Samples.diag_b]); try reflexivity.
  intros f Hf. repeat (apply elem_of_cons in Hf as [->|Hf]; [reflexivity|]).
  by apply not_elem_of_nil in Hf.
Defined.

Section SkipReport.

Variable should_skip : pyval -> result bool.

(** X9. [skip_report_from_plist] changes no file but the one it is given
    and no permission; it raises [IOError] when that file is missing or
    may not be written, and whenever it raises the world is as it was. *)
Theorem skip_report_touches_only_its_file (plist_file : string) (w : world) :
  let r := skip_report_from_plist should_skip plist_file w in
  delete plist_file (contents r.2) = delete plist_file (contents w) /\
  readonly r.2 = readonly w /\
  match r.1 with
  | Raise e =>
      r.2 = w /\
      (contents w !! plist_file = None \/ plist_file ∈ readonly w ->
       e = IOError)
  | Ok _ => is_Some (contents w !! plist_file) /\ plist_file ∉ readonly w
  end.
Proof.
  unfold skip_report_from_plist.
  destruct (contents w !! plist_file) as [plist|] eqn:Hc; cbn zeta.
  2:{ cbn. by split_and!. }
  case_bool_decide as Hro.
  { cbn. split_and!; try done. }
  destruct (remove_report_from_plist should_skip plist) as [new|e]; cbn.
  - split_and!; try done. by rewrite delete_insert_eq.
  - split_and!; try done. by intros [?|?].
Qed.

End SkipReport.

Lemma skip_report_touches_only_its_file_witness :
  (skip_report_from_plist Samples.skip_b "missing.plist"
     (Samples.world_with "r.plist" (Plist Samples.good_bundle))).1
  = Raise IOError /\
  (skip_report_from_plist Samples.skip_b "missing.plist"
     (Samples.world_with "r.plist" (Plist Samples.good_bundle))).2
  = Samples.world_with "r.plist" (Plist Samples.good_bundle).
Proof.
  pose proof (skip_report_touches_only_its_file Samples.skip_b
                "missing.plist"
                (Samples.world_with "r.plist" (Plist Samples.good_bundle)))
    as (_ & _ & Hr).
  cbv zeta in Hr.
  destruct (skip_report_from_plist Samples.skip_b "missing.plist"
              (Samples.world_with "r.plist" (Plist Samples.good_bundle)))
    as [[[]|e] w'] eqn:Hrun.
  - by vm_compute in Hrun.
  - destruct Hr as [Hw He]. split; [|exact Hw]. cbn [fst]. f_equal.
    apply He. by left.
Defined.

Section SkipThenParse.

Variable generate_report_hash : pyval -> pyval -> pyval -> result string.
Variable exclude : pyval -> bool.

(** When every diagnostic is parsed, the reports are those of the
    diagnostics, one each and in order. *)
Lemma parsed_diags_reports source_root ft ds :
  (parsed_diags generate_report_hash source_root ft ds).2 = None ->
  Forall2 (fun d rep =>
             exists h absent,
               parsed_diag generate_report_hash source_root ft d
               = Ok (rep, h, absent))
          ds (parsed_diags generate_report_hash source_root ft ds).1.
Proof.
  induction ds as [|d ds IH]; [constructor|]. cbn [parsed_diags].
  destruct (parsed_diag generate_report_hash source_root ft d)
    as [[[rep h] absent]|e] eqn:Hd; [|done].
  destruct (parsed_diags generate_report_hash source_root ft ds)
    as [reps oe]. cbn [fst snd] in *. intros ->.
  constructor; [by eexists _, _|by apply IH].
Qed.

(** X10. Filtering a stored bundle of well-formed diagnostics and parsing
    it afterwards: when the parser can handle every diagnostic the filter
    keeps, it returns the file table, unchanged, and exactly one report
    for each diagnostic whose primary file is not excluded, namely the
    report of that diagnostic, in the order of the bundle, and no report
    of any other diagnostic. *)
Theorem skip_then_parse (path : string) (source_root : option string)
    (allow_plist_update : bool) (w : world) (m : gmap string pyval)
    (files diags : list pyval) :
  contents w !! path = Some (Plist (PDict m)) ->
  path ∉ readonly w ->
  m !! "files" = Some (PList files) ->
  m !! "diagnostics" = Some (PList diags) ->
  forallb well_formed_diag diags = true ->
  (parsed_diags generate_report_hash source_root (PList files)
     (filter (fun d => primary_excluded exclude files d = false) diags)).2
  = None ->
  exists w1 reports,
    skip_report_from_plist (fun f => Ok (exclude f)) path w = (Ok tt, w1) /\
    (parse_plist generate_report_hash path source_root allow_plist_update
                 w1).1
    = Ok (PList files, reports) /\
    Forall2 (fun d rep =>
               exists h absent,
                 parsed_diag generate_report_hash source_root (PList files) d
                 = Ok (rep, h, absent))
            (filter (fun d => primary_excluded exclude files d = false)
                    diags)
            reports.
Proof.
  intros Hc Hro Hfiles Hdiags Hwf Hall. unfold skip_report_from_plist.
  rewrite Hc, bool_decide_false by done.
  rewrite (remove_report_well_formed exclude m files diags Hfiles Hdiags Hwf).
  eexists _, _. split; [done|].
  match goal with |- context [parse_plist _ _ _ _ ?w'] => set (w1 := w') end.
  destruct (parse_plist_run generate_report_hash path source_root
              allow_plist_update w1) as (r & s' & es & Htry & -> & _).
  destruct (parse_plist_try_run generate_report_hash path source_root
              allow_plist_update w1) as (r' & s'' & Htry' & _ & Hcase).
  rewrite Htry in Htry'. injection Htry' as <- <-.
  unfold readPlist in Hcase. subst w1. cbn [contents] in Hcase.
  rewrite lookup_insert_eq in Hcase. cbn [py_getitem] in Hcase.
  rewrite lookup_insert_ne, Hfiles in Hcase by done.
  rewrite lookup_insert_eq in Hcase. cbn [bind_r py_iter] in Hcase.
  destruct Hcase as (Hf & Hrep & _). cbn [fst]. rewrite Hf, Hrep.
  split; [done|]. by apply parsed_diags_reports.
Qed.

End SkipThenParse.

Lemma skip_then_parse_witness :
  exists w1 reports,
    skip_report_from_plist (fun f => Ok (Samples.exclude_b f)) "r.plist"
      (Samples.world_with "r.plist" (Plist (PDict Samples.a_and_b)))
    = (Ok tt, w1) /\
    (parse_plist Samples.sample_hash "r.plist" None true w1).1
    = Ok (PList [PStr "a.c"; PStr "b.c"], reports) /\
    Forall2 (fun d rep =>
               exists h absent,
                 parsed_diag Samples.sample_hash None
                             (PList [PStr "a.c"; PStr "b.c"]) d
                 = Ok (rep, h, absent))
            (filter (fun d => primary_excluded Samples.exclude_b
                                [PStr "a.c"; PStr "b.c"] d = false)
                    [Samples.diag_a; Samples.diag_b])
            reports.
Proof.
  apply (skip_then_parse Samples.sample_hash Samples.exclude_b "r.plist" None
           true _ Samples.a_and_b); try (vm_compute; reflexivity).
  apply not_elem_of_empty.
Defined.

(** * More on the parser: what it writes, what it trusts, what it copies *)

Lemma lstrip_slash_head (p : string) :
  match lstrip_slash p with
  | String x _ => Ascii.eqb x "/" = false
  | EmptyString => True
  end.
Proof.
  induction p as [|c p IH]; [done|]. cbn [lstrip_slash].
  destruct (Ascii.eqb c "/") eqn:Hc; [done|]. exact Hc.
Qed.

Lemma path_join_relative (a b : string) :
  match b with
  | String x _ => Ascii.eqb x "/" = false
  | EmptyString => True
  end ->
  path_join a b
  = match a with
    | EmptyString => b
    | _ => a +:+ (if ends_with_slash a then EmptyString else "/") +:+ b
    end.
Proof.
  intros Hb. unfold path_join.
  assert (forall a' : string,
            (if ends_with_slash a' then a' +:+ b else a' +:+ "/" +:+ b)
            = a' +:+ (if ends_with_slash a' then EmptyString else "/") +:+ b)
    as Hsep by (intros a'; by destruct (ends_with_slash a')).
  destruct b as [|x b]; [by destruct a; [|apply Hsep]|].
  destruct x as [[] [] [] [] [] [] [] []]; try discriminate Hb;
    (destruct a; [done|apply Hsep]).
Qed.

(** X11. With a non-empty [source_root], the path handed to the hash
    function is the root, one separating slash unless the root ends in one,
    and the file path without its leading slashes: the result always
    starts with the root, as a string, because stripping the slashes keeps
    [os.path.join] from discarding it.  Nothing is normalised: a [..]
    component of the file path stays in the result as it is. *)
Theorem resolve_source_file_keeps_root (c : ascii) (root p : string) :
  resolve_source_file (Some (String c root)) (PStr p)
  = Ok (PStr (String c root
              +:+ (if ends_with_slash (String c root) then EmptyString
                   else "/")
              +:+ lstrip_slash p)).
Proof.
  unfold resolve_source_file. do 2 f_equal.
  apply (path_join_relative (String c root)), lstrip_slash_head.
Qed.

Section ParserMore.

Variable generate_report_hash : pyval -> pyval -> pyval -> result string.

(** The [try] suite leaves the stored documents as they were, or, when
    updates are allowed, replaces the one at [path]. *)
Lemma parse_plist_try_frame path source_root allow_plist_update w :
  exists r s',
    parse_plist_try generate_report_hash path source_root
                    allow_plist_update (start_locals path w) = (r, s') /\
    readonly (l_world s') = readonly w /\
    (contents (l_world s') = contents w \/
     allow_plist_update = true /\
     exists v, contents (l_world s') = <[path := Plist v]> (contents w)).
Proof.
  unfold parse_plist_try. unfold bind at 1.
  cbn [on_world start_locals l_world].
  change (readPlist path (log_to (LogDebug ("Parsing plist: " +:+ path)) w))
    with (readPlist path w).
  destruct (readPlist path w) as [plist|e];
    [|eexists _, _; split; [done|]; split; [done|by left]].
  cbv [bind set_plist set_files set_diag_changed modify lift].
  cbn [l_world l_plist l_files l_reports l_diag_changed].
  destruct (py_getitem plist (PStr "files")) as [ft|e];
    [|eexists _, _; split; [done|]; split; [done|by left]].
  destruct (py_getitem plist (PStr "diagnostics")) as [dv|e];
    [|eexists _, _; split; [done|]; split; [done|by left]].
  destruct (py_iter dv) as [ds|e];
    [|eexists _, _; split; [done|]; split; [done|by left]].
  match goal with
  | |- context [parse_diagnostics _ _ _ _ _ _ ?s] =>
      destruct (parse_diagnostics_run generate_report_hash path source_root
                  ft ds 0 s) as (s1 & -> & Hf & Hc & Hr & Hrep & Hok)
  end.
  cbn [l_world l_plist l_files l_reports l_diag_changed app] in *.
  destruct (parsed_diags generate_report_hash source_root ft ds)
    as [reps [e|]]; cbn [fst snd] in *.
  { eexists _, _. split; [done|]. split; [done|by left]. }
  cbv [gets].
  destruct (l_diag_changed s1); cbn [andb].
  2:{ eexists _, _. split; [done|]. split; [done|by left]. }
  destruct allow_plist_update.
  2:{ eexists _, _. split; [done|]. split; [done|by left]. }
  cbv [on_world writePlist]. rewrite Hr.
  change (readonly (log_to (LogDebug ("Parsing plist: " +:+ path)) w))
    with (readonly w).
  case_bool_decide.
  { eexists _, _. split; [done|]. split; [done|by left]. }
  eexists _, _. split; [done|]. cbn. split; [done|]. right.
  split; [done|]. rewrite Hc. by eexists.
Qed.

Lemma parse_plist_frame path source_root allow_plist_update w :
  let w' := (parse_plist generate_report_hash path source_root
                         allow_plist_update w).2 in
  readonly w' = readonly w /\
  (contents w' = contents w \/
   allow_plist_update = true /\
   exists v, contents w' = <[path := Plist v]> (contents w)).
Proof.
  destruct (parse_plist_run generate_report_hash path source_root
              allow_plist_update w) as (r & s' & es & Htry & -> & _).
  destruct (parse_plist_try_frame path source_root allow_plist_update w)
    as (r' & s'' & Htry' & Hro & Hc).
  rewrite Htry in Htry'. injection Htry' as <- <-.
  cbn [snd]. by rewrite contents_logged, readonly_logged.
Qed.

(** X12. With [allow_plist_update] off, [parse_plist] never changes a
    stored document or a permission, whatever the file holds. *)
Theorem parse_plist_without_update (path : string)
    (source_root : option string) (w : world) :
  let w' := (parse_plist generate_report_hash path source_root false w).2 in
  contents w' = contents w /\ readonly w' = readonly w.
Proof.
  destruct (parse_plist_frame path source_root false w) as [Hro Hc].
  split; [|done]. by destruct Hc as [?|[? _]].
Qed.

(** X13. [parse_plist] changes no stored document other than the one at
    [path], and no permission. *)
Theorem parse_plist_touches_only_its_file (path : string)
    (source_root : option string) (allow_plist_update : bool) (w : world) :
  let w' := (parse_plist generate_report_hash path source_root
                         allow_plist_update w).2 in
  delete path (contents w') = delete path (contents w) /\
  readonly w' = readonly w.
Proof.
  destruct (parse_plist_frame path source_root allow_plist_update w)
    as [Hro Hc].
  split; [|done]. destruct Hc as [->|(_ & v & ->)]; [done|].
  by rewrite delete_insert_eq.
Qed.

(** What [parse_plist] returns for a stored dictionary with a file table
    and a list of diagnostics. *)
Lemma parse_plist_reports path source_root allow_plist_update w
    (m : gmap string pyval) ft ds :
  contents w !! path = Some (Plist (PDict m)) ->
  m !! "files" = Some ft ->
  m !! "diagnostics" = Some (PList ds) ->
  exists r s' es,
    parse_plist generate_report_hash path source_root allow_plist_update w
    = (Ok (ft, (parsed_diags generate_report_hash source_root ft ds).1),
       l_world (logged es s')) /\
    readonly (l_world s') = readonly w /\
    (forall e, r = Raise e -> is_Exception e = true -> LogErrorExn e ∈ es) /\
    match (parsed_diags generate_report_hash source_root ft ds).2 with
    | Some e => r = Raise e /\ contents (l_world s') = contents w
    | None =>
        if existsb (lacks_hash generate_report_hash source_root ft) ds
           && allow_plist_update
        then
          if bool_decide (path ∈ readonly w)
          then r = Raise IOError /\ contents (l_world s') = contents w
          else r = Ok tt /\
               contents (l_world s')
               = <[path :=
                     Plist (PDict (<["diagnostics" :=
                       PList (enriched generate_report_hash source_root ft
                                <$> ds)]> m))]> (contents w)
        else r = Ok tt /\ contents (l_world s') = contents w
    end.
Proof.
  intros Hc Hfiles Hdiags.
  destruct (parse_plist_run generate_report_hash path source_root
              allow_plist_update w) as (r & s' & es & Htry & -> & Hlog & _).
  destruct (parse_plist_try_run generate_report_hash path source_root
              allow_plist_update w) as (r' & s'' & Htry' & Hro & Hcase).
  rewrite Htry in Htry'. injection Htry' as <- <-.
  unfold readPlist in Hcase. rewrite Hc in Hcase.
  cbn [py_getitem] in Hcase. rewrite Hfiles, Hdiags in Hcase.
  cbn [bind_r py_iter] in Hcase. destruct Hcase as (Hf & Hrep & Hrest).
  exists r, s', es. rewrite Hf, Hrep. split_and!; try done.
  destruct (parsed_diags generate_report_hash source_root ft ds).2; [done|].
  destruct Hrest as [_ Hrest].
  destruct (existsb _ ds && allow_plist_update); [|done].
  case_bool_decide; [done|]. destruct Hrest as [-> Hw]. split; [done|].
  by apply Hw.
Qed.

(** X14. A bundle whose hashes have to be stored, at a path that may not
    be written: the [IOError] of the write is caught like a parse error;
    the reports of all diagnostics are returned all the same, the stored
    document is unchanged and the error is in the log. *)
Theorem parse_plist_read_only_file (path : string)
    (source_root : option string) (w : world) (m : gmap string pyval)
    (ft : pyval) (ds : list pyval) :
  contents w !! path = Some (Plist (PDict m)) ->
  m !! "files" = Some ft ->
  m !! "diagnostics" = Some (PList ds) ->
  (parsed_diags generate_report_hash source_root ft ds).2 = None ->
  existsb (lacks_hash generate_report_hash source_root ft) ds = true ->
  path ∈ readonly w ->
  exists w',
    parse_plist generate_report_hash path source_root true w
    = (Ok (ft, (parsed_diags generate_report_hash source_root ft ds).1),
       w') /\
    contents w' = contents w /\
    LogErrorExn IOError ∈ log w'.
Proof.
  intros Hc Hfiles Hdiags Hall Hlacks Hro.
  destruct (parse_plist_reports path source_root true w m ft ds
              Hc Hfiles Hdiags) as (r & s' & es & -> & _ & Hlog & Hcase).
  rewrite Hall, Hlacks in Hcase. cbn [andb] in Hcase.
  rewrite bool_decide_true in Hcase by done. destruct Hcase as [-> Hcont].
  eexists. split; [done|]. rewrite contents_logged, log_logged.
  split; [done|]. apply elem_of_app. right. by apply Hlog.
Qed.

Lemma parsed_diag_has_hash gen source_root ft d :
  has_hash d = true ->
  parsed_diag gen source_root ft d
  = parsed_diag generate_report_hash source_root ft d /\
  lacks_hash gen source_root ft d = false.
Proof.
  intros Hh. unfold has_hash in Hh.
  destruct d as [| | | |dm]; try done. cbn [py_get] in Hh.
  destruct (dm !! hash_key) as [v|] eqn:Hv; [|done].
  assert (forall g sf, report_hash_of g (PDict dm) sf = Ok v) as Hrep.
  { intros g sf. unfold report_hash_of. cbn [py_get]. by rewrite Hv, Hh. }
  assert (forall g,
            parsed_diag g source_root ft (PDict dm)
            = match parsed_diag g source_root ft (PDict dm) with
              | Ok (rep, h, absent) => Ok (rep, h, false)
              | Raise e => Raise e
              end /\
            parsed_diag g source_root ft (PDict dm)
            = parsed_diag generate_report_hash source_root ft (PDict dm))
    as Hboth.
  { intros g. unfold parsed_diag. cbn [py_contains].
    rewrite bool_decide_true by (by rewrite Hv).
    repeat (case_match; try done); rewrite !Hrep in *; simplify_eq; done. }
  split; [apply Hboth|]. unfold lacks_hash.
  destruct (Hboth gen) as [Hshape _].
  destruct (parsed_diag gen source_root ft (PDict dm)) as [[[rep h] a]|];
    [|done].
  by injection Hshape as ->.
Qed.

Lemma parsed_diags_has_hash gen source_root ft ds :
  forallb has_hash ds = true ->
  parsed_diags gen source_root ft ds
  = parsed_diags generate_report_hash source_root ft ds /\
  existsb (lacks_hash gen source_root ft) ds = false.
Proof.
  induction ds as [|d ds IH]; [done|]. cbn [forallb].
  intros [Hd Hds]%andb_true_iff. destruct (IH Hds) as [IH1 IH2].
  destruct (parsed_diag_has_hash gen source_root ft d Hd) as [H1 H2].
  cbn [parsed_diags existsb]. by rewrite H1, H2, IH1, IH2.
Qed.

End ParserMore.

(** X15. Identity hashes found in the bundle are trusted as they are: when
    every diagnostic of a stored bundle holds a (true) hash, what
    [parse_plist] returns does not depend on the content-hash function,
    and the stored document is not rewritten, updates allowed or not. *)
Theorem parse_plist_trusts_present_hashes
    (gen1 gen2 : pyval -> pyval -> pyval -> result string) (path : string)
    (source_root : option string) (allow_plist_update : bool) (w : world)
    (m : gmap string pyval) (ft : pyval) (ds : list pyval) :
  contents w !! path = Some (Plist (PDict m)) ->
  m !! "files" = Some ft ->
  m !! "diagnostics" = Some (PList ds) ->
  forallb has_hash ds = true ->
  (parse_plist gen1 path source_root allow_plist_update w).1
  = (parse_plist gen2 path source_root allow_plist_update w).1 /\
  contents (parse_plist gen1 path source_root allow_plist_update w).2
  = contents w.
Proof.
  intros Hc Hfiles Hdiags Hh.
  destruct (parse_plist_reports gen1 path source_root allow_plist_update w m
              ft ds Hc Hfiles Hdiags) as (r1 & s1 & es1 & -> & _ & _ & Hcase).
  destruct (parse_plist_reports gen2 path source_root allow_plist_update w m
              ft ds Hc Hfiles Hdiags) as (r2 & s2 & es2 & -> & _ & _ & _).
  destruct (parsed_diags_has_hash gen2 gen1 source_root ft ds Hh)
    as [Heq Hnone].
  cbn [fst snd]. rewrite Heq. split; [done|].
  rewrite contents_logged. rewrite Hnone in Hcase. cbn [andb] in Hcase.
  destruct (parsed_diags gen1 source_root ft ds).2; by destruct Hcase.
Qed.

Lemma parse_plist_trusts_present_hashes_witness :
  (parse_plist Samples.sample_hash "r.plist" None true
     (Samples.world_with "r.plist" (Plist (PDict Samples.hashed_bundle)))).1
  = (parse_plist Samples.failing_hash "r.plist" None true
       (Samples.world_with "r.plist" (Plist (PDict Samples.hashed_bundle)))).1
  /\
  contents (parse_plist Samples.sample_hash "r.plist" None true
              (Samples.world_with "r.plist"
                 (Plist (PDict Samples.hashed_bundle)))).2
  = contents (Samples.world_with "r.plist"
                (Plist (PDict Samples.hashed_bundle))).
Proof.
  apply (parse_plist_trusts_present_hashes Samples.sample_hash
           Samples.failing_hash "r.plist" None true
           (Samples.world_with "r.plist" (Plist (PDict Samples.hashed_bundle)))
           Samples.hashed_bundle (PList Samples.two_files)
           Samples.hashed_diags);
    vm_compute; reflexivity.
Defined.

Lemma parse_plist_read_only_file_witness :
  exists w',
    parse_plist Samples.sample_hash "r.plist" None true
                Samples.read_only_world
    = (Ok (PList Samples.two_files,
           (parsed_diags Samples.sample_hash None (PList Samples.two_files)
                         Samples.good_diags).1), w') /\
    contents w' = contents Samples.read_only_world /\
    LogErrorExn IOError ∈ log w'.
Proof.
  apply (parse_plist_read_only_file Samples.sample_hash "r.plist" None
           Samples.read_only_world
           (<["files" := PList Samples.two_files]>
            (<["diagnostics" := PList Samples.good_diags]> ∅))
           (PList Samples.two_files) Samples.good_diags);
    vm_compute; reflexivity.
Defined.

Lemma checker_name_of_truthy (d c : pyval) :
  checker_name_of d = Ok c -> truthy c = true.
Proof.
  unfold checker_name_of. destruct (py_get d "check_name") as [[v|]|];
    [|by intros [= <-]|done].
  destruct (truthy v) eqn:Hv; by intros [= <-].
Qed.

Section MainSection.

Variable generate_report_hash : pyval -> pyval -> pyval -> result string.

(** X16. What a report is built from: when the loop body handles a
    diagnostic without raising, it appends one report whose main section
    holds every entry of the diagnostic but its ['path'], unknown entries
    included; the checker name in it is never empty (["unknown"] stands in
    for a missing or empty one), a (true) hash of the diagnostic is kept
    as it is, and the path steps are those of the diagnostic, the file
    table that of the bundle. *)
Theorem parse_diag_main_section (path : string)
    (source_root : option string) (ft : pyval) (i : nat)
    (m : gmap string pyval) (s s' : locals) :
  parse_diag generate_report_hash path source_root ft i (PDict m) s
  = (Ok tt, s') ->
  exists rep (main_section : gmap string pyval) checker h p,
    l_reports s' = l_reports s ++ [rep] /\
    main rep = PDict main_section /\ files rep = ft /\
    m !! "path" = Some p /\ py_iter p = Ok (bug_path rep) /\
    main_section !! "path" = None /\
    main_section !! "check_name" = Some checker /\ truthy checker = true /\
    main_section !! hash_key = Some h /\
    (forall v, m !! hash_key = Some v -> truthy v = true -> h = v) /\
    (forall k, k <> "path" -> k <> "check_name" -> k <> hash_key ->
               main_section !! k = m !! k).
Proof.
  intros Hrun.
  destruct (parse_diag_run generate_report_hash path source_root ft i
              (PDict m) s) as (s1 & Hrun1 & _ & _ & _ & Hrep).
  rewrite Hrun in Hrun1.
  destruct (parsed_diag generate_report_hash source_root ft (PDict m))
    as [[[rep h] absent]|e] eqn:Hp; [|done].
  injection Hrun1 as <-. destruct Hrep as (Hrep & _).
  unfold parsed_diag in Hp. cbn [py_keys] in Hp.
  rewrite copy_main_section_all in Hp.
  destruct (checker_name_of (PDict m)) as [checker|] eqn:Hck; [|done].
  destruct (py_getitem (PDict m) (PStr "location")) as [loc|]; [|done].
  destruct (py_getitem loc (PStr "file")) as [fid|]; [|done].
  destruct (py_getitem ft fid) as [fp|]; [|done].
  destruct (resolve_source_file source_root fp) as [sf|]; [|done].
  destruct (report_hash_of generate_report_hash (PDict m) sf) as [h'|]
    eqn:Hh; [|done].
  destruct (py_contains hash_key (PDict m)) as [present|]; [|done].
  destruct (py_getitem (PDict m) (PStr "path")) as [p|] eqn:Hpath; [|done].
  destruct (py_iter p) as [items|] eqn:Hitems; [|done].
  injection Hp as <- <- _.
  cbn [py_getitem] in Hpath.
  destruct (m !! "path") as [p'|] eqn:Hmp; [|done]. injection Hpath as ->.
  eexists _, _, checker, h', p. split; [exact Hrep|]. cbn [main files bug_path].
  split_and!; try done.
  - rewrite !lookup_insert_ne by done. apply lookup_delete_eq.
  - rewrite lookup_insert_ne by done. apply lookup_insert_eq.
  - by eapply checker_name_of_truthy.
  - apply lookup_insert_eq.
  - intros v Hv Ht. unfold report_hash_of in Hh. cbn [py_get] in Hh.
    rewrite Hv, Ht in Hh. by injection Hh.
  - intros k H1 H2 H3. rewrite !lookup_insert_ne by done.
    by rewrite lookup_delete_ne.
Qed.

End MainSection.

Lemma parse_diag_main_section_witness :
  exists s' rep (main_section : gmap string pyval),
    parse_diag Samples.sample_hash "r.plist" None (PList Samples.two_files) 0
      Samples.first_diag (start_locals "r.plist" (mkWorld ∅ ∅ []))
    = (Ok tt, s') /\
    l_reports s' = [rep] /\ main rep = PDict main_section /\
    main_section !! "path" = None /\
    main_section !! "location" = Some (Samples.location 0 3 2).
Proof.
  destruct (parse_diag Samples.sample_hash "r.plist" None
              (PList Samples.two_files) 0 Samples.first_diag
              (start_locals "r.plist" (mkWorld ∅ ∅ [])))
    as [[[]|e] s'] eqn:Hrun; [|by vm_compute in Hrun].
  destruct (parse_diag_main_section Samples.sample_hash "r.plist" None
              (PList Samples.two_files) 0 _ _ _ Hrun)
    as (rep & ms & c & h & p & Hrep & Hmain & _ & _ & _ & Hpath & _ & _ & _
        & _ & Hother).
  exists s', rep, ms. split; [reflexivity|]. split; [exact Hrep|].
  split; [exact Hmain|]. split; [exact Hpath|].
  rewrite Hother by discriminate. vm_compute. reflexivity.
Defined.

(** * The suppress handler and its backend file *)

Lemma matching_records_no_path (info : list suppress_record) (h : string)
    (file_path : pyval) :
  match file_path with PStr _ => False | _ => True end ->
  GenericSuppressHandler.matching_records info (PStr h) file_path
  = if existsb (fun r : suppress_record => bool_decide (r.1.1 = h)) info
    then Raise AttributeError else Ok [].
Proof.
  intros Hfp. induction info as [|r info IH]; [done|].
  cbn [GenericSuppressHandler.matching_records existsb py_eq_str].
  rewrite (bool_decide_ext (h = r.1.1) (r.1.1 = h)) by done.
  case_bool_decide.
  - by destruct file_path.
  - cbn [bind_r orb]. rewrite IH. by destruct (existsb _ info).
Qed.

Lemma matching_records_no_hash (info : list suppress_record)
    (hash_value file_path : pyval) :
  match hash_value with PStr _ => False | _ => True end ->
  GenericSuppressHandler.matching_records info hash_value file_path = Ok [].
Proof.
  intros Hh. induction info as [|r info IH]; [done|].
  cbn [GenericSuppressHandler.matching_records].
  assert (py_eq_str hash_value r.1.1 = false) as -> by by destruct hash_value.
  cbn [bind_r]. by rewrite IH.
Qed.

(** X17. The test of [get_suppressed] is lazy: the base name of the file
    path is taken only for a record whose hash matches.  With a file path
    that is not a string the query raises [AttributeError] exactly when some
    record has the bug's hash, and answers false otherwise; with a hash
    that is not a string it answers false whatever the path is. *)
Theorem get_suppressed_is_lazy (self : GenericSuppressHandler.t) :
  (forall (h : string) (file_path : pyval),
      match file_path with PStr _ => False | _ => True end ->
      GenericSuppressHandler.get_suppressed self (PStr h) file_path
      = if existsb (fun r : suppress_record => bool_decide (r.1.1 = h))
                   (GenericSuppressHandler.suppress_info self)
        then Raise AttributeError else Ok false) /\
  (forall hash_value file_path : pyval,
      match hash_value with PStr _ => False | _ => True end ->
      GenericSuppressHandler.get_suppressed self hash_value file_path
      = Ok false).
Proof.
  split.
  - intros h fp Hfp. unfold GenericSuppressHandler.get_suppressed.
    rewrite matching_records_no_path by done. by destruct (existsb _ _).
  - intros hv fp Hhv. unfold GenericSuppressHandler.get_suppressed.
    by rewrite matching_records_no_hash.
Qed.

Lemma get_suppressed_is_lazy_witness :
  GenericSuppressHandler.get_suppressed Samples.handler_a (PStr "0123abcd")
    (PInt 7) = Raise AttributeError /\
  GenericSuppressHandler.get_suppressed Samples.handler_a (PStr "ffff")
    (PInt 7) = Ok false /\
  GenericSuppressHandler.get_suppressed Samples.handler_a (PInt 1)
    (PInt 7) = Ok false.
Proof.
  split; [|split].
  - exact (proj1 (get_suppressed_is_lazy Samples.handler_a) "0123abcd"
             (PInt 7) I).
  - exact (proj1 (get_suppressed_is_lazy Samples.handler_a) "ffff"
             (PInt 7) I).
  - exact (proj2 (get_suppressed_is_lazy Samples.handler_a) (PInt 1)
             (PInt 7) I).
Defined.

Lemma get_suppressed_record (self : GenericSuppressHandler.t)
    (h n c p : string) :
  (h, n, c) ∈ GenericSuppressHandler.suppress_info self ->
  basename p = n ->
  GenericSuppressHandler.get_suppressed self (PStr h) (PStr p) = Ok true.
Proof.
  intros Hin Hp. unfold GenericSuppressHandler.get_suppressed.
  rewrite matching_records_str. cbn [bind_r]. f_equal.
  apply any_record_true. intros Hnil.
  assert ((h, n, c) ∈ filter (fun r : suppress_record =>
                                r.1.1 = h /\ r.1.2 = basename p)
                             (GenericSuppressHandler.suppress_info self))
    as Hr by (apply list_elem_of_filter; done).
  rewrite Hnil in Hr. by apply not_elem_of_nil in Hr.
Qed.

Lemma get_suppressed_no_record (self : GenericSuppressHandler.t)
    (h p : string) :
  (forall r : suppress_record,
      r ∈ GenericSuppressHandler.suppress_info self ->
      ~ (r.1.1 = h /\ r.1.2 = basename p)) ->
  GenericSuppressHandler.get_suppressed self (PStr h) (PStr p) = Ok false.
Proof.
  intros Hnone. unfold GenericSuppressHandler.get_suppressed.
  rewrite matching_records_str. cbn [bind_r]. f_equal.
  destruct (filter _ _) as [|r l] eqn:Hf; [done|].
  assert (r ∈ r :: l) as Hin by left. rewrite <- Hf in Hin.
  apply list_elem_of_filter in Hin as [Hr Hin]. by destruct (Hnone r Hin).
Qed.

Section BackendFacts.

Variable store : Type.
Variable get_suppress_data : string -> store -> result (list suppress_record).
Variable write_to_suppress_file :
  string -> pyval -> pyval -> pyval -> M store bool.
Variable remove_from_suppress_file : string -> pyval -> pyval -> M store bool.

(** X18. A handler created without a backend file: asking for write access
    raises [ValueError]; otherwise the handler holds no record, answers
    false to every query (also to one with a malformed bug), and its
    store and remove operations report success without touching the
    suppress files or the handler. *)
Theorem handler_without_backend (st : store) :
  (GenericSuppressHandler.init store get_suppress_data None true st).1
  = Raise ValueError /\
  (GenericSuppressHandler.init store get_suppress_data (Some EmptyString)
                               true st).1
  = Raise ValueError /\
  exists self,
    GenericSuppressHandler.init store get_suppress_data None false st
    = (Ok tt, (self, st)) /\
    GenericSuppressHandler.init store get_suppress_data (Some EmptyString)
                                false st
    = (Ok tt, (self, st)) /\
    (forall hash_value file_path,
        GenericSuppressHandler.get_suppressed self hash_value file_path
        = Ok false) /\
    (forall bug_id file_name comment st',
        GenericSuppressHandler.store_suppress_bug_id store get_suppress_data
          write_to_suppress_file bug_id file_name comment (self, st')
        = (Ok true, (self, st'))) /\
    (forall bug_id file_name st',
        GenericSuppressHandler.remove_suppress_bug_id store
          get_suppress_data remove_from_suppress_file bug_id file_name
          (self, st')
        = (Ok true, (self, st'))).
Proof. split; [done|]. split; [done|]. eexists. by split_and!. Qed.

(** X19. Storing through a handler that may write goes to the backend file
    and then reloads the whole file: the records the handler holds
    afterwards are those the file holds after the write, whatever it held
    before and whatever the write reported; so a record the file then
    holds suppresses its hash under every path with its file name. *)
Theorem store_suppress_bug_id_reloads (self : GenericSuppressHandler.t)
    (st st1 : store) (f : string) (bug_id file_name comment : pyval)
    (ret : bool) (info : list suppress_record) :
  GenericSuppressHandler.allow_write self = true ->
  GenericSuppressHandler.have_memory_backend self = true ->
  GenericSuppressHandler.suppress_file self = Some f ->
  write_to_suppress_file f bug_id file_name comment st = (Ok ret, st1) ->
  get_suppress_data f st1 = Ok info ->
  exists self',
    GenericSuppressHandler.store_suppress_bug_id store get_suppress_data
      write_to_suppress_file bug_id file_name comment (self, st)
    = (Ok ret, (self', st1)) /\
    GenericSuppressHandler.suppress_info self' = info /\
    GenericSuppressHandler.suppress_file self' = Some f /\
    GenericSuppressHandler.allow_write self' = true /\
    forall h n c p,
      (h, n, c) ∈ info -> basename p = n ->
      GenericSuppressHandler.get_suppressed self' (PStr h) (PStr p)
      = Ok true.
Proof.
  intros Hallow Hback Hfile Hwrite Hdata.
  exists (GenericSuppressHandler.set_info info self).
  split_and!; try done.
  - unfold GenericSuppressHandler.store_suppress_bug_id, bind, gets.
    cbn [fst]. rewrite Hallow. cbn [negb]. rewrite Hfile.
    unfold GenericSuppressHandler.on_store. rewrite Hwrite.
    unfold GenericSuppressHandler.revalidate_suppress_data.
    by rewrite Hback, Hfile, Hdata.
  - intros h n c p Hin Hp. by eapply get_suppressed_record.
Qed.

(** X20. Removing through a handler that may write reloads the backend
    file in the same way: the handler then holds what the file holds
    after the removal, and a hash and file name the file no longer
    records are no longer suppressed. *)
Theorem remove_suppress_bug_id_reloads (self : GenericSuppressHandler.t)
    (st st1 : store) (f : string) (bug_id file_name : pyval)
    (ret : bool) (info : list suppress_record) :
  GenericSuppressHandler.allow_write self = true ->
  GenericSuppressHandler.have_memory_backend self = true ->
  GenericSuppressHandler.suppress_file self = Some f ->
  remove_from_suppress_file f bug_id file_name st = (Ok ret, st1) ->
  get_suppress_data f st1 = Ok info ->
  exists self',
    GenericSuppressHandler.remove_suppress_bug_id store get_suppress_data
      remove_from_suppress_file bug_id file_name (self, st)
    = (Ok ret, (self', st1)) /\
    GenericSuppressHandler.suppress_info self' = info /\
    forall h p,
      (forall r : suppress_record,
          r ∈ info -> ~ (r.1.1 = h /\ r.1.2 = basename p)) ->
      GenericSuppressHandler.get_suppressed self' (PStr h) (PStr p)
      = Ok false.
Proof.
  intros Hallow Hback Hfile Hremove Hdata.
  exists (GenericSuppressHandler.set_info info self).
  split_and!; try done.
  - unfold GenericSuppressHandler.remove_suppress_bug_id, bind, gets.
    cbn [fst]. rewrite Hallow. cbn [negb]. rewrite Hfile.
    unfold GenericSuppressHandler.on_store. rewrite Hremove.
    unfold GenericSuppressHandler.revalidate_suppress_data.
    by rewrite Hback, Hfile, Hdata.
  - intros h p Hnone. by apply get_suppressed_no_record.
Qed.

End BackendFacts.

Lemma store_suppress_bug_id_reloads_witness :
  exists self' st1,
    GenericSuppressHandler.store_suppress_bug_id Samples.suppress_files
      Samples.read_records Samples.append_record (PStr "0123abcd")
      (PStr "a.c") (PStr "checked")
      (Samples.writable_handler,
       {[ "suppress.txt" := [("ffff", "b.c", EmptyString)] ]})
    = (Ok true, (self', st1)) /\
    GenericSuppressHandler.suppress_info self'
    = [("ffff", "b.c", EmptyString); ("0123abcd", "a.c", "checked")] /\
    GenericSuppressHandler.get_suppressed self' (PStr "0123abcd")
      (PStr "/x/a.c") = Ok true.
Proof.
  destruct (store_suppress_bug_id_reloads Samples.suppress_files
              Samples.read_records Samples.append_record
              Samples.writable_handler
              {[ "suppress.txt" := [("ffff", "b.c", EmptyString)] ]}
              (<["suppress.txt" := [("ffff", "b.c", EmptyString);
                                    ("0123abcd", "a.c", "checked")]]>
                 {[ "suppress.txt" := [("ffff", "b.c", EmptyString)] ]})
              "suppress.txt" (PStr "0123abcd") (PStr "a.c") (PStr "checked")
              true
              [("ffff", "b.c", EmptyString); ("0123abcd", "a.c", "checked")]
              eq_refl eq_refl eq_refl)
    as (self' & Hrun & Hinfo & _ & _ & Hq).
  - vm_compute. reflexivity.
  - vm_compute. reflexivity.
  - exists self'. eexists. split; [exact Hrun|]. split; [exact Hinfo|].
    apply (Hq _ "a.c" "checked"); [|reflexivity].
    right. left.
Defined.

Lemma remove_suppress_bug_id_reloads_witness :
  exists self' st1,
    GenericSuppressHandler.remove_suppress_bug_id Samples.suppress_files
      Samples.read_records Samples.drop_record (PStr "ffff") (PStr "b.c")
      (Samples.writable_handler,
       {[ "suppress.txt" := [("ffff", "b.c", EmptyString)] ]})
    = (Ok true, (self', st1)) /\
    GenericSuppressHandler.suppress_info self' = [] /\
    GenericSuppressHandler.get_suppressed self' (PStr "ffff") (PStr "/y/b.c")
    = Ok false.
Proof.
  destruct (remove_suppress_bug_id_reloads Samples.suppress_files
              Samples.read_records Samples.drop_record
              Samples.writable_handler
              {[ "suppress.txt" := [("ffff", "b.c", EmptyString)] ]}
              (<["suppress.txt" := []]>
                 {[ "suppress.txt" := [("ffff", "b.c", EmptyString)] ]})
              "suppress.txt" (PStr "ffff") (PStr "b.c") true []
              eq_refl eq_refl eq_refl)
    as (self' & Hrun & Hinfo & Hq).
  - vm_compute. reflexivity.
  - vm_compute. reflexivity.
  - exists self'. eexists. split; [exact Hrun|]. split; [exact Hinfo|].
    apply Hq. intros r Hr. by apply not_elem_of_nil in Hr.
Defined.

(** * More on the formatter: rendering, and what a pass preserves *)

Lemma length_replace_tabs (s : string) :
  String.length (replace_tabs s) = String.length s + count_tabs s.
Proof.
  induction s as [|c s IH]; [done|]. cbn [replace_tabs count_tabs].
  destruct (Ascii.eqb c tab); cbn [String.length]; rewrite IH; lia.
Qed.

Lemma replace_tabs_app (a b : string) :
  replace_tabs (a +:+ b) = replace_tabs a +:+ replace_tabs b.
Proof.
  induction a as [|c a IH]; [done|].
  change (String c a +:+ b) with (String c (a +:+ b)).
  cbn [replace_tabs]. rewrite IH. by destruct (Ascii.eqb c tab).
Qed.

Lemma substring_prefix (n : nat) (s : string) :
  exists rest, s = substring 0 n s +:+ rest.
Proof.
  revert n. induction s as [|c s IH]; intros n.
  - exists EmptyString. by destruct n.
  - destruct n as [|n]; [by exists (String c s)|].
    destruct (IH n) as [rest Hrest]. exists rest. cbn [substring].
    change (String c (substring 0 n s) +:+ rest)
      with (String c (substring 0 n s +:+ rest)).
    by rewrite <- Hrest.
Qed.

Lemma string_app_assoc (a b c : string) :
  (a +:+ b) +:+ c = a +:+ (b +:+ c).
Proof.
  induction a as [|x a IH]; [done|].
  change (String x ((a +:+ b) +:+ c) = String x (a +:+ (b +:+ c))).
  by rewrite IH.
Qed.

Section Rendering.

Variable get_line : pyval -> pyval -> result string.
Variable py_repr : pyval -> string.

(** X21. The marker line puts the caret under the reported column of the
    line as it is printed: for a source line that is not empty,
    [__format_location] returns the line with each tab replaced by two
    blanks, followed by as many blanks as the part of the line before the
    column takes once its tabs are replaced, and the caret. *)
Theorem format_location_caret (event source_file loc ln : pyval)
    (line : string) (c : Z) :
  py_getitem event (PStr "location") = Ok loc ->
  py_getitem loc (PStr "line") = Ok ln ->
  get_line source_file ln = Ok line ->
  line <> EmptyString ->
  py_getitem loc (PStr "col") = Ok (PInt c) ->
  exists rest,
    line = slice_to line (c - 1) +:+ rest /\
    format_location get_line event source_file
    = Ok (replace_tabs (slice_to line (c - 1)) +:+ replace_tabs rest
          +:+ spaces (String.length (replace_tabs (slice_to line (c - 1))))
          +:+ "^").
Proof.
  intros Hloc Hln Hline Hne Hcol.
  destruct (substring_prefix
              (Z.to_nat (if (c - 1 <? 0)%Z
                         then Z.max 0 (c - 1 + Z.of_nat (String.length line))
                         else Z.min (c - 1) (Z.of_nat (String.length line))))
              line) as [rest Hrest].
  change (line = slice_to line (c - 1) +:+ rest) in Hrest.
  exists rest. split; [exact Hrest|].
  unfold format_location. rewrite Hloc. cbn [bind_r]. rewrite Hln.
  cbn [bind_r]. rewrite Hline. cbn [bind_r].
  rewrite bool_decide_false by done. rewrite Hcol. cbn [bind_r py_as_index].
  rewrite <- length_replace_tabs.
  rewrite <- (string_app_assoc (replace_tabs (slice_to line (c - 1)))
                               (replace_tabs rest)).
  by rewrite <- replace_tabs_app, <- Hrest.
Qed.

(** X22. A rendered header or step names the source file by its base name
    only: directories in front of the path do not change the text. *)
Theorem format_bug_event_shows_basename (name : option pyval)
    (severity : option string) (event : pyval) (dir p : string) :
  format_bug_event py_repr name severity event (PStr (dir +:+ "/" +:+ p))
  = format_bug_event py_repr name severity event (PStr p).
Proof.
  unfold format_bug_event. cbn [py_basename]. by rewrite basename_prefix.
Qed.

End Rendering.

Lemma format_location_caret_witness :
  exists rest,
    "  return *p;" = slice_to "  return *p;" (10 - 1) +:+ rest /\
    format_location Samples.one_line (Samples.step "event" 0 3 10 "null")
                    (PStr "/x/a.c")
    = Ok (replace_tabs (slice_to "  return *p;" (10 - 1))
          +:+ replace_tabs rest
          +:+ spaces (String.length
                        (replace_tabs (slice_to "  return *p;" (10 - 1))))
          +:+ "^").
Proof.
  apply (format_location_caret Samples.one_line
           (Samples.step "event" 0 3 10 "null") (PStr "/x/a.c")
           (Samples.location 0 3 10) (PInt 3));
    try reflexivity.
  discriminate.
Defined.

(** X23. The summary line names the analyzed file by its base name:
    directories in front of a path whose last component is not empty do
    not change the line. *)
Theorem summary_shows_basename (n : nat) (dir : string) (c : ascii)
    (p : string) :
  summary n (Some (dir +:+ "/" +:+ String c p)) = summary n (Some (String c p)).
Proof.
  assert (exists c' r', dir +:+ "/" +:+ String c p = String c' r')
    as (c' & r' & Heq) by (destruct dir; by eexists _, _).
  pose proof (basename_prefix dir (String c p)) as Hb.
  rewrite Heq in *. unfold summary. by rewrite Hb.
Qed.

Lemma incr_lookup `{Countable K} (k k' : K) (d : gmap K nat) (n : nat) :
  incr k d !! k' = Some n -> k' = k /\ 0 < n \/ d !! k' = Some n.
Proof.
  unfold incr. destruct (decide (k' = k)) as [->|Hne].
  - rewrite lookup_insert_eq. intros [= <-]. left. split; [done|lia].
  - rewrite lookup_insert_ne by done. by right.
Qed.

Section PassInvariants.

Context {H : Type} `{SuppressHandler H}.
Variable severity_map : gmap hkey string.
Variable skiplist_handler : option (pyval -> result bool).
Variable print_steps : bool.
Variable report_plus_str : Report -> string -> result string.
Variable report_str : Report -> string.
Variable source_get_suppressed :
  pyval -> pyval -> pyval -> pyval -> result (option (pyval * pyval * pyval)).
Variable get_line : pyval -> pyval -> result string.
Variable py_repr : pyval -> string.

Let body := write_bug (H:=H) severity_map skiplist_handler print_steps
              report_plus_str report_str source_get_suppressed get_line
              py_repr.

Let pass := write_bugs (H:=H) severity_map skiplist_handler print_steps
              report_plus_str report_str source_get_suppressed get_line
              py_repr.

Lemma wp_inv_run {A} (m : M (fstate H) A) (I : fstate H -> Prop) s :
  I (m s).2 -> wp m (fun _ => I) (fun _ => I) s.
Proof. unfold wp. by destruct (m s) as [[a|e] s']. Qed.

Lemma count_report_run f_path checker (s : fstate H) :
  exists stats files counts,
    (count_report (H:=H) severity_map f_path checker s).2
    = mkF (f_world s) (f_handler s) (f_output s) stats files counts
          (non_suppressed s) /\
    (stats = severity_stats s \/
     exists c, stats = incr (default "UNSPECIFIED" (severity_map !! c))
                            (severity_stats s)) /\
    (files = file_stats s \/ exists k, files = incr k (file_stats s)) /\
    (counts = report_count s \/
     counts = incr "report_count" (report_count s)).
Proof.
  unfold count_report, bind, lift, modify, ret.
  destruct (py_hash f_path) as [k|]; cbn.
  2:{ destruct s. eexists _, _, _. split; [done|]. by split_and!; left. }
  destruct (py_hash checker) as [c|]; cbn.
  - eexists _, _, _. split; [done|]. split_and!; right; eauto.
  - eexists _, _, _. split; [done|]. split_and!; [by left|right; eauto|].
    by left.
Qed.

Lemma promote_suppression_run a b c (s : fstate H) :
  exists h,
    (promote_suppression a b c s).2
    = mkF (f_world s) h (f_output s) (severity_stats s) (file_stats s)
          (report_count s) (non_suppressed s) /\
    match f_handler s with
    | None => h = None
    | Some h0 => h = Some (handler_store_suppress_bug_id a b c h0).2
    end.
Proof.
  unfold promote_suppression. destruct (f_handler s) as [h0|] eqn:Hh.
  - destruct (handler_store_suppress_bug_id a b c h0) as [r h']. cbn.
    by eexists.
  - destruct s. cbn in *. subst. by eexists.
Qed.

(** *** An invariant rule for a pass

    A property of the state that logging, writing, promoting an inline
    suppression, counting a report and counting a rendered finding
    preserve holds after the body of the loop, after the loop and after
    the pass, whether they return or raise. *)
Section Invariant.

Variable I : fstate H -> Prop.
Hypothesis Hlog : forall e s, I s -> I (log_to e s).
Hypothesis Hwrite : forall x s,
  I s -> I (mkF (f_world s) (f_handler s) (f_output s ++ [x])
                (severity_stats s) (file_stats s) (report_count s)
                (non_suppressed s)).
Hypothesis Hpromote : forall sf ln hs ck a b c s,
  source_get_suppressed sf ln hs ck = Ok (Some (a, b, c)) ->
  I s -> I (promote_suppression a b c s).2.
Hypothesis Hcount : forall f c s,
  I s -> I (count_report (H:=H) severity_map f c s).2.
Hypothesis Hbump : forall s,
  I s -> I (mkF (f_world s) (f_handler s) (f_output s) (severity_stats s)
                (file_stats s) (report_count s) (S (non_suppressed s))).

Lemma wp_write_inv x (Q : unit -> fstate H -> Prop) E s :
  I s -> (forall s', I s' -> Q tt s') -> wp (write x) Q E s.
Proof using Hwrite. intros Hs HQ. apply wp_modify, HQ. by apply Hwrite. Qed.

Lemma wp_write_steps_inv width files h events s :
  I s ->
  wp (write_steps (H:=H) py_repr width files h events)
     (fun _ => I) (fun _ => I) s.
Proof using Hwrite.
  intros Hs. unfold write_steps.
  wp_step. destruct h; try done.
  apply wp_write_inv; [done|]. clear s Hs. intros s Hs.
  wp_step. apply wp_write_inv; [done|]. clear s Hs. intros s Hs.
  apply wp_for_each_from; [done|].
  clear s Hs. intros j x s Hs.
  wp_step. apply wp_write_inv; [done|]. clear s Hs. intros s Hs.
  do 2 wp_step. do 2 wp_step. do 2 wp_step. do 2 wp_step.
  wp_step. apply wp_write_inv; [done|]. clear s Hs. intros s Hs.
  apply wp_write_inv; [done|]. done.
Qed.

Lemma wp_write_bug_inv width files report s :
  I s -> wp (body width files report) (fun _ => I) (fun _ => I) s.
Proof using Hlog Hwrite Hpromote Hcount Hbump.
  intros Hs. unfold body, write_bug.
  do 2 wp_step. do 2 wp_step. wp_step.
  match goal with
  | |- wp ?m _ _ _ =>
      apply (wp_mono m (fun _ s' => s' = s) _ (fun _ s' => s' = s))
  end.
  { destruct skiplist_handler as [sk|]; [|done].
    unfold wp, lift. by case_match. }
  2:{ by intros e s' ->. }
  intros skip s' ->. destruct skip.
  { do 2 wp_step. case_match; try done. apply wp_modify. by apply Hlog. }
  do 2 wp_step. wp_step.
  match goal with
  | |- wp ?m _ _ _ =>
      apply (wp_mono m (fun _ s' => s' = s) _ (fun _ s' => s' = s))
  end.
  { unfold stored_suppressed, wp, bind, gets, lift, ret.
    destruct (f_handler s); [by case_match|done]. }
  2:{ by intros e s' ->. }
  intros suppressed s' ->. destruct suppressed.
  { apply wp_modify. by apply Hlog. }
  do 2 wp_step. do 2 wp_step. do 2 wp_step. do 2 wp_step. do 2 wp_step.
  do 2 wp_step. do 2 wp_step. do 2 wp_step. do 2 wp_step.
  case_match.
  { repeat case_match. subst.
    eapply wp_inv_run, Hpromote; [eassumption|done]. }
  wp_step.
  eapply wp_mono; [by apply wp_inv_run, Hcount| |done].
  clear s Hs. intros severity s Hs. cbv beta.
  do 2 wp_step.
  wp_step. apply wp_write_inv; [done|]. clear s Hs. intros s Hs.
  wp_step. apply wp_write_inv; [done|]. clear s Hs. intros s Hs.
  do 2 wp_step.
  wp_step. apply wp_write_inv; [done|]. clear s Hs. intros s Hs.
  wp_step. apply wp_write_inv; [done|]. clear s Hs. intros s Hs.
  wp_step.
  eapply (wp_mono _ (fun _ => I) _ (fun _ => I)); [| |done].
  { destruct print_steps; [by apply wp_write_steps_inv|by apply wp_ret]. }
  clear s Hs. intros ? s Hs. cbv beta.
  wp_step. apply wp_write_inv; [done|]. clear s Hs. intros s Hs.
  apply wp_modify. by apply Hbump.
Qed.

Lemma wp_loop_inv width files reports s :
  I s ->
  wp (for_each reports (body width files)) (fun _ => I) (fun _ => I) s.
Proof using Hlog Hwrite Hpromote Hcount Hbump.
  revert s. induction reports as [|r rs IH]; intros s Hs; [done|].
  cbn [for_each]. apply wp_bind.
  eapply wp_mono; [by apply wp_write_bug_inv| |done].
  intros ? s' Hs'. by apply IH.
Qed.

Lemma write_bugs_inv reports files analyzed_source_file st :
  I (start_pass st) -> I (pass reports files analyzed_source_file st).2.
Proof using Hlog Hwrite Hpromote Hcount Hbump.
  intros Hs.
  assert (wp (pass reports files analyzed_source_file)
             (fun _ => I) (fun _ => I) st) as Hwp.
  { unfold pass, write_bugs. wp_step. apply wp_modify. wp_step.
    eapply wp_mono; [by apply wp_loop_inv| |done].
    intros ? s Hs'. cbv beta. do 2 wp_step.
    wp_step. apply wp_write_inv; [done|]. intros s' Hs''.
    by do 3 wp_step. }
  unfold wp in Hwp. by destruct (pass _ _ _ st) as [[?|?] ?].
Qed.

End Invariant.

(** The state a pass returns from. *)
Lemma write_bugs_returns reports files analyzed_source_file st st' stats :
  pass reports files analyzed_source_file st = (Ok stats, st') ->
  exists s1,
    for_each reports (body (index_width (length reports)) files)
             (start_pass st) = (Ok tt, s1) /\
    st' = mkF (f_world s1) (f_handler s1)
              (f_output s1
               ++ [summary (non_suppressed s1) analyzed_source_file])
              (severity_stats s1) (file_stats s1) (report_count s1)
              (non_suppressed s1) /\
    stats = mkStats (severity_stats s1) (file_stats s1) (report_count s1).
Proof.
  unfold pass, write_bugs. unfold bind at 1. cbn [modify].
  unfold bind at 1. fold (body (index_width (length reports)) files).
  destruct (for_each reports _ (start_pass st)) as [[[]|e] s1]; [|done].
  cbv [bind gets write modify ret id]. intros [= <- <-]. by exists s1.
Qed.



(** X25. What was written to the output before a pass stays in front of
    what the pass writes, whether it returns or raises; a pass that
    returns has written the summary line last, with the number of
    findings it rendered, and returns the three dictionaries of the
    state it ends in. *)
Theorem write_bugs_ends_with_summary reports files analyzed_source_file
    (st st' : fstate H) stats :
  write_bugs severity_map skiplist_handler print_steps report_plus_str
    report_str source_get_suppressed get_line py_repr reports files
    analyzed_source_file st = (Ok stats, st') ->
  f_output st `prefix_of` f_output st' /\
  last (f_output st')
  = Some (summary (non_suppressed st') analyzed_source_file) /\
  stats = mkStats (severity_stats st') (file_stats st') (report_count st').
Proof.
  intros Hrun. fold pass in Hrun. split.
  - assert (f_output st `prefix_of`
            f_output (pass reports files analyzed_source_file st).2)
      as Hinv.
    { apply (write_bugs_inv (fun s => f_output st `prefix_of` f_output s)).
      - done.
      - intros x s Hs. by apply prefix_app_r.
      - intros ? ? ? ? a b c s _ Hs.
        by destruct (promote_suppression_run a b c s) as (? & -> & _).
      - intros f c s Hs.
        by destruct (count_report_run f c s) as (? & ? & ? & -> & _).
      - done.
      - done. }
    by rewrite Hrun in Hinv.
  - apply write_bugs_returns in Hrun as (s1 & _ & -> & ->). cbn.
    by rewrite last_snoc.
Qed.

(** X26. The keys of the statistics: when a pass returns, every severity
    it counted is a value of the severity map or ["UNSPECIFIED"], the
    aggregate dictionary has no key but ["report_count"], and no entry of
    the three dictionaries is zero. *)
Theorem write_bugs_statistics_keys reports files analyzed_source_file
    (st st' : fstate H) stats :
  write_bugs severity_map skiplist_handler print_steps report_plus_str
    report_str source_get_suppressed get_line py_repr reports files
    analyzed_source_file st = (Ok stats, st') ->
  (forall sev n, stats_severity stats !! sev = Some n ->
                 0 < n /\
                 (sev = "UNSPECIFIED" \/
                  exists checker, severity_map !! checker = Some sev)) /\
  (forall k n, stats_files stats !! k = Some n -> 0 < n) /\
  (forall k n, stats_reports stats !! k = Some n ->
               0 < n /\ k = "report_count").
Proof.
  intros Hrun. fold pass in Hrun.
  set (I := fun s : fstate H =>
    (forall sev n, severity_stats s !! sev = Some n ->
                   0 < n /\
                   (sev = "UNSPECIFIED" \/
                    exists checker, severity_map !! checker = Some sev)) /\
    (forall k n, file_stats s !! k = Some n -> 0 < n) /\
    (forall k n, report_count s !! k = Some n ->
                 0 < n /\ k = "report_count")).
  assert (I (pass reports files analyzed_source_file st).2) as Hinv.
  { apply write_bugs_inv.
    - done.
    - done.
    - intros ? ? ? ? a b c s _ Hs.
      by destruct (promote_suppression_run a b c s) as (? & -> & _).
    - intros f c s (Hsev & Hfiles & Hcounts).
      destruct (count_report_run f c s)
        as (stats' & files' & counts' & -> & Hs1 & Hs2 & Hs3).
      split; [|split]; cbn.
      + destruct Hs1 as [->|[ch ->]]; [done|]. intros sev n Hn.
        apply incr_lookup in Hn as [[-> Hpos]|Hn]; [|by apply Hsev].
        split; [done|].
        destruct (severity_map !! ch) eqn:Hch; cbn; [right|left]; eauto.
      + destruct Hs2 as [->|[k0 ->]]; [done|]. intros k n Hn.
        apply incr_lookup in Hn as [[-> Hpos]|Hn]; [done|].
        by eapply Hfiles.
      + destruct Hs3 as [->| ->]; [done|]. intros k n Hn.
        apply incr_lookup in Hn as [[-> Hpos]|Hn]; [done|].
        by apply Hcounts.
    - done.
    - split_and!; intros ? ? Hn; cbn in Hn; by rewrite lookup_empty in Hn. }
  rewrite Hrun in Hinv.
  apply write_bugs_returns in Hrun as (s1 & _ & -> & ->). exact Hinv.
Qed.

Lemma loop_untouched width files reports :
  forall s s' : fstate H,
    for_each reports (body width files) s = (Ok tt, s') ->
    non_suppressed s' = non_suppressed s ->
    untouched s s'.
Proof.
  induction reports as [|r rs IH]; intros s s' Hrun Hns.
  { injection Hrun as <-. by repeat split. }
  cbn [for_each] in Hrun. unfold bind at 1 in Hrun.
  pose proof (wp_write_bug severity_map skiplist_handler print_steps
                report_plus_str report_str source_get_suppressed get_line
                py_repr width files r s) as Hstep.
  unfold wp in Hstep. fold (body width files r) in Hstep.
  destruct (body width files r s) as [[[]|e] s1]; [|done].
  pose proof (loop_statistics severity_map skiplist_handler print_steps
                report_plus_str report_str source_get_suppressed get_line
                py_repr width files rs s1 s' Hrun) as (_ & _ & _ & _ & Hmono).
  destruct Hstep as [(U0 & U1 & U2 & U3 & U4)|[(_ & _ & _ & _ & C4) _]];
    [|lia].
  destruct (IH s1 s' Hrun) as (V0 & V1 & V2 & V3 & V4); [lia|].
  unfold untouched. by rewrite V0, V1, V2, V3, V4.
Qed.

(** X27. A pass that returns without having rendered a finding, because
    there was no report or because each one was dropped, returns three
    empty dictionaries and has written the "no defects" line and nothing
    else. *)
Theorem write_bugs_nothing_rendered reports files analyzed_source_file
    (st st' : fstate H) stats :
  write_bugs severity_map skiplist_handler print_steps report_plus_str
    report_str source_get_suppressed get_line py_repr reports files
    analyzed_source_file st = (Ok stats, st') ->
  non_suppressed st' = 0 ->
  stats = mkStats ∅ ∅ ∅ /\
  f_output st' = f_output st ++ [summary 0 analyzed_source_file].
Proof.
  intros Hrun Hzero. fold pass in Hrun.
  apply write_bugs_returns in Hrun as (s1 & Hloop & -> & ->).
  cbn in Hzero. apply loop_untouched in Hloop as (U0 & U1 & U2 & U3 & U4);
    [|by rewrite Hzero].
  cbn in U0, U1, U2, U3. cbn. by rewrite U0, U1, U2, U3, Hzero.
Qed.

End PassInvariants.


Lemma write_bugs_ends_with_summary_witness :
  exists stats st',
    Samples.sample_pass = (Ok stats, st') /\
    last (f_output st')
    = Some (summary (non_suppressed st') (Some "/src/main.c")).
Proof.
  destruct Samples.sample_pass as [[stats|e] st'] eqn:Hrun;
    [|by vm_compute in Hrun].
  exists stats, st'. split; [done|].
  exact (proj1 (proj2 (write_bugs_ends_with_summary _ _ _ _ _ _ _ _ _ _ _ _
                         _ _ Hrun))).
Defined.

Lemma write_bugs_statistics_keys_witness :
  exists stats st',
    Samples.sample_pass = (Ok stats, st') /\
    forall sev n, stats_severity stats !! sev = Some n ->
                  0 < n /\ sev = "UNSPECIFIED".
Proof.
  destruct Samples.sample_pass as [[stats|e] st'] eqn:Hrun;
    [|by vm_compute in Hrun].
  exists stats, st'. split; [done|]. intros sev n Hn.
  destruct (proj1 (write_bugs_statistics_keys _ _ _ _ _ _ _ _ _ _ _ _ _ _
                     Hrun) sev n Hn) as [Hpos [Hsev|[c Hc]]].
  - done.
  - by rewrite lookup_empty in Hc.
Defined.

Lemma write_bugs_nothing_rendered_witness :
  exists stats st',
    Samples.excluded_pass = (Ok stats, st') /\
    stats = mkStats ∅ ∅ ∅ /\
    f_output st' = ["Found no defects while analyzing main.c" +:+ nl].
Proof.
  destruct Samples.excluded_pass as [[stats|e] st'] eqn:Hrun;
    [|by vm_compute in Hrun].
  exists stats, st'. split; [done|].
  assert (non_suppressed st' = 0) as Hzero.
  { vm_compute in Hrun. by injection Hrun as _ <-. }
  exact (write_bugs_nothing_rendered _ _ _ _ _ _ _ _ _ _ _ _ _ _ Hrun Hzero).
Defined.

Section UnwritableHandler.

Variable store : Type.
Variable get_suppress_data : string -> store -> result (list suppress_record).
Variable write_to_suppress_file :
  string -> pyval -> pyval -> pyval -> M store bool.
Variable severity_map : gmap hkey string.
Variable skiplist_handler : option (pyval -> result bool).
Variable print_steps : bool.
Variable report_plus_str : Report -> string -> result string.
Variable report_str : Report -> string.
Variable source_get_suppressed :
  pyval -> pyval -> pyval -> pyval -> result (option (pyval * pyval * pyval)).
Variable get_line : pyval -> pyval -> result string.
Variable py_repr : pyval -> string.

Let backend : SuppressHandler (GenericSuppressHandler.t * store) :=
  GenericSuppressHandler.handler store get_suppress_data
                                 write_to_suppress_file.

(** X29. A pass whose suppress handler may not write leaves the handler
    and its suppress files as they were, also when it meets inline
    suppressions: they drop the finding but are not recorded. *)
Theorem unwritable_handler_unchanged (self : GenericSuppressHandler.t)
    (st0 : store) reports files analyzed_source_file
    (st : fstate (GenericSuppressHandler.t * store)) :
  GenericSuppressHandler.allow_write self = false ->
  f_handler st = Some (self, st0) ->
  f_handler
    (@write_bugs _ (GenericSuppressHandler.handler store get_suppress_data
                      write_to_suppress_file)
       severity_map skiplist_handler print_steps report_plus_str report_str
       source_get_suppressed get_line py_repr reports files
       analyzed_source_file st).2
  = Some (self, st0).
Proof.
  intros Hallow Hh.
  apply (@write_bugs_inv _ backend severity_map skiplist_handler print_steps
           report_plus_str report_str source_get_suppressed get_line py_repr
           (fun s => f_handler s = Some (self, st0))).
  - done.
  - done.
  - intros ? ? ? ? a b c s _ Hs.
    destruct (@promote_suppression_run _ backend a b c s) as (h & -> & Hp).
    rewrite Hs in Hp. subst h. cbn.
    unfold GenericSuppressHandler.store_suppress_bug_id, bind, gets.
    cbn. by rewrite Hallow.
  - intros f c s Hs.
    by destruct (count_report_run severity_map f c s)
      as (? & ? & ? & -> & _).
  - done.
  - done.
Qed.

End UnwritableHandler.

Lemma unwritable_handler_unchanged_witness :
  f_handler
    (@write_bugs _ (GenericSuppressHandler.handler Samples.suppress_files
                      Samples.read_records Samples.append_record)
       ∅ None false Samples.report_plus_unsupported Samples.sample_report_str
       (fun _ _ h _ => Ok (Some (h, PStr "a.c", PStr "inline")))
       Samples.one_line Samples.sample_repr Samples.three_reports
       (PList Samples.two_files) None
       (mkF (mkWorld ∅ ∅ []) (Some (Samples.handler_a, ∅)) [] ∅ ∅ ∅ 0)).2
  = Some (Samples.handler_a, ∅).
Proof.
  apply (unwritable_handler_unchanged Samples.suppress_files
           Samples.read_records Samples.append_record);
    reflexivity.
Defined.
